(** * Export of a dolomite-engine checkpoint to the GraniteMoeHybrid schema

    A shallow embedding of
    [dolomite_engine/hf_models/model_conversion/granitemoesharedhybrid.py]
    and the properties of the conversion: which target tensors are written,
    from which source tensors, and how the scalar configuration is mapped.

    Python exceptions are values of [exn] carried by the [result] monad;
    a Python [dict] with string keys is a [gmap string _]; a torch tensor
    is its shape together with its elements in row-major order. *)

From Stdlib Require Import ZArith Lia Ascii DecimalString DecimalNat.
From stdpp Require Import base option list strings gmap fin_maps.

Local Open Scope string_scope.
Set Warnings "-register-all".

(** ** Exceptions and the result monad *)

Inductive exn : Type :=
| AssertionError
| AttributeError
| IndexError
| KeyError
| RuntimeError
| TypeError
| ValueError
| ZeroDivisionError.

Inductive result (A : Type) : Type :=
| Ok (a : A)
| Raise (e : exn).
Arguments Ok {A} a.
Arguments Raise {A} e.

#[global] Instance result_ret : MRet result := λ A a, Ok a.
#[global] Instance result_bind : MBind result := λ A B f m,
  match m with
  | Ok a => f a
  | Raise e => Raise e
  end.

Definition is_ok {A} (r : result A) : bool :=
  match r with Ok _ => true | Raise _ => false end.

Definition fmap_snd {A B} (r : result (A * B)) : result B :=
  match r with Ok p => Ok p.2 | Raise e => Raise e end.

(** ** Python values held by configuration objects *)

Inductive pyval : Type :=
| PyNone
| PyBool (b : bool)
| PyInt (z : Z)
| PyFloat (bits : Z)      (* a float, by its IEEE-754 binary64 bit pattern *)
| PyStr (s : string)
| PyDict (items : list (string * pyval)).

(** [v == "..."] for a string literal on the right. *)
Definition py_eq_str (v : pyval) (s : string) : bool :=
  match v with
  | PyStr s' => bool_decide (s' = s)
  | _ => false
  end.

(** [a // b] on Python integers (a [bool] is an [int]): floor division, which
    is [Z.div], and [ZeroDivisionError] for a zero divisor. *)
Definition py_int (v : pyval) : option Z :=
  match v with
  | PyInt z => Some z
  | PyBool b => Some (if b then 1 else 0)%Z
  | _ => None
  end.

Definition int_floordiv (a b : pyval) : result pyval :=
  match py_int a, py_int b with
  | Some x, Some y => if decide (y = 0%Z) then Raise ZeroDivisionError else Ok (PyInt (x / y))
  | _, _ => Raise TypeError
  end.

(** ** Formatting of a layer index inside an f-string *)

Definition fmt_int (n : nat) : string := NilEmpty.string_of_uint (Nat.to_uint n).

(** ** Tensors *)

Section Tensor.
Context {A : Type}.

(** A tensor: its [shape] and its elements, row-major. *)
Record Tensor : Type := mkTensor { shape : list nat; data : list A }.

Definition numel (sh : list nat) : nat := foldr Nat.mul 1 sh.

Definition well_formed (t : Tensor) : Prop := length (data t) = numel (shape t).

(** Along dimension [dim] the elements fall into [outer_size] consecutive
    blocks, each made of [size dim] slices of [inner_size] elements. *)
Definition outer_size (sh : list nat) (dim : nat) : nat := numel (take dim sh).
Definition inner_size (sh : list nat) (dim : nat) : nat := numel (drop (S dim) sh).
Definition size (t : Tensor) (dim : nat) : nat := default 0 (shape t !! dim).

(** The [o]-th block of [bs] elements. *)
Definition block_at (bs o : nat) (l : list A) : list A := take bs (drop (o * bs) l).

(** [t.narrow(dim, start, len)]. *)
Definition narrow (t : Tensor) (dim start len : nat) : Tensor :=
  let inner := inner_size (shape t) dim in
  let n := size t dim in
  {| shape := <[dim := len]> (shape t);
     data := concat (map (λ o, take (len * inner) (drop (start * inner) (block_at (n * inner) o (data t))))
                         (seq 0 (outer_size (shape t) dim))) |}.

(** [t.chunk(chunks, dim)]: pieces of [ceil(n / chunks)] slices, the last
    one possibly shorter, so fewer than [chunks] pieces may come back; a
    dimension of size 0 gives [chunks] empty pieces.  A tensor without
    dimensions is refused, and so is a dimension that it does not have. *)
Definition torch_chunk (t : Tensor) (chunks dim : nat) : result (list Tensor) :=
  if decide (shape t = []) then Raise RuntimeError
  else if decide (chunks = 0) then Raise RuntimeError
  else match shape t !! dim with
       | None => Raise IndexError
       | Some n =>
         let split_size := (n + chunks - 1) / chunks in
         if decide (split_size = 0)
         then Ok (replicate chunks (narrow t dim 0 0))
         else Ok (map (λ j, narrow t dim (j * split_size) (Nat.min split_size (n - j * split_size)))
                      (seq 0 ((n + split_size - 1) / split_size)))
       end.

(** [torch.cat(ts, dim)]: the tensors agree on every dimension but [dim]. *)
Definition torch_cat (ts : list Tensor) (dim : nat) : result Tensor :=
  match ts with
  | [] => Raise RuntimeError
  | t0 :: _ =>
    if decide (dim < length (shape t0)) then
      if forallb (λ t, bool_decide (<[dim := 0]> (shape t) = <[dim := 0]> (shape t0))) ts then
        let inner := inner_size (shape t0) dim in
        Ok {| shape := <[dim := sum_list (map (λ t, size t dim) ts)]> (shape t0);
              data := concat (map (λ o, concat (map (λ t, block_at (size t dim * inner) o (data t)) ts))
                                  (seq 0 (outer_size (shape t0) dim))) |}
      else Raise RuntimeError
    else Raise IndexError
  end.

(** [_split_and_reorder_for_glu]; the unpacking [x, y = ...] needs exactly
    two pieces. *)
Definition _split_and_reorder_for_glu (weight : Tensor) (dim : nat) : result Tensor :=
  pieces ← torch_chunk weight 2 dim;
  match pieces with
  | [x; y] => torch_cat [y; x] dim
  | _ => Raise ValueError
  end.

End Tensor.
Arguments Tensor A : clear implicits.


(** ** The two configuration schemas *)

(** An args object of the source configuration: the sequence-mixer args
    classes declare [sequence_mixer_type], so [getattr] on that name cannot
    fail; every other attribute is looked up by name. *)
Record BlockArgs : Type := mkBlockArgs {
  sequence_mixer_type : pyval;
  attributes : gmap string pyval
}.

(** An entry of [sequence_mixer_blocks] is a plain [dict] or an args object. *)
Inductive block : Type :=
| BlockDict (d : gmap string pyval)
| BlockObject (o : BlockArgs).

Module GPTDolomiteConfig.
Record t : Type := mk {
    vocab_size : pyval;
    max_position_embeddings : pyval;
    hidden_size : pyval;
    num_layers : Z;
    layer_norm_epsilon : pyval;
    use_cache : pyval;
    tie_word_embeddings : pyval;
    initializer_range : pyval;
    rope_theta : pyval;
    rope_scaling : pyval;
    router_aux_loss_coef : pyval;
    bos_token_id : pyval;
    eos_token_id : pyval;
    pad_token_id : pyval;
    m_emb : pyval;
    m_residual : pyval;
    m_width : pyval;
    normalization_function : pyval;
    position_embedding_type : pyval;
    init_method : pyval;
    sequence_mixer_blocks : list block;
    mlp_blocks : list (gmap string pyval)
  }.
End GPTDolomiteConfig.

(** The target configuration class, by the names of its keyword arguments,
    which are also the names of the attributes of the object built from
    them. *)
Module GraniteMoeHybridConfig.
Record t : Type := mk {
    vocab_size : pyval;
    max_position_embeddings : pyval;
    hidden_size : pyval;
    num_hidden_layers : Z;
    num_attention_heads : pyval;
    shared_intermediate_size : pyval;
    num_key_value_heads : pyval;
    intermediate_size : pyval;
    hidden_act : pyval;
    rms_norm_eps : pyval;
    use_cache : pyval;
    attention_bias : pyval;
    tie_word_embeddings : pyval;
    initializer_range : pyval;
    rope_theta : pyval;
    rope_scaling : pyval;
    attention_dropout : pyval;
    num_local_experts : pyval;
    num_experts_per_tok : pyval;
    router_aux_loss_coef : pyval;
    bos_token_id : pyval;
    eos_token_id : pyval;
    pad_token_id : pyval;
    embedding_multiplier : pyval;
    residual_multiplier : pyval;
    logits_scaling : pyval;
    attention_multiplier : pyval;
    mamba_n_groups : pyval;
    mamba_n_heads : pyval;
    mamba_d_state : pyval;
    mamba_d_conv : pyval;
    mamba_chunk_size : pyval;
    mamba_conv_bias : pyval;
    mamba_proj_bias : pyval;
    layer_types : list pyval;
    normalization_function : pyval;
    position_embedding_type : pyval;
    init_method : pyval;
    architectures : list string
  }.
End GraniteMoeHybridConfig.

(** ** [_get_sequence_mixer_block_types] *)

(** The inner helper [_get]: [block.get(key)] on a dict ([None] when the key
    is absent), [getattr(block, key)] otherwise. *)
Definition _get (b : block) (key : string) : result pyval :=
  match b with
  | BlockDict d => Ok (default PyNone (d !! key))
  | BlockObject o =>
    if decide (key = "sequence_mixer_type") then Ok (sequence_mixer_type o)
    else match attributes o !! key with
         | Some v => Ok v
         | None => Raise AttributeError
         end
  end.

(** The renaming of one block type (the [if]/[elif] of the loop body). *)
Definition rename_block_type (block_type : pyval) : pyval :=
  if py_eq_str block_type "mamba2" then PyStr "mamba"
  else if py_eq_str block_type "softmax_attention" then PyStr "attention"
  else block_type.

(** The loop [for block in blocks: ... seq_mixer_block_types.append(...)]. *)
Fixpoint block_types_loop (blocks : list block) (seq_mixer_block_types : list pyval)
  : result (list pyval) :=
  match blocks with
  | [] => Ok seq_mixer_block_types
  | b :: blocks' =>
    block_type ← _get b "sequence_mixer_type";
    block_types_loop blocks' (seq_mixer_block_types ++ [rename_block_type block_type])
  end.

Definition _get_sequence_mixer_block_types (config : GPTDolomiteConfig.t) : result (list pyval) :=
  block_types_loop (GPTDolomiteConfig.sequence_mixer_blocks config) [].

(** ** f-strings and loops *)

(** [f"{pre}{layer_idx}{post}"]. *)
Definition fstr (pre : string) (layer_idx : nat) (post : string) : string :=
  pre +:+ fmt_int layer_idx +:+ post.

(** [for i in l: s = body(i, s)], leaving at the first exception. *)
Fixpoint for_each {S : Type} (l : list nat) (body : nat → S → result S) (s : S) : result S :=
  match l with
  | [] => Ok s
  | i :: l' => s' ← body i s; for_each l' body s'
  end.

(** [range(n)]. *)
Definition range (n : Z) : list nat := seq 0 (Z.to_nat n).

(** ** The conversion *)

Section Conversion.
Context {A : Type}.

(** The weights manager of the source checkpoint, seen through the two
    methods the conversion calls. *)
Record SafeTensorsWeightsManager : Type := mkManager {
    has_tensor : string → bool;
    get_tensor : string → result (Tensor A)
  }.

(** What the conversion imports from [modeling_utils] and the methods of
    the source configuration class it calls: each is a function that
    returns a value or raises. *)
Context {AttentionHeadType : Type}.
Variable get_attention_head_type : pyval → pyval → result AttentionHeadType.
Variable split_query_key_value_tensor_for_attention :
    Tensor A → pyval → pyval → pyval → AttentionHeadType → result (Tensor A * Tensor A * Tensor A).
(** [config.check_equal_for_all_and_get_value(key, key_block[, expected_value])] *)
Variable check_equal_for_all_and_get_value :
    GPTDolomiteConfig.t → string → string → option pyval → result pyval.
(** [config.check_equal_for_all_seq_mixer_and_get_value(key, sequence_mixer_type, key_block)] *)
Variable check_equal_for_all_seq_mixer_and_get_value :
    GPTDolomiteConfig.t → string → string → string → result pyval.
(** The operator [//] of the Python runtime, which the entry point applies
    to [hidden_size] and [num_attention_heads]; on integers it is
    [int_floordiv]. *)
Variable py_floordiv : pyval → pyval → result pyval.

(** [default if v is None else v]. *)
Definition if_none (default : pyval) (v : pyval) : pyval :=
    match v with PyNone => default | _ => v end.

(** The target class [GraniteMoeHybridConfig] comes from the [transformers]
    package.  Its constructor checks the keyword arguments and raises on
    those it refuses; which ones it refuses is left open, as the function
    [validate]. *)
Variable validate : GraniteMoeHybridConfig.t → result unit.

(** The call [GraniteMoeHybridConfig(...)]: when the checks pass, the
    constructor replaces an absent [num_key_value_heads] by
    [num_attention_heads]
    ([if num_key_value_heads is None: num_key_value_heads = num_attention_heads])
    and stores the arguments as the attributes of the object it returns. *)
Definition GraniteMoeHybridConfig_init (kwargs : GraniteMoeHybridConfig.t)
    : result GraniteMoeHybridConfig.t :=
    _ ← validate kwargs;
    Ok {|
      GraniteMoeHybridConfig.vocab_size := GraniteMoeHybridConfig.vocab_size kwargs;
      GraniteMoeHybridConfig.max_position_embeddings := GraniteMoeHybridConfig.max_position_embeddings kwargs;
      GraniteMoeHybridConfig.hidden_size := GraniteMoeHybridConfig.hidden_size kwargs;
      GraniteMoeHybridConfig.num_hidden_layers := GraniteMoeHybridConfig.num_hidden_layers kwargs;
      GraniteMoeHybridConfig.num_attention_heads := GraniteMoeHybridConfig.num_attention_heads kwargs;
      GraniteMoeHybridConfig.shared_intermediate_size := GraniteMoeHybridConfig.shared_intermediate_size kwargs;
      GraniteMoeHybridConfig.num_key_value_heads :=
        if_none (GraniteMoeHybridConfig.num_attention_heads kwargs)
                (GraniteMoeHybridConfig.num_key_value_heads kwargs);
      GraniteMoeHybridConfig.intermediate_size := GraniteMoeHybridConfig.intermediate_size kwargs;
      GraniteMoeHybridConfig.hidden_act := GraniteMoeHybridConfig.hidden_act kwargs;
      GraniteMoeHybridConfig.rms_norm_eps := GraniteMoeHybridConfig.rms_norm_eps kwargs;
      GraniteMoeHybridConfig.use_cache := GraniteMoeHybridConfig.use_cache kwargs;
      GraniteMoeHybridConfig.attention_bias := GraniteMoeHybridConfig.attention_bias kwargs;
      GraniteMoeHybridConfig.tie_word_embeddings := GraniteMoeHybridConfig.tie_word_embeddings kwargs;
      GraniteMoeHybridConfig.initializer_range := GraniteMoeHybridConfig.initializer_range kwargs;
      GraniteMoeHybridConfig.rope_theta := GraniteMoeHybridConfig.rope_theta kwargs;
      GraniteMoeHybridConfig.rope_scaling := GraniteMoeHybridConfig.rope_scaling kwargs;
      GraniteMoeHybridConfig.attention_dropout := GraniteMoeHybridConfig.attention_dropout kwargs;
      GraniteMoeHybridConfig.num_local_experts := GraniteMoeHybridConfig.num_local_experts kwargs;
      GraniteMoeHybridConfig.num_experts_per_tok := GraniteMoeHybridConfig.num_experts_per_tok kwargs;
      GraniteMoeHybridConfig.router_aux_loss_coef := GraniteMoeHybridConfig.router_aux_loss_coef kwargs;
      GraniteMoeHybridConfig.bos_token_id := GraniteMoeHybridConfig.bos_token_id kwargs;
      GraniteMoeHybridConfig.eos_token_id := GraniteMoeHybridConfig.eos_token_id kwargs;
      GraniteMoeHybridConfig.pad_token_id := GraniteMoeHybridConfig.pad_token_id kwargs;
      GraniteMoeHybridConfig.embedding_multiplier := GraniteMoeHybridConfig.embedding_multiplier kwargs;
      GraniteMoeHybridConfig.residual_multiplier := GraniteMoeHybridConfig.residual_multiplier kwargs;
      GraniteMoeHybridConfig.logits_scaling := GraniteMoeHybridConfig.logits_scaling kwargs;
      GraniteMoeHybridConfig.attention_multiplier := GraniteMoeHybridConfig.attention_multiplier kwargs;
      GraniteMoeHybridConfig.mamba_n_groups := GraniteMoeHybridConfig.mamba_n_groups kwargs;
      GraniteMoeHybridConfig.mamba_n_heads := GraniteMoeHybridConfig.mamba_n_heads kwargs;
      GraniteMoeHybridConfig.mamba_d_state := GraniteMoeHybridConfig.mamba_d_state kwargs;
      GraniteMoeHybridConfig.mamba_d_conv := GraniteMoeHybridConfig.mamba_d_conv kwargs;
      GraniteMoeHybridConfig.mamba_chunk_size := GraniteMoeHybridConfig.mamba_chunk_size kwargs;
      GraniteMoeHybridConfig.mamba_conv_bias := GraniteMoeHybridConfig.mamba_conv_bias kwargs;
      GraniteMoeHybridConfig.mamba_proj_bias := GraniteMoeHybridConfig.mamba_proj_bias kwargs;
      GraniteMoeHybridConfig.layer_types := GraniteMoeHybridConfig.layer_types kwargs;
      GraniteMoeHybridConfig.normalization_function := GraniteMoeHybridConfig.normalization_function kwargs;
      GraniteMoeHybridConfig.position_embedding_type := GraniteMoeHybridConfig.position_embedding_type kwargs;
      GraniteMoeHybridConfig.init_method := GraniteMoeHybridConfig.init_method kwargs;
      GraniteMoeHybridConfig.architectures := GraniteMoeHybridConfig.architectures kwargs
    |}.

Definition _export_config_to_huggingface (config : GPTDolomiteConfig.t)
    : result GraniteMoeHybridConfig.t :=
    if negb (py_eq_str (GPTDolomiteConfig.normalization_function config) "rmsnorm")
    then Raise AssertionError
    else
    let attn key_block := check_equal_for_all_seq_mixer_and_get_value
                            config "sequence_mixer_blocks" "softmax_attention" key_block in
    let mamba key_block := check_equal_for_all_seq_mixer_and_get_value
                             config "sequence_mixer_blocks" "mamba2" key_block in
    _ ← check_equal_for_all_and_get_value config "sequence_mixer_blocks" "add_bias" (Some (PyBool false));
    _ ← check_equal_for_all_and_get_value config "mlp_blocks" "add_bias" (Some (PyBool false));
    _ ← check_equal_for_all_and_get_value config "mlp_blocks" "activation_function" (Some (PyStr "swiglu"));
    _ ← check_equal_for_all_and_get_value config "mlp_blocks" "mlp_type" (Some (PyStr "MoE"));
    shared_intermediate_size ←
      check_equal_for_all_and_get_value config "mlp_blocks" "shared_intermediate_size" None;
    num_attention_heads ← attn "num_attention_heads";
    num_key_value_heads ← attn "num_key_value_heads";
    intermediate_size ← check_equal_for_all_and_get_value config "mlp_blocks" "intermediate_size" None;
    attention_bias ← attn "add_bias";
    attention_dropout ← attn "dropout";
    num_local_experts ← check_equal_for_all_and_get_value config "mlp_blocks" "num_experts" None;
    num_experts_per_tok ←
      check_equal_for_all_and_get_value config "mlp_blocks" "num_experts_per_tok" None;
    attention_multiplier ← attn "attention_multiplier";
    mamba_n_groups ← mamba "num_groups";
    mamba_n_heads ← mamba "num_heads";
    mamba_d_state ← mamba "state_size";
    mamba_d_conv ← mamba "conv_kernel_size";
    mamba_chunk_size ← mamba "chunk_size";
    mamba_conv_bias ← mamba "use_conv_bias";
    mamba_proj_bias ← mamba "add_bias";
    layer_types ← _get_sequence_mixer_block_types config;
    GraniteMoeHybridConfig_init {|
      GraniteMoeHybridConfig.vocab_size := GPTDolomiteConfig.vocab_size config;
      GraniteMoeHybridConfig.max_position_embeddings := GPTDolomiteConfig.max_position_embeddings config;
      GraniteMoeHybridConfig.hidden_size := GPTDolomiteConfig.hidden_size config;
      GraniteMoeHybridConfig.num_hidden_layers := GPTDolomiteConfig.num_layers config;
      GraniteMoeHybridConfig.num_attention_heads := num_attention_heads;
      GraniteMoeHybridConfig.shared_intermediate_size := if_none (PyInt 0) shared_intermediate_size;
      GraniteMoeHybridConfig.num_key_value_heads := num_key_value_heads;
      GraniteMoeHybridConfig.intermediate_size := intermediate_size;
      GraniteMoeHybridConfig.hidden_act := PyStr "silu";
      GraniteMoeHybridConfig.rms_norm_eps := GPTDolomiteConfig.layer_norm_epsilon config;
      GraniteMoeHybridConfig.use_cache := GPTDolomiteConfig.use_cache config;
      GraniteMoeHybridConfig.attention_bias := attention_bias;
      GraniteMoeHybridConfig.tie_word_embeddings := GPTDolomiteConfig.tie_word_embeddings config;
      GraniteMoeHybridConfig.initializer_range := GPTDolomiteConfig.initializer_range config;
      GraniteMoeHybridConfig.rope_theta := GPTDolomiteConfig.rope_theta config;
      GraniteMoeHybridConfig.rope_scaling := GPTDolomiteConfig.rope_scaling config;
      GraniteMoeHybridConfig.attention_dropout := attention_dropout;
      GraniteMoeHybridConfig.num_local_experts := num_local_experts;
      GraniteMoeHybridConfig.num_experts_per_tok := num_experts_per_tok;
      GraniteMoeHybridConfig.router_aux_loss_coef := GPTDolomiteConfig.router_aux_loss_coef config;
      GraniteMoeHybridConfig.bos_token_id := GPTDolomiteConfig.bos_token_id config;
      GraniteMoeHybridConfig.eos_token_id := GPTDolomiteConfig.eos_token_id config;
      GraniteMoeHybridConfig.pad_token_id := GPTDolomiteConfig.pad_token_id config;
      GraniteMoeHybridConfig.embedding_multiplier := if_none (PyInt 1) (GPTDolomiteConfig.m_emb config);
      GraniteMoeHybridConfig.residual_multiplier := if_none (PyInt 1) (GPTDolomiteConfig.m_residual config);
      GraniteMoeHybridConfig.logits_scaling := if_none (PyInt 1) (GPTDolomiteConfig.m_width config);
      GraniteMoeHybridConfig.attention_multiplier := attention_multiplier;
      GraniteMoeHybridConfig.mamba_n_groups := mamba_n_groups;
      GraniteMoeHybridConfig.mamba_n_heads := mamba_n_heads;
      GraniteMoeHybridConfig.mamba_d_state := mamba_d_state;
      GraniteMoeHybridConfig.mamba_d_conv := mamba_d_conv;
      GraniteMoeHybridConfig.mamba_chunk_size := mamba_chunk_size;
      GraniteMoeHybridConfig.mamba_conv_bias := mamba_conv_bias;
      GraniteMoeHybridConfig.mamba_proj_bias := mamba_proj_bias;
      GraniteMoeHybridConfig.layer_types := layer_types;
      GraniteMoeHybridConfig.normalization_function := GPTDolomiteConfig.normalization_function config;
      GraniteMoeHybridConfig.position_embedding_type := GPTDolomiteConfig.position_embedding_type config;
      GraniteMoeHybridConfig.init_method := GPTDolomiteConfig.init_method config;
      GraniteMoeHybridConfig.architectures := ["GraniteMoeHybridForCausalLM"]
    |}.

(** [seq_mixer_block_types[layer_idx]]. *)
Definition list_index (l : list pyval) (i : nat) : result pyval :=
    match l !! i with
    | Some v => Ok v
    | None => Raise IndexError
    end.

Section StateDict.
Variable safetensors_weights_manager : SafeTensorsWeightsManager.
Variable seq_mixer_block_types : list pyval.
Variables num_heads num_key_value_heads head_dim : pyval.
Variable attention_head_type : AttentionHeadType.

(** The [mamba] branch of the loop body. *)
Definition export_mamba (layer_idx : nat) (state_dict : gmap string (Tensor A))
      : result (gmap string (Tensor A)) :=
      t ← get_tensor safetensors_weights_manager (fstr "transformer.h." layer_idx ".sequence_mixer.conv1d.weight");
      let state_dict := <[fstr "model.layers." layer_idx ".mamba.conv1d.weight" := t]> state_dict in
      t ← get_tensor safetensors_weights_manager (fstr "transformer.h." layer_idx ".sequence_mixer.conv1d.bias");
      let state_dict := <[fstr "model.layers." layer_idx ".mamba.conv1d.bias" := t]> state_dict in
      t ← get_tensor safetensors_weights_manager (fstr "transformer.h." layer_idx ".sequence_mixer.in_proj.weight");
      let state_dict := <[fstr "model.layers." layer_idx ".mamba.in_proj.weight" := t]> state_dict in
      t ← get_tensor safetensors_weights_manager (fstr "transformer.h." layer_idx ".sequence_mixer.dt_bias");
      let state_dict := <[fstr "model.layers." layer_idx ".mamba.dt_bias" := t]> state_dict in
      t ← get_tensor safetensors_weights_manager (fstr "transformer.h." layer_idx ".sequence_mixer.A_log");
      let state_dict := <[fstr "model.layers." layer_idx ".mamba.A_log" := t]> state_dict in
      t ← get_tensor safetensors_weights_manager (fstr "transformer.h." layer_idx ".sequence_mixer.D");
      let state_dict := <[fstr "model.layers." layer_idx ".mamba.D" := t]> state_dict in
      t ← get_tensor safetensors_weights_manager (fstr "transformer.h." layer_idx ".sequence_mixer.out_proj.weight");
      let state_dict := <[fstr "model.layers." layer_idx ".mamba.out_proj.weight" := t]> state_dict in
      t ← get_tensor safetensors_weights_manager (fstr "transformer.h." layer_idx ".sequence_mixer.norm.weight");
      Ok (<[fstr "model.layers." layer_idx ".mamba.norm.weight" := t]> state_dict).

(** The [attention] branch of the loop body. *)
Definition export_attention (layer_idx : nat) (state_dict : gmap string (Tensor A))
      : result (gmap string (Tensor A)) :=
      c_attn ← get_tensor safetensors_weights_manager (fstr "transformer.h." layer_idx ".sequence_mixer.c_attn.weight");
      '(query_weight, key_weight, value_weight) ←
        split_query_key_value_tensor_for_attention
          c_attn num_heads num_key_value_heads head_dim attention_head_type;
      let state_dict := <[fstr "model.layers." layer_idx ".self_attn.q_proj.weight" := query_weight]> state_dict in
      let state_dict := <[fstr "model.layers." layer_idx ".self_attn.k_proj.weight" := key_weight]> state_dict in
      let state_dict := <[fstr "model.layers." layer_idx ".self_attn.v_proj.weight" := value_weight]> state_dict in
      t ← get_tensor safetensors_weights_manager (fstr "transformer.h." layer_idx ".sequence_mixer.c_proj.weight");
      Ok (<[fstr "model.layers." layer_idx ".self_attn.o_proj.weight" := t]> state_dict).

(** The shared-MLP tail of the loop body. *)
Definition export_shared (layer_idx : nat) (state_dict : gmap string (Tensor A))
      : result (gmap string (Tensor A)) :=
      if has_tensor safetensors_weights_manager (fstr "transformer.h." layer_idx ".mlp_block.c_fc_shared.weight") then
        w ← get_tensor safetensors_weights_manager (fstr "transformer.h." layer_idx ".mlp_block.c_fc_shared.weight");
        t ← _split_and_reorder_for_glu w 0;
        let state_dict := <[fstr "model.layers." layer_idx ".shared_mlp.input_linear.weight" := t]> state_dict in
        t ← get_tensor safetensors_weights_manager (fstr "transformer.h." layer_idx ".mlp_block.c_proj_shared.weight");
        Ok (<[fstr "model.layers." layer_idx ".shared_mlp.output_linear.weight" := t]> state_dict)
      else Ok state_dict.

(** One iteration of [for layer_idx in range(num_layers)]. *)
Definition export_layer (layer_idx : nat) (state_dict : gmap string (Tensor A))
      : result (gmap string (Tensor A)) :=
      t ← get_tensor safetensors_weights_manager (fstr "transformer.h." layer_idx ".ln_1.weight");
      let state_dict := <[fstr "model.layers." layer_idx ".input_layernorm.weight" := t]> state_dict in
      t ← get_tensor safetensors_weights_manager (fstr "transformer.h." layer_idx ".ln_2.weight");
      let state_dict := <[fstr "model.layers." layer_idx ".post_attention_layernorm.weight" := t]> state_dict in
      t ← get_tensor safetensors_weights_manager (fstr "transformer.h." layer_idx ".mlp_block.gate.weight");
      let state_dict := <[fstr "model.layers." layer_idx ".block_sparse_moe.router.layer.weight" := t]> state_dict in
      w ← get_tensor safetensors_weights_manager (fstr "transformer.h." layer_idx ".mlp_block.c_fc.weight");
      t ← _split_and_reorder_for_glu w 1;
      let state_dict := <[fstr "model.layers." layer_idx ".block_sparse_moe.input_linear.weight" := t]> state_dict in
      t ← get_tensor safetensors_weights_manager (fstr "transformer.h." layer_idx ".mlp_block.c_proj.weight");
      let state_dict := <[fstr "model.layers." layer_idx ".block_sparse_moe.output_linear.weight" := t]> state_dict in
      block_type ← list_index seq_mixer_block_types layer_idx;
      state_dict ←
        (if py_eq_str block_type "mamba" then export_mamba layer_idx state_dict
         else if py_eq_str block_type "attention" then export_attention layer_idx state_dict
         else Ok state_dict);
      export_shared layer_idx state_dict.
End StateDict.

Definition _export_state_dict_to_huggingface
      (safetensors_weights_manager : SafeTensorsWeightsManager)
      (num_layers : Z) (seq_mixer_block_types : list pyval)
      (num_heads num_key_value_heads head_dim : pyval)
    : result (gmap string (Tensor A)) :=
    wte ← get_tensor safetensors_weights_manager "transformer.wte.weight";
    ln_f ← get_tensor safetensors_weights_manager "transformer.ln_f.weight";
    let state_dict : gmap string (Tensor A) :=
      <["model.norm.weight" := ln_f]> (<["model.embed_tokens.weight" := wte]> ∅) in
    attention_head_type ← get_attention_head_type num_heads num_key_value_heads;
    state_dict ←
      (if has_tensor safetensors_weights_manager "lm_head.weight" then
         t ← get_tensor safetensors_weights_manager "lm_head.weight";
         Ok (<["lm_head.weight" := t]> state_dict)
       else Ok state_dict);
    for_each (range num_layers)
             (export_layer safetensors_weights_manager seq_mixer_block_types
                           num_heads num_key_value_heads head_dim attention_head_type)
             state_dict.

(** The part of [export_to_huggingface_granitemoehybrid] that computes: the
    target configuration and the target state dict, before they are
    written to [save_path]. *)
Definition export_to_huggingface_granitemoehybrid
      (config : GPTDolomiteConfig.t) (safetensors_weights_manager : SafeTensorsWeightsManager)
    : result (GraniteMoeHybridConfig.t * gmap string (Tensor A)) :=
    original_config ← _export_config_to_huggingface config;
    seq_mixer_block_types ← _get_sequence_mixer_block_types config;
    head_dim ← py_floordiv (GraniteMoeHybridConfig.hidden_size original_config)
                           (GraniteMoeHybridConfig.num_attention_heads original_config);
    state_dict ← _export_state_dict_to_huggingface
                   safetensors_weights_manager
                   (GPTDolomiteConfig.num_layers config)
                   seq_mixer_block_types
                   (GraniteMoeHybridConfig.num_attention_heads original_config)
                   (GraniteMoeHybridConfig.num_key_value_heads original_config)
                   head_dim;
    Ok (original_config, state_dict).

End Conversion.
Arguments SafeTensorsWeightsManager A : clear implicits.

(** ** Vocabulary of the statements *)

Section Roll.
Context {A : Type}.

(** [l] rotated left by [k] places. *)
Definition rotl (k : nat) (l : list A) : list A := drop k l ++ take k l.

(** [t] with its slices along [dim] rotated left by [k] places
    ([torch.roll(t, -k, dim)]). *)
Definition roll (t : Tensor A) (dim k : nat) : Tensor A :=
  let inner := inner_size (shape t) dim in
  {| shape := shape t;
     data := concat (map (λ o, rotl (k * inner) (block_at (size t dim * inner) o (data t)))
                         (seq 0 (outer_size (shape t) dim))) |}.

End Roll.

(** The text that follows a layer index in a tensor name starts with a dot. *)
Definition starts_with_dot (s : string) : Prop :=
  match s with
  | String c _ => c = "."%char
  | EmptyString => False
  end.

#[global] Instance starts_with_dot_dec s : Decision (starts_with_dot s).
Proof. destruct s; simpl; apply _. Defined.

(** The three kinds of transformation of the conversion. *)
Inductive category : Type :=
| DirectRename
| QKVSplit
| GluChannelSwap.

(** How one target tensor is obtained from its source tensor. *)
Inductive transformation : Type :=
| Rename
| SplitQuery
| SplitKey
| SplitValue
| GluSwap (dim : nat).

#[global] Instance transformation_eq_dec : EqDecision transformation.
Proof. solve_decision. Defined.

Definition category_of (h : transformation) : category :=
  match h with
  | Rename => DirectRename
  | SplitQuery | SplitKey | SplitValue => QKVSplit
  | GluSwap _ => GluChannelSwap
  end.

(** One assignment [state_dict[target_name] = ...] of the conversion. *)
Record mapping : Type := mkMapping {
  source_name : string;
  target_name : string;
  how : transformation
}.

#[global] Instance mapping_eq_dec : EqDecision mapping.
Proof. solve_decision. Defined.

(** The assignments outside the loop. *)
Definition global_mappings : list mapping :=
  [ mkMapping "transformer.wte.weight" "model.embed_tokens.weight" Rename;
    mkMapping "transformer.ln_f.weight" "model.norm.weight" Rename;
    mkMapping "lm_head.weight" "lm_head.weight" Rename ].

(** The assignments of the loop body, in the order of the source: what
    follows the layer index in the source name and in the target name. *)
Definition layer_table : list (string * string * transformation) :=
  [ (".ln_1.weight", ".input_layernorm.weight", Rename);
    (".ln_2.weight", ".post_attention_layernorm.weight", Rename);
    (".mlp_block.gate.weight", ".block_sparse_moe.router.layer.weight", Rename);
    (".mlp_block.c_fc.weight", ".block_sparse_moe.input_linear.weight", GluSwap 1);
    (".mlp_block.c_proj.weight", ".block_sparse_moe.output_linear.weight", Rename);
    (".sequence_mixer.conv1d.weight", ".mamba.conv1d.weight", Rename);
    (".sequence_mixer.conv1d.bias", ".mamba.conv1d.bias", Rename);
    (".sequence_mixer.in_proj.weight", ".mamba.in_proj.weight", Rename);
    (".sequence_mixer.dt_bias", ".mamba.dt_bias", Rename);
    (".sequence_mixer.A_log", ".mamba.A_log", Rename);
    (".sequence_mixer.D", ".mamba.D", Rename);
    (".sequence_mixer.out_proj.weight", ".mamba.out_proj.weight", Rename);
    (".sequence_mixer.norm.weight", ".mamba.norm.weight", Rename);
    (".sequence_mixer.c_attn.weight", ".self_attn.q_proj.weight", SplitQuery);
    (".sequence_mixer.c_attn.weight", ".self_attn.k_proj.weight", SplitKey);
    (".sequence_mixer.c_attn.weight", ".self_attn.v_proj.weight", SplitValue);
    (".sequence_mixer.c_proj.weight", ".self_attn.o_proj.weight", Rename);
    (".mlp_block.c_fc_shared.weight", ".shared_mlp.input_linear.weight", GluSwap 0);
    (".mlp_block.c_proj_shared.weight", ".shared_mlp.output_linear.weight", Rename) ].

Definition layer_mapping (layer_idx : nat) (row : string * string * transformation) : mapping :=
  mkMapping (fstr "transformer.h." layer_idx row.1.1) (fstr "model.layers." layer_idx row.1.2) row.2.

Definition layer_mappings (layer_idx : nat) : list mapping :=
  map (layer_mapping layer_idx) layer_table.

(** [m] is one of the assignments of the conversion. *)
Definition is_mapping (m : mapping) : Prop :=
  m ∈ global_mappings ∨ ∃ layer_idx : nat, m ∈ layer_mappings layer_idx.

Section Produces.
Context {A AttentionHeadType : Type}.
Variable split_query_key_value_tensor_for_attention :
  Tensor A → pyval → pyval → pyval → AttentionHeadType → result (Tensor A * Tensor A * Tensor A).

(** [t] is what the transformation [h] makes of the source tensor [w]. *)
Definition transforms (num_heads num_key_value_heads head_dim : pyval)
    (attention_head_type : AttentionHeadType)
    (h : transformation) (w t : Tensor A) : Prop :=
  match h with
  | Rename => t = w
  | SplitQuery => ∃ k v, split_query_key_value_tensor_for_attention
                           w num_heads num_key_value_heads head_dim attention_head_type = Ok (t, k, v)
  | SplitKey => ∃ q v, split_query_key_value_tensor_for_attention
                         w num_heads num_key_value_heads head_dim attention_head_type = Ok (q, t, v)
  | SplitValue => ∃ q k, split_query_key_value_tensor_for_attention
                           w num_heads num_key_value_heads head_dim attention_head_type = Ok (q, k, t)
  | GluSwap dim => _split_and_reorder_for_glu w dim = Ok t
  end.

(** [t] is the tensor that the assignment [m] stores. *)
Definition produces (wm : SafeTensorsWeightsManager A)
    (num_heads num_key_value_heads head_dim : pyval) (attention_head_type : AttentionHeadType)
    (m : mapping) (t : Tensor A) : Prop :=
  ∃ w, get_tensor wm (source_name m) = Ok w
       ∧ transforms num_heads num_key_value_heads head_dim attention_head_type (how m) w t.

End Produces.

(** The rows of the loop-body table that one iteration runs: the five
    common rows, the rows of the branch taken for [block_type], and the two
    shared-MLP rows when the shared tensor exists. *)
Definition rows_for (block_type : pyval) (shared : bool) : list (string * string * transformation) :=
  take 5 layer_table
  ++ (if py_eq_str block_type "mamba" then take 8 (drop 5 layer_table)
      else if py_eq_str block_type "attention" then take 4 (drop 13 layer_table)
      else [])
  ++ (if shared then drop 17 layer_table else []).

Section Enabled.
Context {A : Type}.

(** The stores of layer [layer_idx], in order. *)
Definition store_all (layer_idx : nat) (entries : list ((string * string * transformation) * Tensor A))
    (state_dict : gmap string (Tensor A)) : gmap string (Tensor A) :=
  foldl (λ sd e, <[fstr "model.layers." layer_idx e.1.1.2 := e.2]> sd) state_dict entries.

(** [m] is an assignment that a run on this checkpoint executes. *)
Definition enabled (wm : SafeTensorsWeightsManager A) (num_layers : Z)
    (seq_mixer_block_types : list pyval) (m : mapping) : Prop :=
  m ∈ take 2 global_mappings
  ∨ (has_tensor wm "lm_head.weight" = true ∧ m ∈ drop 2 global_mappings)
  ∨ ∃ (layer_idx : nat) block_type row,
      (Z.of_nat layer_idx < num_layers)%Z
      ∧ seq_mixer_block_types !! layer_idx = Some block_type
      ∧ row ∈ rows_for block_type
                (has_tensor wm (fstr "transformer.h." layer_idx ".mlp_block.c_fc_shared.weight"))
      ∧ m = layer_mapping layer_idx row.

End Enabled.

(** ** A sample checkpoint

    A two-layer checkpoint (layer 0 attention with a shared MLP, layer 1
    mamba) and stand-ins for the imported functions, used to run the
    conversion on concrete data. *)

Definition manager_of (tensors : gmap string (Tensor Z)) : SafeTensorsWeightsManager Z :=
  {| has_tensor := λ name, bool_decide (is_Some (tensors !! name));
     get_tensor := λ name, match tensors !! name with
                           | Some t => Ok t
                           | None => Raise KeyError
                           end |}.

Definition sample_tensors : gmap string (Tensor Z) :=
  list_to_map
    [ ("transformer.wte.weight", mkTensor [2; 2] [1; 2; 3; 4]%Z);
      ("transformer.ln_f.weight", mkTensor [2] [5; 6]%Z);
      ("transformer.h.0.ln_1.weight", mkTensor [2] [7; 8]%Z);
      ("transformer.h.0.ln_2.weight", mkTensor [2] [9; 10]%Z);
      ("transformer.h.0.mlp_block.gate.weight", mkTensor [1; 2] [11; 12]%Z);
      ("transformer.h.0.mlp_block.c_fc.weight", mkTensor [1; 4; 2] [1; 2; 3; 4; 5; 6; 7; 8]%Z);
      ("transformer.h.0.mlp_block.c_proj.weight", mkTensor [1; 2; 2] [13; 14; 15; 16]%Z);
      ("transformer.h.0.sequence_mixer.c_attn.weight", mkTensor [6; 1] [21; 22; 23; 24; 25; 26]%Z);
      ("transformer.h.0.sequence_mixer.c_proj.weight", mkTensor [2; 2] [27; 28; 29; 30]%Z);
      ("transformer.h.0.mlp_block.c_fc_shared.weight", mkTensor [4; 2] [31; 32; 33; 34; 35; 36; 37; 38]%Z);
      ("transformer.h.0.mlp_block.c_proj_shared.weight", mkTensor [2; 2] [39; 40; 41; 42]%Z);
      ("transformer.h.1.ln_1.weight", mkTensor [2] [43; 44]%Z);
      ("transformer.h.1.ln_2.weight", mkTensor [2] [45; 46]%Z);
      ("transformer.h.1.mlp_block.gate.weight", mkTensor [1; 2] [47; 48]%Z);
      ("transformer.h.1.mlp_block.c_fc.weight", mkTensor [1; 2; 2] [49; 50; 51; 52]%Z);
      ("transformer.h.1.mlp_block.c_proj.weight", mkTensor [1; 2; 1] [53; 54]%Z);
      ("transformer.h.1.sequence_mixer.conv1d.weight", mkTensor [2; 1; 2] [55; 56; 57; 58]%Z);
      ("transformer.h.1.sequence_mixer.conv1d.bias", mkTensor [2] [59; 60]%Z);
      ("transformer.h.1.sequence_mixer.in_proj.weight", mkTensor [2; 2] [61; 62; 63; 64]%Z);
      ("transformer.h.1.sequence_mixer.dt_bias", mkTensor [1] [65]%Z);
      ("transformer.h.1.sequence_mixer.A_log", mkTensor [1] [66]%Z);
      ("transformer.h.1.sequence_mixer.D", mkTensor [1] [67]%Z);
      ("transformer.h.1.sequence_mixer.out_proj.weight", mkTensor [2; 2] [68; 69; 70; 71]%Z);
      ("transformer.h.1.sequence_mixer.norm.weight", mkTensor [2] [72; 73]%Z) ].

Definition sample_manager : SafeTensorsWeightsManager Z := manager_of sample_tensors.

(** Stand-in for [get_attention_head_type]: the head type by its name. *)
Definition sample_get_attention_head_type (num_heads num_key_value_heads : pyval) : result string :=
  match py_int num_heads, py_int num_key_value_heads with
  | Some h, Some kv =>
    if decide (h = kv) then Ok "mha" else if decide (kv = 1%Z) then Ok "mqa" else Ok "gqa"
  | _, _ => Raise TypeError
  end.

(** Stand-in for [split_query_key_value_tensor_for_attention]: three equal
    pieces along dimension 0. *)
Definition sample_split (w : Tensor Z) (num_heads num_key_value_heads head_dim : pyval)
    (attention_head_type : string) : result (Tensor Z * Tensor Z * Tensor Z) :=
  pieces ← torch_chunk w 3 0;
  match pieces with
  | [q; k; v] => Ok (q, k, v)
  | _ => Raise ValueError
  end.

Definition sample_attention_args : gmap string pyval :=
  list_to_map
    [ ("sequence_mixer_type", PyStr "softmax_attention"); ("num_attention_heads", PyInt 1);
      ("num_key_value_heads", PyInt 1); ("add_bias", PyBool false); ("dropout", PyInt 0);
      ("attention_multiplier", PyNone) ].

Definition sample_mamba_args : gmap string pyval :=
  list_to_map
    [ ("num_groups", PyInt 1); ("num_heads", PyInt 2); ("state_size", PyInt 4);
      ("conv_kernel_size", PyInt 2); ("chunk_size", PyInt 8); ("use_conv_bias", PyBool true);
      ("add_bias", PyBool false) ].

Definition sample_mlp_args : gmap string pyval :=
  list_to_map
    [ ("add_bias", PyBool false); ("activation_function", PyStr "swiglu"); ("mlp_type", PyStr "MoE");
      ("intermediate_size", PyInt 2); ("num_experts", PyInt 1); ("num_experts_per_tok", PyInt 1) ].

(** The sample configuration, by its [normalization_function] and [m_emb]. *)
Definition sample_config_with (normalization_function m_emb : pyval) : GPTDolomiteConfig.t :=
  {| GPTDolomiteConfig.vocab_size := PyInt 2;
     GPTDolomiteConfig.max_position_embeddings := PyInt 16;
     GPTDolomiteConfig.hidden_size := PyInt 2;
     GPTDolomiteConfig.num_layers := 2;
     GPTDolomiteConfig.layer_norm_epsilon := PyFloat 0x3EE4F8B588E368F1;
     GPTDolomiteConfig.use_cache := PyBool true;
     GPTDolomiteConfig.tie_word_embeddings := PyBool true;
     GPTDolomiteConfig.initializer_range := PyFloat 0x3F947AE147AE147B;
     GPTDolomiteConfig.rope_theta := PyInt 10000;
     GPTDolomiteConfig.rope_scaling := PyNone;
     GPTDolomiteConfig.router_aux_loss_coef := PyFloat 0x3F50624DD2F1A9FC;
     GPTDolomiteConfig.bos_token_id := PyInt 0;
     GPTDolomiteConfig.eos_token_id := PyInt 0;
     GPTDolomiteConfig.pad_token_id := PyInt 0;
     GPTDolomiteConfig.m_emb := m_emb;
     GPTDolomiteConfig.m_residual := PyNone;
     GPTDolomiteConfig.m_width := PyNone;
     GPTDolomiteConfig.normalization_function := normalization_function;
     GPTDolomiteConfig.position_embedding_type := PyStr "nope";
     GPTDolomiteConfig.init_method := PyStr "normal";
     GPTDolomiteConfig.sequence_mixer_blocks :=
       [ BlockDict sample_attention_args;
         BlockObject (mkBlockArgs (PyStr "mamba2") sample_mamba_args) ];
     GPTDolomiteConfig.mlp_blocks := [ sample_mlp_args; sample_mlp_args ] |}.

Definition sample_config : GPTDolomiteConfig.t := sample_config_with (PyStr "rmsnorm") PyNone.

(** The sample configuration with an attention block that gives no
    [num_key_value_heads]. *)
Definition sample_config_without_key_value_heads : GPTDolomiteConfig.t :=
  {| GPTDolomiteConfig.vocab_size := GPTDolomiteConfig.vocab_size sample_config;
     GPTDolomiteConfig.max_position_embeddings := GPTDolomiteConfig.max_position_embeddings sample_config;
     GPTDolomiteConfig.hidden_size := GPTDolomiteConfig.hidden_size sample_config;
     GPTDolomiteConfig.num_layers := GPTDolomiteConfig.num_layers sample_config;
     GPTDolomiteConfig.layer_norm_epsilon := GPTDolomiteConfig.layer_norm_epsilon sample_config;
     GPTDolomiteConfig.use_cache := GPTDolomiteConfig.use_cache sample_config;
     GPTDolomiteConfig.tie_word_embeddings := GPTDolomiteConfig.tie_word_embeddings sample_config;
     GPTDolomiteConfig.initializer_range := GPTDolomiteConfig.initializer_range sample_config;
     GPTDolomiteConfig.rope_theta := GPTDolomiteConfig.rope_theta sample_config;
     GPTDolomiteConfig.rope_scaling := GPTDolomiteConfig.rope_scaling sample_config;
     GPTDolomiteConfig.router_aux_loss_coef := GPTDolomiteConfig.router_aux_loss_coef sample_config;
     GPTDolomiteConfig.bos_token_id := GPTDolomiteConfig.bos_token_id sample_config;
     GPTDolomiteConfig.eos_token_id := GPTDolomiteConfig.eos_token_id sample_config;
     GPTDolomiteConfig.pad_token_id := GPTDolomiteConfig.pad_token_id sample_config;
     GPTDolomiteConfig.m_emb := GPTDolomiteConfig.m_emb sample_config;
     GPTDolomiteConfig.m_residual := GPTDolomiteConfig.m_residual sample_config;
     GPTDolomiteConfig.m_width := GPTDolomiteConfig.m_width sample_config;
     GPTDolomiteConfig.normalization_function := GPTDolomiteConfig.normalization_function sample_config;
     GPTDolomiteConfig.position_embedding_type := GPTDolomiteConfig.position_embedding_type sample_config;
     GPTDolomiteConfig.init_method := GPTDolomiteConfig.init_method sample_config;
     GPTDolomiteConfig.sequence_mixer_blocks :=
       [ BlockDict (delete "num_key_value_heads" sample_attention_args);
         BlockObject (mkBlockArgs (PyStr "mamba2") sample_mamba_args) ];
     GPTDolomiteConfig.mlp_blocks := GPTDolomiteConfig.mlp_blocks sample_config |}.

(** The sample configuration with a third block, a dict that names no
    [sequence_mixer_type]. *)
Definition sample_config_with_untyped_block : GPTDolomiteConfig.t :=
  {| GPTDolomiteConfig.vocab_size := GPTDolomiteConfig.vocab_size sample_config;
     GPTDolomiteConfig.max_position_embeddings := GPTDolomiteConfig.max_position_embeddings sample_config;
     GPTDolomiteConfig.hidden_size := GPTDolomiteConfig.hidden_size sample_config;
     GPTDolomiteConfig.num_layers := GPTDolomiteConfig.num_layers sample_config;
     GPTDolomiteConfig.layer_norm_epsilon := GPTDolomiteConfig.layer_norm_epsilon sample_config;
     GPTDolomiteConfig.use_cache := GPTDolomiteConfig.use_cache sample_config;
     GPTDolomiteConfig.tie_word_embeddings := GPTDolomiteConfig.tie_word_embeddings sample_config;
     GPTDolomiteConfig.initializer_range := GPTDolomiteConfig.initializer_range sample_config;
     GPTDolomiteConfig.rope_theta := GPTDolomiteConfig.rope_theta sample_config;
     GPTDolomiteConfig.rope_scaling := GPTDolomiteConfig.rope_scaling sample_config;
     GPTDolomiteConfig.router_aux_loss_coef := GPTDolomiteConfig.router_aux_loss_coef sample_config;
     GPTDolomiteConfig.bos_token_id := GPTDolomiteConfig.bos_token_id sample_config;
     GPTDolomiteConfig.eos_token_id := GPTDolomiteConfig.eos_token_id sample_config;
     GPTDolomiteConfig.pad_token_id := GPTDolomiteConfig.pad_token_id sample_config;
     GPTDolomiteConfig.m_emb := GPTDolomiteConfig.m_emb sample_config;
     GPTDolomiteConfig.m_residual := GPTDolomiteConfig.m_residual sample_config;
     GPTDolomiteConfig.m_width := GPTDolomiteConfig.m_width sample_config;
     GPTDolomiteConfig.normalization_function := GPTDolomiteConfig.normalization_function sample_config;
     GPTDolomiteConfig.position_embedding_type := GPTDolomiteConfig.position_embedding_type sample_config;
     GPTDolomiteConfig.init_method := GPTDolomiteConfig.init_method sample_config;
     GPTDolomiteConfig.sequence_mixer_blocks :=
       GPTDolomiteConfig.sequence_mixer_blocks sample_config ++ [BlockDict ∅];
     GPTDolomiteConfig.mlp_blocks := GPTDolomiteConfig.mlp_blocks sample_config |}.

(** Stand-in for [check_equal_for_all_and_get_value]: the value that the
    first block of the list named [key] has for [key_block]. *)
Definition sample_check_equal (config : GPTDolomiteConfig.t) (key key_block : string)
    (expected_value : option pyval) : result pyval :=
  if decide (key = "mlp_blocks") then
    match GPTDolomiteConfig.mlp_blocks config with
    | b :: _ => Ok (default PyNone (b !! key_block))
    | [] => Raise IndexError
    end
  else
    match GPTDolomiteConfig.sequence_mixer_blocks config with
    | b :: _ => _get b key_block
    | [] => Raise IndexError
    end.

(** Stand-in for [check_equal_for_all_seq_mixer_and_get_value]: the value
    that the first block of the given sequence-mixer type has for
    [key_block], [None] when there is no such block. *)
Definition sample_check_equal_seq_mixer (config : GPTDolomiteConfig.t)
    (key sequence_mixer_type key_block : string) : result pyval :=
  match List.filter (λ b, match _get b "sequence_mixer_type" with
                          | Ok v => py_eq_str v sequence_mixer_type
                          | Raise _ => false
                          end)
                    (GPTDolomiteConfig.sequence_mixer_blocks config) with
  | b :: _ => _get b key_block
  | [] => Ok PyNone
  end.

(** A stand-in for the checks of the constructor: it accepts the keyword
    arguments whose layer types are all ["mamba"] or ["attention"]. *)
Definition sample_validate (kwargs : GraniteMoeHybridConfig.t) : result unit :=
  if forallb (λ v, py_eq_str v "mamba" || py_eq_str v "attention")
             (GraniteMoeHybridConfig.layer_types kwargs)
  then Ok () else Raise ValueError.

(** The state dict expected for the sample checkpoint. *)
Definition sample_state_dict : gmap string (Tensor Z) :=
  list_to_map
    [ ("model.embed_tokens.weight", mkTensor [2; 2] [1; 2; 3; 4]%Z);
      ("model.norm.weight", mkTensor [2] [5; 6]%Z);
      ("model.layers.0.input_layernorm.weight", mkTensor [2] [7; 8]%Z);
      ("model.layers.0.post_attention_layernorm.weight", mkTensor [2] [9; 10]%Z);
      ("model.layers.0.block_sparse_moe.router.layer.weight", mkTensor [1; 2] [11; 12]%Z);
      ("model.layers.0.block_sparse_moe.input_linear.weight",
       mkTensor [1; 4; 2] [5; 6; 7; 8; 1; 2; 3; 4]%Z);
      ("model.layers.0.block_sparse_moe.output_linear.weight", mkTensor [1; 2; 2] [13; 14; 15; 16]%Z);
      ("model.layers.0.self_attn.q_proj.weight", mkTensor [2; 1] [21; 22]%Z);
      ("model.layers.0.self_attn.k_proj.weight", mkTensor [2; 1] [23; 24]%Z);
      ("model.layers.0.self_attn.v_proj.weight", mkTensor [2; 1] [25; 26]%Z);
      ("model.layers.0.self_attn.o_proj.weight", mkTensor [2; 2] [27; 28; 29; 30]%Z);
      ("model.layers.0.shared_mlp.input_linear.weight",
       mkTensor [4; 2] [35; 36; 37; 38; 31; 32; 33; 34]%Z);
      ("model.layers.0.shared_mlp.output_linear.weight", mkTensor [2; 2] [39; 40; 41; 42]%Z);
      ("model.layers.1.input_layernorm.weight", mkTensor [2] [43; 44]%Z);
      ("model.layers.1.post_attention_layernorm.weight", mkTensor [2] [45; 46]%Z);
      ("model.layers.1.block_sparse_moe.router.layer.weight", mkTensor [1; 2] [47; 48]%Z);
      ("model.layers.1.block_sparse_moe.input_linear.weight", mkTensor [1; 2; 2] [51; 52; 49; 50]%Z);
      ("model.layers.1.block_sparse_moe.output_linear.weight", mkTensor [1; 2; 1] [53; 54]%Z);
      ("model.layers.1.mamba.conv1d.weight", mkTensor [2; 1; 2] [55; 56; 57; 58]%Z);
      ("model.layers.1.mamba.conv1d.bias", mkTensor [2] [59; 60]%Z);
      ("model.layers.1.mamba.in_proj.weight", mkTensor [2; 2] [61; 62; 63; 64]%Z);
      ("model.layers.1.mamba.dt_bias", mkTensor [1] [65]%Z);
      ("model.layers.1.mamba.A_log", mkTensor [1] [66]%Z);
      ("model.layers.1.mamba.D", mkTensor [1] [67]%Z);
      ("model.layers.1.mamba.out_proj.weight", mkTensor [2; 2] [68; 69; 70; 71]%Z);
      ("model.layers.1.mamba.norm.weight", mkTensor [2] [72; 73]%Z) ].

(** The target configuration expected for the sample configuration. *)
Definition sample_original_config : GraniteMoeHybridConfig.t :=
  {| GraniteMoeHybridConfig.vocab_size := PyInt 2;
     GraniteMoeHybridConfig.max_position_embeddings := PyInt 16;
     GraniteMoeHybridConfig.hidden_size := PyInt 2;
     GraniteMoeHybridConfig.num_hidden_layers := 2;
     GraniteMoeHybridConfig.num_attention_heads := PyInt 1;
     GraniteMoeHybridConfig.shared_intermediate_size := PyInt 0;
     GraniteMoeHybridConfig.num_key_value_heads := PyInt 1;
     GraniteMoeHybridConfig.intermediate_size := PyInt 2;
     GraniteMoeHybridConfig.hidden_act := PyStr "silu";
     GraniteMoeHybridConfig.rms_norm_eps := PyFloat 0x3EE4F8B588E368F1;
     GraniteMoeHybridConfig.use_cache := PyBool true;
     GraniteMoeHybridConfig.attention_bias := PyBool false;
     GraniteMoeHybridConfig.tie_word_embeddings := PyBool true;
     GraniteMoeHybridConfig.initializer_range := PyFloat 0x3F947AE147AE147B;
     GraniteMoeHybridConfig.rope_theta := PyInt 10000;
     GraniteMoeHybridConfig.rope_scaling := PyNone;
     GraniteMoeHybridConfig.attention_dropout := PyInt 0;
     GraniteMoeHybridConfig.num_local_experts := PyInt 1;
     GraniteMoeHybridConfig.num_experts_per_tok := PyInt 1;
     GraniteMoeHybridConfig.router_aux_loss_coef := PyFloat 0x3F50624DD2F1A9FC;
     GraniteMoeHybridConfig.bos_token_id := PyInt 0;
     GraniteMoeHybridConfig.eos_token_id := PyInt 0;
     GraniteMoeHybridConfig.pad_token_id := PyInt 0;
     GraniteMoeHybridConfig.embedding_multiplier := PyInt 1;
     GraniteMoeHybridConfig.residual_multiplier := PyInt 1;
     GraniteMoeHybridConfig.logits_scaling := PyInt 1;
     GraniteMoeHybridConfig.attention_multiplier := PyNone;
     GraniteMoeHybridConfig.mamba_n_groups := PyInt 1;
     GraniteMoeHybridConfig.mamba_n_heads := PyInt 2;
     GraniteMoeHybridConfig.mamba_d_state := PyInt 4;
     GraniteMoeHybridConfig.mamba_d_conv := PyInt 2;
     GraniteMoeHybridConfig.mamba_chunk_size := PyInt 8;
     GraniteMoeHybridConfig.mamba_conv_bias := PyBool true;
     GraniteMoeHybridConfig.mamba_proj_bias := PyBool false;
     GraniteMoeHybridConfig.layer_types := [PyStr "attention"; PyStr "mamba"];
     GraniteMoeHybridConfig.normalization_function := PyStr "rmsnorm";
     GraniteMoeHybridConfig.position_embedding_type := PyStr "nope";
     GraniteMoeHybridConfig.init_method := PyStr "normal";
     GraniteMoeHybridConfig.architectures := ["GraniteMoeHybridForCausalLM"] |}.

(** The export of the sample state dict, as the entry point calls it. *)
Definition sample_run : result (gmap string (Tensor Z)) :=
  _export_state_dict_to_huggingface sample_get_attention_head_type sample_split sample_manager 2
    [PyStr "attention"; PyStr "mamba"] (PyInt 1) (PyInt 1) (PyInt 2).

(** The sample checkpoint behind a manager that answers [has_tensor] from
    the set of stored names. *)
Definition sample_manager_by_names : SafeTensorsWeightsManager Z :=
  {| has_tensor := λ name, bool_decide (name ∈ dom sample_tensors);
     get_tensor := get_tensor sample_manager |}.

(** The state dict expected for the sample checkpoint when no layer is
    exported. *)
Definition sample_state_dict_without_layers : gmap string (Tensor Z) :=
  list_to_map
    [ ("model.embed_tokens.weight", mkTensor [2; 2] [1; 2; 3; 4]%Z);
      ("model.norm.weight", mkTensor [2] [5; 6]%Z) ].

(** The block type that [_get] reads, for a block of either kind. *)
Definition block_type_of (b : block) : pyval :=
  match b with
  | BlockDict d => default PyNone (d !! "sequence_mixer_type")
  | BlockObject o => sequence_mixer_type o
  end.

(** * Properties *)

Local Open Scope nat_scope.
Local Open Scope list_scope.

(** ** [_split_and_reorder_for_glu] on small tensors *)

Example glu_2x4 :
  _split_and_reorder_for_glu (mkTensor [2; 4] [1; 2; 3; 4; 5; 6; 7; 8]%Z) 1
  = Ok (mkTensor [2; 4] [3; 4; 1; 2; 7; 8; 5; 6]%Z).
Proof. reflexivity. Qed.

Example glu_4x2 :
  _split_and_reorder_for_glu (mkTensor [4; 2] [1; 2; 3; 4; 5; 6; 7; 8]%Z) 0
  = Ok (mkTensor [4; 2] [5; 6; 7; 8; 1; 2; 3; 4]%Z).
Proof. reflexivity. Qed.

Example glu_3 :
  _split_and_reorder_for_glu (mkTensor [3] [1; 2; 3]%Z) 0 = Ok (mkTensor [3] [3; 1; 2]%Z).
Proof. reflexivity. Qed.

Example glu_1 :
  _split_and_reorder_for_glu (mkTensor [1] [1]%Z) 0 = Raise ValueError.
Proof. reflexivity. Qed.

Example glu_0 :
  _split_and_reorder_for_glu (mkTensor [0; 3] ([] : list Z)) 0 = Ok (mkTensor [0; 3] []).
Proof. reflexivity. Qed.

Example glu_3_twice :
  (_split_and_reorder_for_glu (mkTensor [3] [1; 2; 3]%Z) 0
   ≫= λ t, _split_and_reorder_for_glu t 0) = Ok (mkTensor [3] [2; 3; 1]%Z).
Proof. reflexivity. Qed.

(** ** Blocks of a flat list *)

Section BlockLemmas.
Context {A : Type}.
Implicit Types l : list A.

Lemma block_at_0 bs l : block_at bs 0 l = take bs l.
Proof. unfold block_at. by rewrite Nat.mul_0_l, drop_0. Qed.

Lemma block_at_S bs o l : block_at bs (S o) l = block_at bs o (drop bs l).
Proof. unfold block_at. rewrite drop_drop. f_equal. Qed.

Lemma length_block_at bs o l : (S o) * bs ≤ length l → length (block_at bs o l) = bs.
Proof.
  intros H. unfold block_at. rewrite length_take, length_drop. simpl in H. lia.
Qed.

(** The blocks of a list of [k] blocks, put back together. *)
Lemma concat_block_at bs k l :
  length l = k * bs → concat (map (λ o, block_at bs o l) (seq 0 k)) = l.
Proof.
  revert l. induction k as [|k IH]; intros l Hl.
  - simpl in *. by destruct l.
  - simpl. rewrite block_at_0, <- seq_shift, map_map.
    rewrite (map_ext _ (λ o, block_at bs o (drop bs l))) by (intros; apply block_at_S).
    rewrite IH; [apply take_drop|]. rewrite length_drop. simpl in Hl. lia.
Qed.

(** The [o]-th block of a concatenation of blocks of equal length. *)
Lemma block_at_concat_from (f : nat → list A) bs a k o :
  (∀ i, i < o → length (f (a + i)) = bs) → o < k →
  block_at bs o (concat (map f (seq a k))) = take bs (f (a + o) ++ concat (map f (seq (S (a + o)) (k - S o)))).
Proof.
  revert a k. induction o as [|o IH]; intros a k Hlen Hk.
  - destruct k as [|k]; [lia|]. simpl. rewrite block_at_0, Nat.add_0_r, Nat.sub_0_r. done.
  - destruct k as [|k]; [lia|]. simpl. rewrite block_at_S.
    rewrite drop_app_length' by (symmetry; rewrite <- (Nat.add_0_r a); apply Hlen; lia).
    rewrite IH; [|intros i Hi; replace (S a + i) with (a + S i) by lia; apply Hlen; lia|lia].
    by replace (S a + o) with (a + S o) by lia.
Qed.

Lemma block_at_concat (f : nat → list A) bs k o :
  (∀ i, i < k → length (f i) = bs) → o < k →
  block_at bs o (concat (map f (seq 0 k))) = f o.
Proof.
  intros Hlen Hk. rewrite block_at_concat_from by (simpl; auto with lia).
  simpl. apply take_app_length'. symmetry. auto.
Qed.

Lemma length_concat_blocks (f : nat → list A) bs a k :
  (∀ i, a ≤ i < a + k → length (f i) = bs) → length (concat (map f (seq a k))) = k * bs.
Proof.
  revert a. induction k as [|k IH]; intros a Hlen; simpl; [done|].
  rewrite length_app, Hlen by lia. rewrite IH; [done|]. intros i Hi. apply Hlen. lia.
Qed.

Lemma length_rotl k l : length (rotl k l) = length l.
Proof. unfold rotl. rewrite length_app, length_take, length_drop. lia. Qed.

Lemma rotl_0 l : rotl 0 l = l.
Proof. unfold rotl. by rewrite drop_0, take_0, app_nil_r. Qed.

Lemma rotl_all l : rotl (length l) l = l.
Proof. unfold rotl. by rewrite drop_all, firstn_all. Qed.

(** Rotating twice by [k], at least half of the length, rotates by the
    excess [2k - length l]. *)
Lemma rotl_rotl k l :
  k ≤ length l → length l ≤ 2 * k → rotl k (rotl k l) = rotl (2 * k - length l) l.
Proof.
  intros Hk Hl.
  assert (length (take k l) = k) as Ha by (rewrite length_take; lia).
  pose proof (take_drop k l) as E. revert Ha E.
  generalize (take k l) (drop k l). intros a b Ha <-.
  rewrite length_app in *. unfold rotl.
  rewrite (drop_app_length' a b k), (take_app_length' a b k) by lia.
  replace (2 * k - (length a + length b)) with (k - length b) by lia.
  rewrite drop_app_ge, take_app_ge by lia.
  rewrite (drop_app_le a b), (take_app_le a b) by lia.
  by rewrite <- !app_assoc.
Qed.

End BlockLemmas.

(** ** [_split_and_reorder_for_glu] as a rotation of slices *)

Section GluLemmas.
Context {A : Type}.
Implicit Types t : Tensor A.

Lemma numel_app (sh1 sh2 : list nat) : numel (sh1 ++ sh2) = numel sh1 * numel sh2.
Proof. induction sh1 as [|x sh1 IH]; simpl; [lia|]. rewrite IH. lia. Qed.

Lemma numel_split (sh : list nat) dim n :
  sh !! dim = Some n → numel sh = outer_size sh dim * (n * inner_size sh dim).
Proof.
  intros H. unfold outer_size, inner_size.
  rewrite <- (take_drop dim sh) at 1. rewrite numel_app.
  by rewrite (drop_S _ _ _ H).
Qed.

Lemma outer_size_insert (sh : list nat) dim x : outer_size (<[dim := x]> sh) dim = outer_size sh dim.
Proof. unfold outer_size. by rewrite take_insert_ge. Qed.

Lemma inner_size_insert (sh : list nat) dim x : inner_size (<[dim := x]> sh) dim = inner_size sh dim.
Proof. unfold inner_size. by rewrite drop_insert_lt by lia. Qed.

(** The pieces that [chunk(2, dim)] returns. *)
Lemma torch_chunk_2 t dim n :
  shape t !! dim = Some n →
  torch_chunk t 2 dim =
    Ok (if decide (n = 1) then [narrow t dim 0 1]
        else [narrow t dim 0 ((n + 1) / 2); narrow t dim ((n + 1) / 2) (n - (n + 1) / 2)]).
Proof.
  intros Hn. unfold torch_chunk. rewrite Hn.
  destruct (decide (shape t = [])) as [Hnil|_]; [by rewrite Hnil in Hn|].
  destruct (decide (2 = 0)) as [|_]; [lia|].
  replace (n + 2 - 1) with (n + 1) by lia.
  pose proof (Nat.div_mod_eq (n + 1) 2) as Hdiv.
  pose proof (Nat.mod_upper_bound (n + 1) 2) as Hmod.
  generalize dependent ((n + 1) / 2). intros s Hdiv.
  destruct (decide (s = 0)) as [Hs|Hs].
  - assert (n = 0) as -> by lia. subst s. by destruct (decide (0 = 1)).
  - destruct (decide (n = 1)) as [->|Hn1].
    + assert (s = 1) as -> by lia. done.
    + assert ((n + s - 1) / s = 2) as ->.
      { symmetry. apply (Nat.div_unique _ _ _ (n - 1 - s)); lia. }
      cbn [seq map]. do 3 f_equal; [|f_equal]; f_equal; lia.
Qed.

Lemma glu_unfold t dim n :
  shape t !! dim = Some n →
  _split_and_reorder_for_glu t dim =
    if decide (n = 1) then Raise ValueError
    else torch_cat [narrow t dim ((n + 1) / 2) (n - (n + 1) / 2); narrow t dim 0 ((n + 1) / 2)] dim.
Proof.
  intros Hn. unfold _split_and_reorder_for_glu. rewrite (torch_chunk_2 _ _ _ Hn).
  by destruct (decide (n = 1)).
Qed.

Lemma glu_no_dim t dim :
  shape t !! dim = None → is_ok (_split_and_reorder_for_glu t dim) = false.
Proof.
  intros Hn. unfold _split_and_reorder_for_glu, torch_chunk. rewrite Hn.
  by destruct (decide (shape t = [])).
Qed.

(** Concatenating two pieces cut from the same tensor. *)
Lemma torch_cat_narrow t dim n a la b lb :
  shape t !! dim = Some n →
  torch_cat [narrow t dim a la; narrow t dim b lb] dim =
    Ok {| shape := <[dim := la + lb]> (shape t);
          data := concat (map (λ o, block_at (la * inner_size (shape t) dim) o (data (narrow t dim a la))
                                    ++ block_at (lb * inner_size (shape t) dim) o (data (narrow t dim b lb)))
                              (seq 0 (outer_size (shape t) dim))) |}.
Proof.
  intros Hn. assert (dim < length (shape t)) as Hlt by (by eapply lookup_lt_Some).
  assert (∀ x y, size (narrow t dim x y) dim = y) as Hsize.
  { intros x y. unfold size. cbn [narrow shape]. by rewrite list_lookup_insert_eq. }
  unfold torch_cat. cbn [forallb map sum_list concat]. rewrite !Hsize.
  change (shape (narrow t dim a la)) with (<[dim := la]> (shape t)).
  change (shape (narrow t dim b lb)) with (<[dim := lb]> (shape t)).
  rewrite length_insert. destruct (decide (dim < length (shape t))) as [_|]; [|done].
  rewrite !list_insert_insert_eq, !bool_decide_eq_true_2 by done.
  cbn [andb]. rewrite inner_size_insert, outer_size_insert, Nat.add_0_r.
  do 3 f_equal. apply map_ext. intros o. by rewrite app_nil_r.
Qed.

Lemma length_block_data t dim n o :
  well_formed t → shape t !! dim = Some n → o < outer_size (shape t) dim →
  length (block_at (n * inner_size (shape t) dim) o (data t)) = n * inner_size (shape t) dim.
Proof.
  intros Hwf Hn Ho. apply length_block_at. rewrite Hwf, (numel_split _ _ _ Hn).
  apply Nat.mul_le_mono_r. lia.
Qed.

(** A block of a piece is the piece of the block. *)
Lemma block_at_narrow t dim n a la o :
  well_formed t → shape t !! dim = Some n → a + la ≤ n → o < outer_size (shape t) dim →
  block_at (la * inner_size (shape t) dim) o (data (narrow t dim a la))
  = take (la * inner_size (shape t) dim)
         (drop (a * inner_size (shape t) dim) (block_at (n * inner_size (shape t) dim) o (data t))).
Proof.
  intros Hwf Hn Hle Ho. cbn [narrow data]. unfold size. rewrite Hn. cbn [default from_option id].
  rewrite block_at_concat; [done| |done].
  intros i Hi. rewrite length_take, length_drop, (length_block_data _ _ _ _ Hwf Hn Hi). nia.
Qed.

(** For a size other than 1 the function rotates the slices along [dim] by
    [ceil(n / 2)] places. *)
Lemma glu_roll t dim n :
  well_formed t → shape t !! dim = Some n → n ≠ 1 →
  _split_and_reorder_for_glu t dim = Ok (roll t dim ((n + 1) / 2)).
Proof.
  intros Hwf Hn Hn1. rewrite (glu_unfold _ _ _ Hn).
  destruct (decide (n = 1)) as [|_]; [done|].
  rewrite (torch_cat_narrow _ _ _ _ _ _ _ Hn).
  pose proof (Nat.div_mod_eq (n + 1) 2) as Hdiv.
  pose proof (Nat.mod_upper_bound (n + 1) 2) as Hmod.
  generalize dependent ((n + 1) / 2). intros s Hdiv.
  unfold roll. f_equal. replace (n - s + s) with n by lia.
  rewrite (list_insert_id _ _ _ Hn). f_equal. f_equal.
  apply map_ext_in. intros o [_ Ho]%in_seq. simpl in Ho.
  rewrite !(block_at_narrow _ _ n) by (done || lia).
  unfold size. rewrite Hn. cbn [default from_option id]. unfold rotl.
  pose proof (length_block_data _ _ _ _ Hwf Hn Ho) as Hlen.
  rewrite Nat.mul_0_l, drop_0. f_equal.
  apply take_ge. rewrite length_drop, Hlen. nia.
Qed.

Lemma well_formed_roll t dim n k :
  well_formed t → shape t !! dim = Some n → well_formed (roll t dim k).
Proof.
  intros Hwf Hn. unfold well_formed, roll. cbn [data shape].
  unfold size. rewrite Hn. cbn [default from_option id].
  rewrite (length_concat_blocks _ (n * inner_size (shape t) dim)).
  - by rewrite (numel_split _ _ _ Hn).
  - intros i Hi. rewrite length_rotl. apply (length_block_data _ _ _ _ Hwf Hn). lia.
Qed.

Lemma roll_0 t dim n : well_formed t → shape t !! dim = Some n → roll t dim 0 = t.
Proof.
  intros Hwf Hn. destruct t as [sh d]. unfold roll, size, well_formed in *. cbn [shape data] in *.
  rewrite Hn. cbn [default from_option id]. f_equal.
  rewrite (map_ext _ (λ o, block_at (n * inner_size sh dim) o d)) by (intros; apply rotl_0).
  apply concat_block_at. by rewrite Hwf, (numel_split _ _ _ Hn).
Qed.

(** Rolling twice by [k], at least half of the size, rolls by the excess. *)
Lemma roll_roll t dim n k :
  well_formed t → shape t !! dim = Some n → k ≤ n → n ≤ 2 * k →
  roll (roll t dim k) dim k = roll t dim (2 * k - n).
Proof.
  intros Hwf Hn Hk Hn2. unfold roll at 1 3. cbn [shape]. f_equal.
  assert (size (roll t dim k) dim = n) as -> by (unfold size; cbn [roll shape]; by rewrite Hn).
  assert (size t dim = n) as Hsz by (unfold size; by rewrite Hn). rewrite Hsz.
  change (shape (roll t dim k)) with (shape t). f_equal.
  apply map_ext_in. intros o [_ Ho]%in_seq. simpl in Ho.
  pose proof (length_block_data _ _ _ _ Hwf Hn Ho) as Hlen.
  cbn [roll data]. rewrite Hsz, block_at_concat; [| |done].
  - rewrite rotl_rotl by (rewrite Hlen; nia). f_equal. rewrite Hlen. nia.
  - intros i Hi. rewrite length_rotl. apply (length_block_data _ _ _ _ Hwf Hn Hi).
Qed.

(** Whenever the function returns, the shape is that of its argument. *)
Lemma glu_shape t dim t' : _split_and_reorder_for_glu t dim = Ok t' → shape t' = shape t.
Proof.
  destruct (shape t !! dim) as [n|] eqn:Hn;
    [|intros H; pose proof (glu_no_dim _ _ Hn) as Hno; by rewrite H in Hno].
  rewrite (glu_unfold _ _ _ Hn). destruct (decide (n = 1)); [done|].
  rewrite (torch_cat_narrow _ _ _ _ _ _ _ Hn).
  pose proof (Nat.div_mod_eq (n + 1) 2) as Hdiv.
  pose proof (Nat.mod_upper_bound (n + 1) 2) as Hmod.
  generalize dependent ((n + 1) / 2). intros s Hdiv [= <-]. cbn [shape].
  apply list_insert_id. rewrite Hn. f_equal. lia.
Qed.

(** It returns exactly when the dimension exists and its size is not 1. *)
Lemma glu_returns t dim :
  is_ok (_split_and_reorder_for_glu t dim) = true ↔ ∃ n, shape t !! dim = Some n ∧ n ≠ 1.
Proof.
  destruct (shape t !! dim) as [n|] eqn:Hn.
  - rewrite (glu_unfold _ _ _ Hn), (torch_cat_narrow _ _ _ _ _ _ _ Hn).
    destruct (decide (n = 1)); simpl; split; try done.
    + by intros (? & [= <-] & ?).
    + eauto.
  - rewrite glu_no_dim by done. split; [done|]. by intros (? & ? & _).
Qed.

(** Applying the function twice rolls the slices by [n mod 2] places. *)
Lemma glu_twice t dim n :
  well_formed t → shape t !! dim = Some n → n ≠ 1 →
  (_split_and_reorder_for_glu t dim ≫= λ t', _split_and_reorder_for_glu t' dim)
  = Ok (roll t dim (n mod 2)).
Proof.
  intros Hwf Hn Hn1. rewrite (glu_roll _ _ _ Hwf Hn Hn1). cbn [mbind result_bind].
  pose proof (Nat.div_mod_eq (n + 1) 2) as Hdiv.
  pose proof (Nat.mod_upper_bound (n + 1) 2) as Hmod.
  pose proof (Nat.div_mod_eq n 2) as Hdiv'.
  pose proof (Nat.mod_upper_bound n 2) as Hmod'.
  rewrite (glu_roll _ _ n) by eauto using well_formed_roll.
  rewrite (roll_roll _ _ n) by (done || lia). f_equal. f_equal. lia.
Qed.

End GluLemmas.

(** ** Names written with a layer index *)

Lemma string_app_inv_head (p s s' : string) : p +:+ s = p +:+ s' → s = s'.
Proof. induction p as [|c p IH]; simpl; [done|]. intros [= H]. auto. Qed.

(** A decimal number followed by a dotted suffix is read back without
    ambiguity. *)
Lemma string_of_uint_app_inj (d d' : Decimal.uint) (s s' : string) :
  starts_with_dot s → starts_with_dot s' →
  NilEmpty.string_of_uint d +:+ s = NilEmpty.string_of_uint d' +:+ s' →
  d = d' ∧ s = s'.
Proof.
  intros Hs Hs'. revert d'.
  induction d as [|d IH|d IH|d IH|d IH|d IH|d IH|d IH|d IH|d IH|d IH];
    intros [|d'|d'|d'|d'|d'|d'|d'|d'|d'|d']; simpl; intros H;
    try done;
    try (destruct s; simpl in *; [done|]; subst; discriminate H);
    try (destruct s'; simpl in *; [done|]; subst; discriminate H);
    try discriminate H;
    injection H as H; destruct (IH _ H) as [-> ->]; done.
Qed.

Lemma fstr_inj (pre : string) (i j : nat) (s s' : string) :
  starts_with_dot s → starts_with_dot s' →
  fstr pre i s = fstr pre j s' → i = j ∧ s = s'.
Proof.
  intros Hs Hs' H. unfold fstr, fmt_int in H. apply string_app_inv_head in H.
  destruct (string_of_uint_app_inj _ _ _ _ Hs Hs' H) as [Hd ->].
  split; [|done]. by apply Unsigned.to_uint_inj.
Qed.

(** The rows of the loop-body table are told apart by their target suffix,
    and every suffix starts with a dot. *)
Lemma layer_table_dotted :
  Forall (λ r, starts_with_dot r.1.1 ∧ starts_with_dot r.1.2) layer_table.
Proof. apply (bool_decide_unpack _). by vm_compute. Qed.

Lemma layer_table_targets_NoDup : NoDup (map (λ r, r.1.2) layer_table).
Proof. apply (bool_decide_unpack _). by vm_compute. Qed.

Lemma layer_table_target_inj r r' :
  r ∈ layer_table → r' ∈ layer_table → r.1.2 = r'.1.2 → r = r'.
Proof.
  intros [i Hi]%list_elem_of_lookup [j Hj]%list_elem_of_lookup Heq.
  assert (i = j) as ->; [|congruence].
  eapply (NoDup_lookup _ _ _ _ layer_table_targets_NoDup).
  - by rewrite list_lookup_fmap, Hi.
  - by rewrite list_lookup_fmap, Hj, Heq.
Qed.

Lemma layer_target_inj i j r r' :
  r ∈ layer_table → r' ∈ layer_table →
  fstr "model.layers." i r.1.2 = fstr "model.layers." j r'.1.2 → i = j ∧ r = r'.
Proof.
  intros Hr Hr' H.
  pose proof (proj1 (Forall_forall _ _) layer_table_dotted) as Hdot.
  destruct (fstr_inj _ _ _ _ _ (proj2 (Hdot _ Hr)) (proj2 (Hdot _ Hr')) H) as [-> Hs].
  split; [done|]. by apply layer_table_target_inj.
Qed.

(** A layer target is none of the three names written outside the loop. *)
Lemma layer_target_not_global i s m :
  m ∈ global_mappings → target_name m ≠ fstr "model.layers." i s.
Proof.
  unfold global_mappings. rewrite !elem_of_cons, elem_of_nil.
  intros [->|[->|[->|[]]]]; unfold fstr; simpl; discriminate.
Qed.

(** ** One iteration of the loop *)

Ltac bind_inv H :=
  match type of H with
  | mbind _ ?m = Ok _ =>
    let E := fresh "E" in
    destruct m eqn:E; cbn [mbind result_bind] in H; [|discriminate H]
  end.

Section StateDictLemmas.
Context {A AttentionHeadType : Type}.
Variable get_attention_head_type : pyval → pyval → result AttentionHeadType.
Variable split_query_key_value_tensor_for_attention :
  Tensor A → pyval → pyval → pyval → AttentionHeadType → result (Tensor A * Tensor A * Tensor A).
Variable wm : SafeTensorsWeightsManager A.
Variable seq_mixer_block_types : list pyval.
Variables num_heads num_key_value_heads head_dim : pyval.

Implicit Types sd : gmap string (Tensor A).
Implicit Types entries : list ((string * string * transformation) * Tensor A).

Lemma store_all_frame i entries sd k :
  (∀ e, e ∈ entries → fstr "model.layers." i e.1.1.2 ≠ k) →
  store_all i entries sd !! k = sd !! k.
Proof.
  revert sd. induction entries as [|e entries IH]; intros sd Hne; [done|].
  cbn [store_all foldl]. fold (store_all i entries (<[fstr "model.layers." i e.1.1.2 := e.2]> sd)).
  rewrite IH by (intros; apply Hne; by right).
  apply lookup_insert_ne, Hne. by left.
Qed.

Lemma store_all_inv i entries sd k t :
  store_all i entries sd !! k = Some t →
  sd !! k = Some t ∨ ∃ e, e ∈ entries ∧ k = fstr "model.layers." i e.1.1.2 ∧ t = e.2.
Proof.
  revert sd. induction entries as [|e entries IH]; intros sd H; [by left|].
  cbn [store_all foldl] in H. apply IH in H as [H|(e' & He' & ? & ?)].
  - destruct (decide (fstr "model.layers." i e.1.1.2 = k)) as [<-|Hne].
    + rewrite lookup_insert_eq in H. injection H as <-. right. exists e. split; [by left|done].
    + rewrite lookup_insert_ne in H by done. by left.
  - right. exists e'. split; [by right|done].
Qed.

Lemma store_all_hit i entries sd e :
  NoDup (map (λ e, e.1.1.2) entries) → e ∈ entries →
  store_all i entries sd !! fstr "model.layers." i e.1.1.2 = Some e.2.
Proof.
  revert sd. induction entries as [|e0 entries IH]; intros sd Hnd He; [by apply elem_of_nil in He|].
  cbn [map] in Hnd. apply NoDup_cons in Hnd as [Hnotin Hnd].
  cbn [store_all foldl]. apply elem_of_cons in He as [->|He]; [|by apply IH].
  fold (store_all i entries (<[fstr "model.layers." i e0.1.1.2 := e0.2]> sd)).
  rewrite store_all_frame; [apply lookup_insert_eq|].
  intros e He Heq. apply Hnotin.
  unfold fstr in Heq. do 2 apply string_app_inv_head in Heq. rewrite <- Heq.
  apply list_elem_of_fmap. by exists e.
Qed.

Variable attention_head_type : AttentionHeadType.

Abbreviation produces_at := (produces split_query_key_value_tensor_for_attention wm
                                  num_heads num_key_value_heads head_dim attention_head_type).

(** What one iteration does: it reads the block type of the layer and runs
    the rows selected for it, storing what each produces. *)
Lemma export_layer_spec i sd sd' :
  export_layer split_query_key_value_tensor_for_attention wm seq_mixer_block_types
               num_heads num_key_value_heads head_dim attention_head_type i sd = Ok sd' →
  ∃ block_type ts,
    seq_mixer_block_types !! i = Some block_type
    ∧ Forall2 (λ r t, produces_at (layer_mapping i r) t)
              (rows_for block_type
                 (has_tensor wm (fstr "transformer.h." i ".mlp_block.c_fc_shared.weight"))) ts
    ∧ sd' = store_all i
              (zip (rows_for block_type
                      (has_tensor wm (fstr "transformer.h." i ".mlp_block.c_fc_shared.weight"))) ts)
              sd.
Proof.
  unfold export_layer, list_index. intros H.
  do 6 bind_inv H.
  destruct (seq_mixer_block_types !! i) as [block_type|] eqn:Hty; [|discriminate H].
  cbn [mbind result_bind] in H. bind_inv H.
  unfold export_shared in H.
  exists block_type. unfold rows_for.
  destruct (py_eq_str block_type "mamba") eqn:Hm;
    [|destruct (py_eq_str block_type "attention") eqn:Ha];
    destruct (has_tensor wm _) eqn:Hs.
  all: unfold export_mamba, export_attention in *.
  all: repeat first [bind_inv E5 | match goal with p : (_ * _)%type |- _ => destruct p end].
  all: repeat bind_inv H.
  all: repeat match goal with H : Ok _ = Ok _ |- _ => injection H as <- end.
  all: eexists; split; [done|]; split;
    [ cbn [layer_table firstn skipn app];
      repeat (econstructor;
              [eexists; cbn [layer_mapping source_name how transforms fst snd];
               split; [eassumption|eauto]|]);
      apply List.Forall2_nil
    | reflexivity ].
Qed.

Lemma rows_for_sub block_type shared r : r ∈ rows_for block_type shared → r ∈ layer_table.
Proof.
  assert (∀ l : list (string * string * transformation),
            bool_decide (Forall (λ r, r ∈ layer_table) l) = true → r ∈ l → r ∈ layer_table) as Hsub.
  { intros l Hl%bool_decide_eq_true_1. by apply (proj1 (Forall_forall _ _) Hl). }
  unfold rows_for.
  destruct (py_eq_str block_type "mamba"), (py_eq_str block_type "attention"), shared;
    by apply Hsub.
Qed.

Lemma rows_for_NoDup block_type shared : NoDup (map (λ r, r.1.2) (rows_for block_type shared)).
Proof.
  unfold rows_for.
  destruct (py_eq_str block_type "mamba"), (py_eq_str block_type "attention"), shared;
    apply (bool_decide_unpack _); by vm_compute.
Qed.

(** The stores of one iteration, read back. *)
Lemma export_layer_hit i sd sd' block_type r :
  export_layer split_query_key_value_tensor_for_attention wm seq_mixer_block_types
               num_heads num_key_value_heads head_dim attention_head_type i sd = Ok sd' →
  seq_mixer_block_types !! i = Some block_type →
  r ∈ rows_for block_type (has_tensor wm (fstr "transformer.h." i ".mlp_block.c_fc_shared.weight")) →
  ∃ t, sd' !! fstr "model.layers." i r.1.2 = Some t ∧ produces_at (layer_mapping i r) t.
Proof.
  intros (bt & ts & Hbt & Hall & ->)%export_layer_spec Hty Hr.
  rewrite Hty in Hbt. injection Hbt as <-.
  apply list_elem_of_lookup in Hr as [j Hj].
  destruct (Forall2_lookup_l _ _ _ _ _ Hall Hj) as (t & Ht & Hprod).
  exists t. split; [|done].
  apply (store_all_hit i _ sd (r, t)).
  - replace (map _ _) with (map (λ r, r.1.2) (zip (rows_for block_type
      (has_tensor wm (fstr "transformer.h." i ".mlp_block.c_fc_shared.weight"))) ts).*1)
      by (by rewrite <- list_fmap_compose).
    rewrite fst_zip by (by rewrite (Forall2_length _ _ _ Hall)). apply rows_for_NoDup.
  - apply list_elem_of_lookup. exists j. by apply lookup_zip_Some.
Qed.

(** Every entry after one iteration was there before or is one of its
    stores. *)
Lemma export_layer_inv i sd sd' k t :
  export_layer split_query_key_value_tensor_for_attention wm seq_mixer_block_types
               num_heads num_key_value_heads head_dim attention_head_type i sd = Ok sd' →
  sd' !! k = Some t →
  sd !! k = Some t
  ∨ ∃ block_type r,
      seq_mixer_block_types !! i = Some block_type
      ∧ r ∈ rows_for block_type (has_tensor wm (fstr "transformer.h." i ".mlp_block.c_fc_shared.weight"))
      ∧ k = fstr "model.layers." i r.1.2
      ∧ produces_at (layer_mapping i r) t.
Proof.
  intros (bt & ts & Hbt & Hall & ->)%export_layer_spec
         [H|([r t'] & [j Hj]%list_elem_of_lookup & -> & ->)]%store_all_inv; [by left|].
  right. exists bt, r. apply lookup_zip_Some in Hj as [Hr Ht].
  split_and!; [done|by eapply list_elem_of_lookup_2|done|].
  by apply (Forall2_lookup_lr _ _ _ _ _ _ Hall Hr Ht).
Qed.

(** One iteration only writes targets of its own layer. *)
Lemma export_layer_frame i sd sd' k :
  export_layer split_query_key_value_tensor_for_attention wm seq_mixer_block_types
               num_heads num_key_value_heads head_dim attention_head_type i sd = Ok sd' →
  (∀ r, r ∈ layer_table → k ≠ fstr "model.layers." i r.1.2) →
  sd' !! k = sd !! k.
Proof.
  intros (bt & ts & Hbt & Hall & ->)%export_layer_spec Hne.
  apply store_all_frame. intros [r t] [j Hj]%list_elem_of_lookup Heq.
  apply lookup_zip_Some in Hj as [Hr Ht]. apply (Hne r); [|done].
  eapply rows_for_sub, list_elem_of_lookup_2, Hr.
Qed.

(** ** The loop over the layers *)

Abbreviation layer_body := (export_layer split_query_key_value_tensor_for_attention wm
                                  seq_mixer_block_types num_heads num_key_value_heads head_dim
                                  attention_head_type).
Abbreviation shared_at i := (has_tensor wm (fstr "transformer.h." i ".mlp_block.c_fc_shared.weight")).

Lemma for_each_layers_spec a k sd sd' :
  for_each (seq a k) layer_body sd = Ok sd' →
  (∀ i block_type r,
      a ≤ i < a + k → seq_mixer_block_types !! i = Some block_type →
      r ∈ rows_for block_type (shared_at i) →
      ∃ t, sd' !! fstr "model.layers." i r.1.2 = Some t ∧ produces_at (layer_mapping i r) t)
  ∧ (∀ key t,
        sd' !! key = Some t →
        sd !! key = Some t
        ∨ ∃ i block_type r,
            a ≤ i < a + k ∧ seq_mixer_block_types !! i = Some block_type
            ∧ r ∈ rows_for block_type (shared_at i)
            ∧ key = fstr "model.layers." i r.1.2 ∧ produces_at (layer_mapping i r) t)
  ∧ (∀ key,
        (∀ i r, a ≤ i → r ∈ layer_table → key ≠ fstr "model.layers." i r.1.2) →
        sd' !! key = sd !! key)
  ∧ (∀ i, a ≤ i < a + k → is_Some (seq_mixer_block_types !! i)).
Proof.
  revert a sd. induction k as [|k IH]; intros a sd H.
  - injection H as <-. split_and!; [intros; lia|by left|done|intros; lia].
  - cbn [seq for_each] in H. bind_inv H.
    destruct (IH _ _ H) as (Hhit & Hinv & Hframe & Htys). split_and!.
    + intros i bt r Hi Hty Hr. destruct (decide (i = a)) as [->|Hne].
      * destruct (export_layer_hit _ _ _ _ _ E Hty Hr) as (t & Ht & Hprod).
        exists t. split; [|done]. rewrite Hframe; [done|].
        intros j r' Hj Hr' Heq.
        destruct (layer_target_inj _ _ _ _ (rows_for_sub _ _ _ Hr) Hr' Heq) as [-> _]. lia.
      * apply (Hhit i bt r); [lia|done..].
    + intros key t [Hkey|(i & bt & r & Hi & Hrest)]%Hinv.
      * destruct (export_layer_inv _ _ _ _ _ E Hkey) as [?|(bt & r & ? & ? & ? & ?)];
          [by left|]. right. exists a, bt, r. split_and!; (done || lia).
      * right. exists i, bt, r. split; [lia|done].
    + intros key Hkey. rewrite Hframe by (intros; apply Hkey; (done || lia)).
      apply (export_layer_frame _ _ _ _ E). intros r Hr. by apply Hkey.
    + intros i Hi. destruct (decide (i = a)) as [->|Hne]; [|apply Htys; lia].
      pose proof E as (bt & ? & -> & _)%export_layer_spec. by eexists.
Qed.

End StateDictLemmas.

(** ** The whole state dict *)

Section ExportSpec.
Context {A AttentionHeadType : Type}.
Variable get_attention_head_type : pyval → pyval → result AttentionHeadType.
Variable split_query_key_value_tensor_for_attention :
  Tensor A → pyval → pyval → pyval → AttentionHeadType → result (Tensor A * Tensor A * Tensor A).
Variable wm : SafeTensorsWeightsManager A.
Variable num_layers : Z.
Variable seq_mixer_block_types : list pyval.
Variables num_heads num_key_value_heads head_dim : pyval.

(** The exported state dict holds what the executed assignments produce,
    and nothing else. *)
Lemma export_state_dict_spec (state_dict : gmap string (Tensor A)) :
  _export_state_dict_to_huggingface
    get_attention_head_type split_query_key_value_tensor_for_attention
    wm num_layers seq_mixer_block_types num_heads num_key_value_heads head_dim = Ok state_dict →
  ∃ attention_head_type,
    get_attention_head_type num_heads num_key_value_heads = Ok attention_head_type
    ∧ (∀ m, enabled wm num_layers seq_mixer_block_types m →
            ∃ t, state_dict !! target_name m = Some t
                 ∧ produces split_query_key_value_tensor_for_attention wm
                            num_heads num_key_value_heads head_dim attention_head_type m t)
    ∧ (∀ k t, state_dict !! k = Some t →
              ∃ m, enabled wm num_layers seq_mixer_block_types m
                   ∧ target_name m = k
                   ∧ produces split_query_key_value_tensor_for_attention wm
                              num_heads num_key_value_heads head_dim attention_head_type m t)
    ∧ (∀ i : nat, (Z.of_nat i < num_layers)%Z → is_Some (seq_mixer_block_types !! i)).
Proof.
  unfold _export_state_dict_to_huggingface. intros H.
  bind_inv H. rename a into wte, E into Hwte.
  bind_inv H. rename a into ln_f, E into Hln_f.
  bind_inv H. rename a into aht, E into Haht.
  bind_inv H. rename a into sd0, E into Hsd0.
  exists aht. split; [done|].
  apply for_each_layers_spec in H as (Hhit & Hinv & Hframe & Htys).
  assert (∀ m, m ∈ global_mappings → sd0 !! target_name m = state_dict !! target_name m) as Hglob.
  { intros m Hm. symmetry. apply Hframe. intros i r _ _. by apply layer_target_not_global. }
  assert (∀ i, (Z.of_nat i < num_layers)%Z ↔ 0 ≤ i < 0 + Z.to_nat num_layers) as Hrange by lia.
  split_and!.
  - intros m [Hm|[[Hlm Hm]|(i & bt & r & Hi & Hty & Hr & ->)]].
    + rewrite <- Hglob by (by eapply (subseteq_take 2)).
      cbn in Hm. rewrite !elem_of_cons, elem_of_nil in Hm.
      destruct Hm as [->|[->|[]]]; cbn [target_name]; [exists wte|exists ln_f];
        (split; [|by eexists]);
        (destruct (has_tensor wm "lm_head.weight"); [bind_inv Hsd0|]; injection Hsd0 as <-; done).
    + rewrite <- Hglob by (by eapply (subseteq_drop 2)).
      cbn in Hm. rewrite !elem_of_cons, elem_of_nil in Hm. destruct Hm as [->|[]].
      rewrite Hlm in Hsd0. bind_inv Hsd0. injection Hsd0 as <-.
      exists a. split; [apply lookup_insert_eq|by eexists].
    + apply (Hhit i bt r); [by apply Hrange|done..].
  - intros k t [Hk|(i & bt & r & Hi & Hty & Hr & -> & Hprod)]%Hinv.
    + destruct (has_tensor wm "lm_head.weight") eqn:Hlm; [bind_inv Hsd0|]; injection Hsd0 as <-.
      all: repeat (apply lookup_insert_Some in Hk as [[<- <-]|[_ Hk]]);
        [..|by rewrite lookup_empty in Hk].
      * exists (mkMapping "lm_head.weight" "lm_head.weight" Rename).
        split_and!; [right; left; split; [done|]; apply list_elem_of_In; cbn; auto|done|by eexists].
      * exists (mkMapping "transformer.ln_f.weight" "model.norm.weight" Rename).
        split_and!; [left; apply list_elem_of_In; cbn; auto|done|by eexists].
      * exists (mkMapping "transformer.wte.weight" "model.embed_tokens.weight" Rename).
        split_and!; [left; apply list_elem_of_In; cbn; auto|done|by eexists].
      * exists (mkMapping "transformer.ln_f.weight" "model.norm.weight" Rename).
        split_and!; [left; apply list_elem_of_In; cbn; auto|done|by eexists].
      * exists (mkMapping "transformer.wte.weight" "model.embed_tokens.weight" Rename).
        split_and!; [left; apply list_elem_of_In; cbn; auto|done|by eexists].
    + exists (layer_mapping i r). split_and!; [|done..].
      right; right. exists i, bt, r. split_and!; [by apply Hrange|done..].
  - intros i Hi. apply Htys. by apply Hrange.
Qed.

End ExportSpec.

(** ** The sample checkpoint *)

Example sample_export_state_dict : sample_run = Ok sample_state_dict.
Proof. vm_cast_no_check (eq_refl (Ok sample_state_dict)). Qed.

Example sample_export_config :
  _export_config_to_huggingface sample_check_equal sample_check_equal_seq_mixer
    sample_validate sample_config
  = Ok sample_original_config.
Proof. vm_compute. reflexivity. Qed.

Example sample_export :
  fmap_snd
    (export_to_huggingface_granitemoehybrid
       sample_get_attention_head_type sample_split sample_check_equal sample_check_equal_seq_mixer
       int_floordiv sample_validate sample_config sample_manager) = Ok sample_state_dict.
Proof. vm_cast_no_check (eq_refl (Ok sample_state_dict)). Qed.

(** ** The configuration *)

Lemma py_eq_str_true v s : py_eq_str v s = true ↔ v = PyStr s.
Proof.
  destruct v; simpl; try (split; [done|by intros [=]]).
  rewrite bool_decide_eq_true. split; [by intros ->|by intros [= ->]].
Qed.

Lemma py_eq_str_false v s : py_eq_str v s = false ↔ v ≠ PyStr s.
Proof.
  rewrite <- py_eq_str_true. destruct (py_eq_str v s); split; (done || by intros []).
Qed.

Lemma get_sequence_mixer_type b : _get b "sequence_mixer_type" = Ok (block_type_of b).
Proof. by destruct b. Qed.

Lemma block_types_loop_spec blocks acc :
  block_types_loop blocks acc = Ok (acc ++ map (λ b, rename_block_type (block_type_of b)) blocks).
Proof.
  revert acc. induction blocks as [|b blocks IH]; intros acc; cbn [block_types_loop map].
  - by rewrite app_nil_r.
  - rewrite get_sequence_mixer_type. cbn [mbind result_bind]. rewrite IH.
    by rewrite <- app_assoc.
Qed.

Lemma get_sequence_mixer_block_types_spec config :
  _get_sequence_mixer_block_types config
  = Ok (map (λ b, rename_block_type (block_type_of b)) (GPTDolomiteConfig.sequence_mixer_blocks config)).
Proof. unfold _get_sequence_mixer_block_types. by rewrite block_types_loop_spec. Qed.

(** C9: for every source configuration [_get_sequence_mixer_block_types]
    returns a list of the length of [sequence_mixer_blocks], in the same
    order, whose [i]-th element is made from the [sequence_mixer_type] of
    the [i]-th block alone (the attribute of an arguments object, the entry
    of a dict, [None] when the dict has none), with "mamba2" renamed to
    "mamba", "softmax_attention" renamed to "attention" and every other
    value left unchanged. *)
Theorem get_sequence_mixer_block_types_correct (config : GPTDolomiteConfig.t) :
  ∃ types,
    _get_sequence_mixer_block_types config = Ok types
    ∧ length types = length (GPTDolomiteConfig.sequence_mixer_blocks config)
    ∧ (∀ i o, GPTDolomiteConfig.sequence_mixer_blocks config !! i = Some (BlockObject o) →
              types !! i = Some (rename_block_type (sequence_mixer_type o)))
    ∧ (∀ i d, GPTDolomiteConfig.sequence_mixer_blocks config !! i = Some (BlockDict d) →
              types !! i = Some (rename_block_type (default PyNone (d !! "sequence_mixer_type"))))
    ∧ rename_block_type (PyStr "mamba2") = PyStr "mamba"
    ∧ rename_block_type (PyStr "softmax_attention") = PyStr "attention"
    ∧ (∀ v, v ≠ PyStr "mamba2" → v ≠ PyStr "softmax_attention" → rename_block_type v = v).
Proof.
  eexists. split; [apply get_sequence_mixer_block_types_spec|]. split_and!.
  - by rewrite length_map.
  - intros i o Hb. by rewrite list_lookup_fmap, Hb.
  - intros i d Hb. by rewrite list_lookup_fmap, Hb.
  - done.
  - done.
  - intros v Hm Ha. unfold rename_block_type.
    by rewrite (proj2 (py_eq_str_false _ _) Hm), (proj2 (py_eq_str_false _ _) Ha).
Qed.

Section ConfigLemmas.
Variable check_equal_for_all_and_get_value :
  GPTDolomiteConfig.t → string → string → option pyval → result pyval.
Variable check_equal_for_all_seq_mixer_and_get_value :
  GPTDolomiteConfig.t → string → string → string → result pyval.
Variable validate : GraniteMoeHybridConfig.t → result unit.

Abbreviation export_config :=
  (_export_config_to_huggingface check_equal_for_all_and_get_value
                                 check_equal_for_all_seq_mixer_and_get_value validate).

(** What the fields of a returned target configuration are. *)
Lemma export_config_fields config original_config :
  export_config config = Ok original_config →
  GPTDolomiteConfig.normalization_function config = PyStr "rmsnorm"
  ∧ GraniteMoeHybridConfig.vocab_size original_config = GPTDolomiteConfig.vocab_size config
  ∧ GraniteMoeHybridConfig.max_position_embeddings original_config
    = GPTDolomiteConfig.max_position_embeddings config
  ∧ GraniteMoeHybridConfig.hidden_size original_config = GPTDolomiteConfig.hidden_size config
  ∧ GraniteMoeHybridConfig.num_hidden_layers original_config = GPTDolomiteConfig.num_layers config
  ∧ GraniteMoeHybridConfig.rms_norm_eps original_config = GPTDolomiteConfig.layer_norm_epsilon config
  ∧ GraniteMoeHybridConfig.use_cache original_config = GPTDolomiteConfig.use_cache config
  ∧ GraniteMoeHybridConfig.tie_word_embeddings original_config
    = GPTDolomiteConfig.tie_word_embeddings config
  ∧ GraniteMoeHybridConfig.initializer_range original_config
    = GPTDolomiteConfig.initializer_range config
  ∧ GraniteMoeHybridConfig.rope_theta original_config = GPTDolomiteConfig.rope_theta config
  ∧ GraniteMoeHybridConfig.rope_scaling original_config = GPTDolomiteConfig.rope_scaling config
  ∧ GraniteMoeHybridConfig.router_aux_loss_coef original_config
    = GPTDolomiteConfig.router_aux_loss_coef config
  ∧ GraniteMoeHybridConfig.bos_token_id original_config = GPTDolomiteConfig.bos_token_id config
  ∧ GraniteMoeHybridConfig.eos_token_id original_config = GPTDolomiteConfig.eos_token_id config
  ∧ GraniteMoeHybridConfig.pad_token_id original_config = GPTDolomiteConfig.pad_token_id config
  ∧ GraniteMoeHybridConfig.normalization_function original_config
    = GPTDolomiteConfig.normalization_function config
  ∧ GraniteMoeHybridConfig.position_embedding_type original_config
    = GPTDolomiteConfig.position_embedding_type config
  ∧ GraniteMoeHybridConfig.init_method original_config = GPTDolomiteConfig.init_method config
  ∧ GraniteMoeHybridConfig.embedding_multiplier original_config
    = if_none (PyInt 1) (GPTDolomiteConfig.m_emb config)
  ∧ GraniteMoeHybridConfig.residual_multiplier original_config
    = if_none (PyInt 1) (GPTDolomiteConfig.m_residual config)
  ∧ GraniteMoeHybridConfig.logits_scaling original_config
    = if_none (PyInt 1) (GPTDolomiteConfig.m_width config)
  ∧ (∃ shared_intermediate_size,
       check_equal_for_all_and_get_value config "mlp_blocks" "shared_intermediate_size" None
       = Ok shared_intermediate_size
       ∧ GraniteMoeHybridConfig.shared_intermediate_size original_config
         = if_none (PyInt 0) shared_intermediate_size).
Proof.
  unfold _export_config_to_huggingface. intros H.
  destruct (py_eq_str _ "rmsnorm") eqn:Hnorm; [|discriminate H].
  apply py_eq_str_true in Hnorm. cbn [negb] in H.
  repeat bind_inv H. unfold GraniteMoeHybridConfig_init in H.
  bind_inv H. injection H as <-. cbn.
  split_and!; try done. by eexists.
Qed.

End ConfigLemmas.

(** ** The table of assignments *)

Lemma enabled_is_mapping {A} (wm : SafeTensorsWeightsManager A) num_layers types m :
  enabled wm num_layers types m → is_mapping m.
Proof.
  intros [Hm|[[_ Hm]|(i & bt & r & _ & _ & Hr & ->)]].
  - left. by eapply (subseteq_take 2).
  - left. by eapply (subseteq_drop 2).
  - right. exists i. apply list_elem_of_fmap. exists r. split; [done|]. by eapply rows_for_sub.
Qed.

(** A target name belongs to one assignment only. *)
Lemma mapping_target_inj m m' :
  is_mapping m → is_mapping m' → target_name m = target_name m' → m = m'.
Proof.
  intros [Hm|[i Hm]] [Hm'|[j Hm']] Heq.
  - unfold global_mappings in *. rewrite !elem_of_cons, elem_of_nil in Hm, Hm'.
    destruct Hm as [->|[->|[->|[]]]], Hm' as [->|[->|[->|[]]]]; done.
  - apply list_elem_of_fmap in Hm' as (r & -> & _).
    by apply (layer_target_not_global j r.1.2) in Hm.
  - apply list_elem_of_fmap in Hm as (r & -> & _).
    by apply (layer_target_not_global i r.1.2) in Hm'.
  - apply list_elem_of_fmap in Hm as (r & -> & Hr).
    apply list_elem_of_fmap in Hm' as (r' & -> & Hr').
    by destruct (layer_target_inj _ _ _ _ Hr Hr' Heq) as [-> ->].
Qed.

(** The rows of the loop-body table are told apart by their source suffix
    as well, but for the three rows that read the fused [c_attn.weight]. *)
Lemma layer_table_source_inj r r' :
  r ∈ layer_table → r' ∈ layer_table → r.1.1 = r'.1.1 →
  r = r'
  ∨ (r.1.1 = ".sequence_mixer.c_attn.weight"
     ∧ r.1.2 ∈ [".self_attn.q_proj.weight"; ".self_attn.k_proj.weight"; ".self_attn.v_proj.weight"]
     ∧ r'.1.2 ∈ [".self_attn.q_proj.weight"; ".self_attn.k_proj.weight"; ".self_attn.v_proj.weight"]).
Proof.
  assert (Forall (λ r : string * string * transformation,
            Forall (λ r' : string * string * transformation,
              r.1.1 = r'.1.1 →
              r = r'
              ∨ (r.1.1 = ".sequence_mixer.c_attn.weight"
                 ∧ r.1.2 ∈ [".self_attn.q_proj.weight"; ".self_attn.k_proj.weight";
                            ".self_attn.v_proj.weight"]
                 ∧ r'.1.2 ∈ [".self_attn.q_proj.weight"; ".self_attn.k_proj.weight";
                             ".self_attn.v_proj.weight"])) layer_table) layer_table) as H
    by (apply (bool_decide_unpack _); by vm_compute).
  intros Hr Hr'. rewrite Forall_forall in H. specialize (H r Hr).
  rewrite Forall_forall in H. by apply H.
Qed.

(** A layer source is none of the three names read outside the loop. *)
Lemma layer_source_not_global i s m :
  m ∈ global_mappings → source_name m ≠ fstr "transformer.h." i s.
Proof.
  unfold global_mappings. rewrite !elem_of_cons, elem_of_nil.
  intros [->|[->|[->|[]]]]; unfold fstr; simpl; discriminate.
Qed.

(** A source name belongs to one assignment only, but for the fused
    [c_attn.weight] of a layer, which the three assignments of the query, key
    and value projections read. *)
Lemma mapping_source_inj m m' :
  is_mapping m → is_mapping m' → source_name m = source_name m' →
  m = m'
  ∨ ∃ i : nat,
      source_name m = fstr "transformer.h." i ".sequence_mixer.c_attn.weight"
      ∧ target_name m ∈ [fstr "model.layers." i ".self_attn.q_proj.weight";
                         fstr "model.layers." i ".self_attn.k_proj.weight";
                         fstr "model.layers." i ".self_attn.v_proj.weight"]
      ∧ target_name m' ∈ [fstr "model.layers." i ".self_attn.q_proj.weight";
                          fstr "model.layers." i ".self_attn.k_proj.weight";
                          fstr "model.layers." i ".self_attn.v_proj.weight"].
Proof.
  intros [Hm|[i Hm]] [Hm'|[j Hm']] Heq.
  - left. unfold global_mappings in *. rewrite !elem_of_cons, elem_of_nil in Hm, Hm'.
    destruct Hm as [->|[->|[->|[]]]], Hm' as [->|[->|[->|[]]]]; done.
  - apply list_elem_of_fmap in Hm' as (r & -> & _).
    by apply (layer_source_not_global j r.1.1) in Hm.
  - apply list_elem_of_fmap in Hm as (r & -> & _).
    by apply (layer_source_not_global i r.1.1) in Hm'.
  - apply list_elem_of_fmap in Hm as (r & -> & Hr).
    apply list_elem_of_fmap in Hm' as (r' & -> & Hr').
    pose proof (proj1 (Forall_forall _ _) layer_table_dotted) as Hdot.
    cbn [layer_mapping source_name target_name] in *.
    destruct (fstr_inj _ _ _ _ _ (proj1 (Hdot _ Hr)) (proj1 (Hdot _ Hr')) Heq) as [<- Hs].
    destruct (layer_table_source_inj _ _ Hr Hr' Hs) as [->|(Hc & Ht & Ht')]; [by left|].
    right. exists i. rewrite Hc. split; [done|].
    rewrite !elem_of_cons, elem_of_nil in Ht, Ht'. rewrite !elem_of_cons.
    split.
    + destruct Ht as [->|[->|[->|[]]]]; auto.
    + destruct Ht' as [->|[->|[->|[]]]]; auto.
Qed.

Lemma base_rows_in block_type shared r :
  r ∈ take 5 layer_table → r ∈ rows_for block_type shared.
Proof. intros H. unfold rows_for. apply elem_of_app. by left. Qed.

Lemma mamba_rows_in shared r :
  r ∈ take 8 (drop 5 layer_table) → r ∈ rows_for (PyStr "mamba") shared.
Proof. intros H. unfold rows_for. rewrite !elem_of_app. right; by left. Qed.

Lemma attention_rows_in shared r :
  r ∈ take 4 (drop 13 layer_table) → r ∈ rows_for (PyStr "attention") shared.
Proof. intros H. unfold rows_for. rewrite !elem_of_app. right; by left. Qed.

Lemma shared_rows_in block_type r :
  r ∈ drop 17 layer_table → r ∈ rows_for block_type true.
Proof. intros H. unfold rows_for. rewrite !elem_of_app. right; by right. Qed.

Ltac in_table := apply (bool_decide_unpack _); vm_compute; exact I.

(** Two results of the same call are the same result. *)
Ltac same_results :=
  repeat match goal with
         | H1 : ?x = Ok _, H2 : ?x = Ok _ |- _ => rewrite H1 in H2; simplify_eq
         end.

(** ** The exported state dict *)

Section StateDictClaims.
Context {A AttentionHeadType : Type}.
Variable get_attention_head_type : pyval → pyval → result AttentionHeadType.
Variable split_query_key_value_tensor_for_attention :
  Tensor A → pyval → pyval → pyval → AttentionHeadType → result (Tensor A * Tensor A * Tensor A).
Variable wm : SafeTensorsWeightsManager A.
Variable num_layers : Z.
Variable seq_mixer_block_types : list pyval.
Variables num_heads num_key_value_heads head_dim : pyval.
Variable state_dict : gmap string (Tensor A).

Hypothesis exported :
  _export_state_dict_to_huggingface
    get_attention_head_type split_query_key_value_tensor_for_attention
    wm num_layers seq_mixer_block_types num_heads num_key_value_heads head_dim = Ok state_dict.

Lemma layer_row_exported (i : nat) block_type r :
  (Z.of_nat i < num_layers)%Z → seq_mixer_block_types !! i = Some block_type →
  r ∈ rows_for block_type (has_tensor wm (fstr "transformer.h." i ".mlp_block.c_fc_shared.weight")) →
  ∃ aht w t,
    get_attention_head_type num_heads num_key_value_heads = Ok aht
    ∧ get_tensor wm (fstr "transformer.h." i r.1.1) = Ok w
    ∧ transforms split_query_key_value_tensor_for_attention
                 num_heads num_key_value_heads head_dim aht r.2 w t
    ∧ state_dict !! fstr "model.layers." i r.1.2 = Some t.
Proof.
  intros Hi Hty Hr.
  destruct (export_state_dict_spec _ _ _ _ _ _ _ _ _ exported) as (aht & Haht & Hen & _ & _).
  destruct (Hen (layer_mapping i r)) as (t & Ht & w & Hw & Htr).
  { right; right. by exists i, block_type, r. }
  by exists aht, w, t.
Qed.


(** C2: for a layer whose block type is attention, the fused tensor
    [transformer.h.{i}.sequence_mixer.c_attn.weight] is split by the head
    layout into the tensors stored as [q_proj], [k_proj] and [v_proj] of
    [model.layers.{i}.self_attn], and [sequence_mixer.c_proj.weight] is stored
    unchanged as [self_attn.o_proj.weight]. *)
Theorem attention_layer_exported (i : nat) :
  (Z.of_nat i < num_layers)%Z →
  seq_mixer_block_types !! i = Some (PyStr "attention") →
  ∃ aht c_attn q k v c_proj,
    get_attention_head_type num_heads num_key_value_heads = Ok aht
    ∧ get_tensor wm (fstr "transformer.h." i ".sequence_mixer.c_attn.weight") = Ok c_attn
    ∧ split_query_key_value_tensor_for_attention
        c_attn num_heads num_key_value_heads head_dim aht = Ok (q, k, v)
    ∧ state_dict !! fstr "model.layers." i ".self_attn.q_proj.weight" = Some q
    ∧ state_dict !! fstr "model.layers." i ".self_attn.k_proj.weight" = Some k
    ∧ state_dict !! fstr "model.layers." i ".self_attn.v_proj.weight" = Some v
    ∧ get_tensor wm (fstr "transformer.h." i ".sequence_mixer.c_proj.weight") = Ok c_proj
    ∧ state_dict !! fstr "model.layers." i ".self_attn.o_proj.weight" = Some c_proj.
Proof.
  intros Hi Hty.
  destruct (layer_row_exported i _
              (".sequence_mixer.c_attn.weight", ".self_attn.q_proj.weight", SplitQuery) Hi Hty)
    as (aht & w & q & Haht & Hw & (k & v & Hsplit) & Hq); [apply attention_rows_in; in_table|].
  destruct (layer_row_exported i _
              (".sequence_mixer.c_attn.weight", ".self_attn.k_proj.weight", SplitKey) Hi Hty)
    as (? & ? & k' & ? & ? & (? & ? & Hsplit_k) & Hk); [apply attention_rows_in; in_table|].
  destruct (layer_row_exported i _
              (".sequence_mixer.c_attn.weight", ".self_attn.v_proj.weight", SplitValue) Hi Hty)
    as (? & ? & v' & ? & ? & (? & ? & Hsplit_v) & Hv); [apply attention_rows_in; in_table|].
  destruct (layer_row_exported i _
              (".sequence_mixer.c_proj.weight", ".self_attn.o_proj.weight", Rename) Hi Hty)
    as (? & c_proj & o & ? & Hc_proj & Ho & Hstored); [apply attention_rows_in; in_table|].
  cbn [fst snd transforms] in *. same_results.
  do 6 eexists. split_and!; eassumption.
Qed.

(** What the function makes of a well-formed weight: the slices along
    [dim] rotated so that the second half comes first. *)
Lemma glu_halves_swapped (w t : Tensor A) dim :
  _split_and_reorder_for_glu w dim = Ok t → well_formed w →
  t = roll w dim ((size w dim + 1) / 2).
Proof.
  intros Ht Hwf.
  assert (is_ok (_split_and_reorder_for_glu w dim) = true) as (n & Hn & Hn1)%glu_returns
    by (by rewrite Ht).
  rewrite (glu_roll _ _ _ Hwf Hn Hn1) in Ht. injection Ht as <-.
  unfold size. by rewrite Hn.
Qed.

(** C3: for every layer the tensor stored as
    [model.layers.{i}.block_sparse_moe.input_linear.weight] is the source
    tensor [transformer.h.{i}.mlp_block.c_fc.weight] with its two halves along
    dimension 1 swapped, and when [transformer.h.{i}.mlp_block.c_fc_shared.weight]
    exists the tensor stored as [model.layers.{i}.shared_mlp.input_linear.weight]
    is that tensor with its two halves along dimension 0 swapped. *)
Theorem glu_weights_exported (i : nat) :
  (Z.of_nat i < num_layers)%Z →
  (∃ c_fc t,
      get_tensor wm (fstr "transformer.h." i ".mlp_block.c_fc.weight") = Ok c_fc
      ∧ _split_and_reorder_for_glu c_fc 1 = Ok t
      ∧ (well_formed c_fc → t = roll c_fc 1 ((size c_fc 1 + 1) / 2))
      ∧ state_dict !! fstr "model.layers." i ".block_sparse_moe.input_linear.weight" = Some t)
  ∧ (has_tensor wm (fstr "transformer.h." i ".mlp_block.c_fc_shared.weight") = true →
     ∃ c_fc_shared t,
       get_tensor wm (fstr "transformer.h." i ".mlp_block.c_fc_shared.weight") = Ok c_fc_shared
       ∧ _split_and_reorder_for_glu c_fc_shared 0 = Ok t
       ∧ (well_formed c_fc_shared → t = roll c_fc_shared 0 ((size c_fc_shared 0 + 1) / 2))
       ∧ state_dict !! fstr "model.layers." i ".shared_mlp.input_linear.weight" = Some t).
Proof.
  intros Hi.
  destruct (export_state_dict_spec _ _ _ _ _ _ _ _ _ exported) as (? & _ & _ & _ & Htys).
  destruct (Htys i Hi) as [block_type Hty]. split.
  - destruct (layer_row_exported i _
                (".mlp_block.c_fc.weight", ".block_sparse_moe.input_linear.weight", GluSwap 1) Hi Hty)
      as (? & w & t & _ & Hw & Ht & Hstored); [apply base_rows_in; in_table|].
    exists w, t. split_and!; [done..| |done]. by apply glu_halves_swapped.
  - intros Hshared.
    destruct (layer_row_exported i _
                (".mlp_block.c_fc_shared.weight", ".shared_mlp.input_linear.weight", GluSwap 0) Hi Hty)
      as (? & w & t & _ & Hw & Ht & Hstored); [rewrite Hshared; apply shared_rows_in; in_table|].
    exists w, t. split_and!; [done..| |done]. by apply glu_halves_swapped.
Qed.

Lemma layer_name_exported (i : nat) block_type r :
  (Z.of_nat i < num_layers)%Z → seq_mixer_block_types !! i = Some block_type →
  r ∈ rows_for block_type (has_tensor wm (fstr "transformer.h." i ".mlp_block.c_fc_shared.weight")) →
  is_Some (state_dict !! fstr "model.layers." i r.1.2).
Proof.
  intros Hi Hty Hr.
  destruct (layer_row_exported i _ r Hi Hty Hr) as (? & ? & t & _ & _ & _ & Ht). by exists t.
Qed.

(** C4: the exported state dict always holds the embedding and the final
    norm; for every layer index below [num_layers] it holds the two layer
    norms and the router, input_linear and output_linear tensors of the MoE
    block; for a mamba layer it holds the eight mamba tensors and for an
    attention layer the four self_attn tensors. *)
Theorem exported_names_present :
  is_Some (state_dict !! "model.embed_tokens.weight")
  ∧ is_Some (state_dict !! "model.norm.weight")
  ∧ ∀ i : nat, (Z.of_nat i < num_layers)%Z →
      (is_Some (state_dict !! fstr "model.layers." i ".input_layernorm.weight")
       ∧ is_Some (state_dict !! fstr "model.layers." i ".post_attention_layernorm.weight")
       ∧ is_Some (state_dict !! fstr "model.layers." i ".block_sparse_moe.router.layer.weight")
       ∧ is_Some (state_dict !! fstr "model.layers." i ".block_sparse_moe.input_linear.weight")
       ∧ is_Some (state_dict !! fstr "model.layers." i ".block_sparse_moe.output_linear.weight"))
      ∧ (seq_mixer_block_types !! i = Some (PyStr "mamba") →
         is_Some (state_dict !! fstr "model.layers." i ".mamba.conv1d.weight")
         ∧ is_Some (state_dict !! fstr "model.layers." i ".mamba.conv1d.bias")
         ∧ is_Some (state_dict !! fstr "model.layers." i ".mamba.in_proj.weight")
         ∧ is_Some (state_dict !! fstr "model.layers." i ".mamba.dt_bias")
         ∧ is_Some (state_dict !! fstr "model.layers." i ".mamba.A_log")
         ∧ is_Some (state_dict !! fstr "model.layers." i ".mamba.D")
         ∧ is_Some (state_dict !! fstr "model.layers." i ".mamba.out_proj.weight")
         ∧ is_Some (state_dict !! fstr "model.layers." i ".mamba.norm.weight"))
      ∧ (seq_mixer_block_types !! i = Some (PyStr "attention") →
         is_Some (state_dict !! fstr "model.layers." i ".self_attn.q_proj.weight")
         ∧ is_Some (state_dict !! fstr "model.layers." i ".self_attn.k_proj.weight")
         ∧ is_Some (state_dict !! fstr "model.layers." i ".self_attn.v_proj.weight")
         ∧ is_Some (state_dict !! fstr "model.layers." i ".self_attn.o_proj.weight")).
Proof.
  destruct (export_state_dict_spec _ _ _ _ _ _ _ _ _ exported) as (? & _ & Hen & _ & Htys).
  split_and!.
  - destruct (Hen (mkMapping "transformer.wte.weight" "model.embed_tokens.weight" Rename))
      as (t & Ht & _); [left; in_table|by exists t].
  - destruct (Hen (mkMapping "transformer.ln_f.weight" "model.norm.weight" Rename))
      as (t & Ht & _); [left; in_table|by exists t].
  - intros i Hi. destruct (Htys i Hi) as [block_type Hty]. split_and!.
    + by apply (layer_name_exported i block_type (".ln_1.weight", ".input_layernorm.weight", Rename));
        [..|apply base_rows_in; in_table].
    + by apply (layer_name_exported i block_type
                  (".ln_2.weight", ".post_attention_layernorm.weight", Rename));
        [..|apply base_rows_in; in_table].
    + by apply (layer_name_exported i block_type
                  (".mlp_block.gate.weight", ".block_sparse_moe.router.layer.weight", Rename));
        [..|apply base_rows_in; in_table].
    + by apply (layer_name_exported i block_type
                  (".mlp_block.c_fc.weight", ".block_sparse_moe.input_linear.weight", GluSwap 1));
        [..|apply base_rows_in; in_table].
    + by apply (layer_name_exported i block_type
                  (".mlp_block.c_proj.weight", ".block_sparse_moe.output_linear.weight", Rename));
        [..|apply base_rows_in; in_table].
    + intros Hm. split_and!.
      * by apply (layer_name_exported i (PyStr "mamba") (".sequence_mixer.conv1d.weight", ".mamba.conv1d.weight", Rename));
          [..|apply mamba_rows_in; in_table].
      * by apply (layer_name_exported i (PyStr "mamba") (".sequence_mixer.conv1d.bias", ".mamba.conv1d.bias", Rename));
          [..|apply mamba_rows_in; in_table].
      * by apply (layer_name_exported i (PyStr "mamba") (".sequence_mixer.in_proj.weight", ".mamba.in_proj.weight", Rename));
          [..|apply mamba_rows_in; in_table].
      * by apply (layer_name_exported i (PyStr "mamba") (".sequence_mixer.dt_bias", ".mamba.dt_bias", Rename));
          [..|apply mamba_rows_in; in_table].
      * by apply (layer_name_exported i (PyStr "mamba") (".sequence_mixer.A_log", ".mamba.A_log", Rename));
          [..|apply mamba_rows_in; in_table].
      * by apply (layer_name_exported i (PyStr "mamba") (".sequence_mixer.D", ".mamba.D", Rename));
          [..|apply mamba_rows_in; in_table].
      * by apply (layer_name_exported i (PyStr "mamba") (".sequence_mixer.out_proj.weight", ".mamba.out_proj.weight", Rename));
          [..|apply mamba_rows_in; in_table].
      * by apply (layer_name_exported i (PyStr "mamba") (".sequence_mixer.norm.weight", ".mamba.norm.weight", Rename));
          [..|apply mamba_rows_in; in_table].
    + intros Ha. split_and!.
      * by apply (layer_name_exported i (PyStr "attention") (".sequence_mixer.c_attn.weight", ".self_attn.q_proj.weight", SplitQuery));
          [..|apply attention_rows_in; in_table].
      * by apply (layer_name_exported i (PyStr "attention") (".sequence_mixer.c_attn.weight", ".self_attn.k_proj.weight", SplitKey));
          [..|apply attention_rows_in; in_table].
      * by apply (layer_name_exported i (PyStr "attention") (".sequence_mixer.c_attn.weight", ".self_attn.v_proj.weight", SplitValue));
          [..|apply attention_rows_in; in_table].
      * by apply (layer_name_exported i (PyStr "attention") (".sequence_mixer.c_proj.weight", ".self_attn.o_proj.weight", Rename));
          [..|apply attention_rows_in; in_table].
Qed.

End StateDictClaims.

(** ** The exported configuration *)

(** C7: a returned target configuration carries [vocab_size],
    [max_position_embeddings] and [hidden_size] over unchanged, has
    [num_hidden_layers] equal to the source [num_layers] and [rms_norm_eps]
    equal to the source [layer_norm_epsilon], and substitutes defaults:
    [shared_intermediate_size] is 0 when the value read from the MLP blocks
    is [None], and [embedding_multiplier], [residual_multiplier] and
    [logits_scaling] are 1 when [m_emb], [m_residual] and [m_width] are
    [None]. *)
Theorem export_config_scalar_fields
    (check_equal_for_all_and_get_value : GPTDolomiteConfig.t → string → string → option pyval → result pyval)
    (check_equal_for_all_seq_mixer_and_get_value : GPTDolomiteConfig.t → string → string → string → result pyval)
    (validate : GraniteMoeHybridConfig.t → result unit)
    (config : GPTDolomiteConfig.t) (original_config : GraniteMoeHybridConfig.t) :
  _export_config_to_huggingface check_equal_for_all_and_get_value
    check_equal_for_all_seq_mixer_and_get_value validate config = Ok original_config →
  GraniteMoeHybridConfig.vocab_size original_config = GPTDolomiteConfig.vocab_size config
  ∧ GraniteMoeHybridConfig.max_position_embeddings original_config
    = GPTDolomiteConfig.max_position_embeddings config
  ∧ GraniteMoeHybridConfig.hidden_size original_config = GPTDolomiteConfig.hidden_size config
  ∧ GraniteMoeHybridConfig.num_hidden_layers original_config = GPTDolomiteConfig.num_layers config
  ∧ GraniteMoeHybridConfig.rms_norm_eps original_config = GPTDolomiteConfig.layer_norm_epsilon config
  ∧ (∃ shared_intermediate_size,
       check_equal_for_all_and_get_value config "mlp_blocks" "shared_intermediate_size" None
       = Ok shared_intermediate_size
       ∧ GraniteMoeHybridConfig.shared_intermediate_size original_config
         = if_none (PyInt 0) shared_intermediate_size)
  ∧ GraniteMoeHybridConfig.embedding_multiplier original_config
    = if_none (PyInt 1) (GPTDolomiteConfig.m_emb config)
  ∧ GraniteMoeHybridConfig.residual_multiplier original_config
    = if_none (PyInt 1) (GPTDolomiteConfig.m_residual config)
  ∧ GraniteMoeHybridConfig.logits_scaling original_config
    = if_none (PyInt 1) (GPTDolomiteConfig.m_width config)
  ∧ (∀ default, if_none default PyNone = default)
  ∧ (∀ default v, v ≠ PyNone → if_none default v = v).
Proof.
  intros H. apply export_config_fields in H.
  destruct_and!. split_and!; try done. by intros ? [].
Qed.

(** C8: when [normalization_function] is not "rmsnorm" the export of the
    configuration raises an assertion error, whatever the checks of the
    blocks would do: the assertion comes first and no target configuration
    is built. *)
Theorem export_config_asserts_rmsnorm
    (check_equal_for_all_and_get_value : GPTDolomiteConfig.t → string → string → option pyval → result pyval)
    (check_equal_for_all_seq_mixer_and_get_value : GPTDolomiteConfig.t → string → string → string → result pyval)
    (validate : GraniteMoeHybridConfig.t → result unit)
    (config : GPTDolomiteConfig.t) :
  GPTDolomiteConfig.normalization_function config ≠ PyStr "rmsnorm" →
  _export_config_to_huggingface check_equal_for_all_and_get_value
    check_equal_for_all_seq_mixer_and_get_value validate config = Raise AssertionError.
Proof.
  intros H%py_eq_str_false. unfold _export_config_to_huggingface. by rewrite H.
Qed.

(** The export of the configuration returns as soon as the normalization is
    "rmsnorm", every check of the blocks returns and the constructor accepts
    its keyword arguments. *)
Lemma export_config_returns
    (check_equal_for_all_and_get_value : GPTDolomiteConfig.t → string → string → option pyval → result pyval)
    (check_equal_for_all_seq_mixer_and_get_value : GPTDolomiteConfig.t → string → string → string → result pyval)
    (validate : GraniteMoeHybridConfig.t → result unit)
    (config : GPTDolomiteConfig.t) :
  GPTDolomiteConfig.normalization_function config = PyStr "rmsnorm" →
  (∀ key key_block expected,
      is_ok (check_equal_for_all_and_get_value config key key_block expected) = true) →
  (∀ key sequence_mixer_type key_block,
      is_ok (check_equal_for_all_seq_mixer_and_get_value config key sequence_mixer_type key_block)
      = true) →
  (∀ kwargs, is_ok (validate kwargs) = true) →
  is_ok (_export_config_to_huggingface check_equal_for_all_and_get_value
           check_equal_for_all_seq_mixer_and_get_value validate config) = true.
Proof.
  intros Hnorm%py_eq_str_true Hcheck Hseq Hval. unfold _export_config_to_huggingface.
  rewrite Hnorm. cbn [negb].
  repeat match goal with
         | |- is_ok (mbind _ (check_equal_for_all_and_get_value ?c ?k ?kb ?e)) = true =>
           let H := fresh in
           pose proof (Hcheck k kb e) as H;
           destruct (check_equal_for_all_and_get_value c k kb e); [|discriminate H];
           clear H; cbn [mbind result_bind]
         | |- is_ok (mbind _ (check_equal_for_all_seq_mixer_and_get_value ?c ?k ?t ?kb)) = true =>
           let H := fresh in
           pose proof (Hseq k t kb) as H;
           destruct (check_equal_for_all_seq_mixer_and_get_value c k t kb); [|discriminate H];
           clear H; cbn [mbind result_bind]
         end.
  rewrite get_sequence_mixer_block_types_spec. cbn [mbind result_bind].
  unfold GraniteMoeHybridConfig_init.
  match goal with
  | |- context [validate ?kwargs] =>
    pose proof (Hval kwargs) as H; by destruct (validate kwargs)
  end.
Qed.

(** C5, as the code has it.  On a returned export of the state dict, every
    assignment the run executes keeps its place: what it made of its source
    tensor is in the result under its target name, so that no assignment
    overwrites another; every key of the result comes from one source name;
    two assignments the run executes that read distinct source names store
    under distinct target names; and the one source name stored under more
    than one target name is the fused [c_attn.weight] of a layer, stored
    under its three [self_attn] projection names.  On the configuration, a
    returned target configuration determines the source fields that are
    copied as they are, and determines [m_emb], [m_residual] and [m_width]
    only up to the default that replaces [None]. *)
Theorem name_remapping_injective :
  (∀ (A AttentionHeadType : Type)
     (get_attention_head_type : pyval → pyval → result AttentionHeadType)
     (split_query_key_value_tensor_for_attention :
        Tensor A → pyval → pyval → pyval → AttentionHeadType
        → result (Tensor A * Tensor A * Tensor A))
     (wm : SafeTensorsWeightsManager A) (num_layers : Z) (seq_mixer_block_types : list pyval)
     (num_heads num_key_value_heads head_dim : pyval) (state_dict : gmap string (Tensor A)),
      _export_state_dict_to_huggingface
        get_attention_head_type split_query_key_value_tensor_for_attention
        wm num_layers seq_mixer_block_types num_heads num_key_value_heads head_dim = Ok state_dict →
      (∃ attention_head_type,
          get_attention_head_type num_heads num_key_value_heads = Ok attention_head_type
          ∧ (∀ m, enabled wm num_layers seq_mixer_block_types m →
                  ∃ t, state_dict !! target_name m = Some t
                       ∧ produces split_query_key_value_tensor_for_attention wm
                                  num_heads num_key_value_heads head_dim attention_head_type m t)
          ∧ (∀ k t, state_dict !! k = Some t →
                    ∃ m, enabled wm num_layers seq_mixer_block_types m
                         ∧ target_name m = k
                         ∧ produces split_query_key_value_tensor_for_attention wm
                                    num_heads num_key_value_heads head_dim attention_head_type m t
                         ∧ ∀ m', enabled wm num_layers seq_mixer_block_types m' →
                                 target_name m' = k → source_name m' = source_name m))
      ∧ (∀ m m', enabled wm num_layers seq_mixer_block_types m →
                 enabled wm num_layers seq_mixer_block_types m' →
                 source_name m ≠ source_name m' → target_name m ≠ target_name m')
      ∧ (∀ m m', enabled wm num_layers seq_mixer_block_types m →
                 enabled wm num_layers seq_mixer_block_types m' →
                 source_name m = source_name m' → target_name m ≠ target_name m' →
                 ∃ i : nat,
                   source_name m = fstr "transformer.h." i ".sequence_mixer.c_attn.weight"
                   ∧ target_name m ∈ [fstr "model.layers." i ".self_attn.q_proj.weight";
                                      fstr "model.layers." i ".self_attn.k_proj.weight";
                                      fstr "model.layers." i ".self_attn.v_proj.weight"]
                   ∧ target_name m' ∈ [fstr "model.layers." i ".self_attn.q_proj.weight";
                                       fstr "model.layers." i ".self_attn.k_proj.weight";
                                       fstr "model.layers." i ".self_attn.v_proj.weight"]))
  ∧ (∀ check_equal_for_all_and_get_value check_equal_for_all_seq_mixer_and_get_value validate
       config config' original_config,
        _export_config_to_huggingface check_equal_for_all_and_get_value
          check_equal_for_all_seq_mixer_and_get_value validate config = Ok original_config →
        _export_config_to_huggingface check_equal_for_all_and_get_value
          check_equal_for_all_seq_mixer_and_get_value validate config' = Ok original_config →
        GPTDolomiteConfig.vocab_size config = GPTDolomiteConfig.vocab_size config'
        ∧ GPTDolomiteConfig.max_position_embeddings config
          = GPTDolomiteConfig.max_position_embeddings config'
        ∧ GPTDolomiteConfig.hidden_size config = GPTDolomiteConfig.hidden_size config'
        ∧ GPTDolomiteConfig.num_layers config = GPTDolomiteConfig.num_layers config'
        ∧ GPTDolomiteConfig.layer_norm_epsilon config = GPTDolomiteConfig.layer_norm_epsilon config'
        ∧ GPTDolomiteConfig.use_cache config = GPTDolomiteConfig.use_cache config'
        ∧ GPTDolomiteConfig.tie_word_embeddings config = GPTDolomiteConfig.tie_word_embeddings config'
        ∧ GPTDolomiteConfig.initializer_range config = GPTDolomiteConfig.initializer_range config'
        ∧ GPTDolomiteConfig.rope_theta config = GPTDolomiteConfig.rope_theta config'
        ∧ GPTDolomiteConfig.rope_scaling config = GPTDolomiteConfig.rope_scaling config'
        ∧ GPTDolomiteConfig.router_aux_loss_coef config
          = GPTDolomiteConfig.router_aux_loss_coef config'
        ∧ GPTDolomiteConfig.bos_token_id config = GPTDolomiteConfig.bos_token_id config'
        ∧ GPTDolomiteConfig.eos_token_id config = GPTDolomiteConfig.eos_token_id config'
        ∧ GPTDolomiteConfig.pad_token_id config = GPTDolomiteConfig.pad_token_id config'
        ∧ GPTDolomiteConfig.normalization_function config
          = GPTDolomiteConfig.normalization_function config'
        ∧ GPTDolomiteConfig.position_embedding_type config
          = GPTDolomiteConfig.position_embedding_type config'
        ∧ GPTDolomiteConfig.init_method config = GPTDolomiteConfig.init_method config'
        ∧ if_none (PyInt 1) (GPTDolomiteConfig.m_emb config)
          = if_none (PyInt 1) (GPTDolomiteConfig.m_emb config')
        ∧ if_none (PyInt 1) (GPTDolomiteConfig.m_residual config)
          = if_none (PyInt 1) (GPTDolomiteConfig.m_residual config')
        ∧ if_none (PyInt 1) (GPTDolomiteConfig.m_width config)
          = if_none (PyInt 1) (GPTDolomiteConfig.m_width config')).
Proof.
  split.
  - intros A AHT gaht split wm n types nh nkv hd sd Hrun.
    destruct (export_state_dict_spec _ _ _ _ _ _ _ _ _ Hrun) as (aht & Haht & Hen & Hinv & _).
    split_and!.
    + exists aht. split_and!; [done|done|].
      intros k t Hk. destruct (Hinv _ _ Hk) as (m & Hm & Hmk & Hp).
      exists m. split_and!; [done..|].
      intros m' Hm' Hmk'. f_equal.
      apply mapping_target_inj; [by eapply enabled_is_mapping..|congruence].
    + intros m m' Hm%enabled_is_mapping Hm'%enabled_is_mapping Hne Heq.
      apply Hne. f_equal. by apply mapping_target_inj.
    + intros m m' Hm%enabled_is_mapping Hm'%enabled_is_mapping Heq Hne.
      destruct (mapping_source_inj _ _ Hm Hm' Heq) as [->|H]; done.
  - intros check check_seq validate config config' oc H H'.
    apply export_config_fields in H, H'.
    destruct H as (_ & H), H' as (_ & H').
    repeat match goal with
           | H1 : ?a = _ ∧ _, H2 : ?a = _ ∧ _ |- _ =>
             let E1 := fresh in let E2 := fresh in
             destruct H1 as [E1 H1], H2 as [E2 H2]; rewrite E1 in E2
           end.
    split_and!; congruence.
Qed.

(** ** Determinism *)

Section Determinism.
Context {A AttentionHeadType : Type}.
Variable get_attention_head_type : pyval → pyval → result AttentionHeadType.
Variable split_query_key_value_tensor_for_attention :
  Tensor A → pyval → pyval → pyval → AttentionHeadType → result (Tensor A * Tensor A * Tensor A).
Variables wm1 wm2 : SafeTensorsWeightsManager A.
Hypothesis same_has : ∀ name, has_tensor wm1 name = has_tensor wm2 name.
Hypothesis same_get : ∀ name, get_tensor wm1 name = get_tensor wm2 name.

Ltac same_step :=
  match goal with
  | |- mbind _ (get_tensor wm1 ?n) = _ =>
    rewrite (same_get n); destruct (get_tensor wm2 n); cbn [mbind result_bind]; [|reflexivity]
  | |- mbind _ ?m = mbind _ ?m =>
    destruct m; cbn [mbind result_bind]; [|reflexivity]
  | |- (if has_tensor wm1 ?n then _ else _) = _ =>
    rewrite (same_has n); destruct (has_tensor wm2 n)
  | |- (if ?b then _ else _) = (if ?b then _ else _) => destruct b
  | |- (let '(_, _) := ?p in _) = _ => destruct p
  | |- _ => reflexivity
  end.

Lemma export_mamba_same i sd : export_mamba wm1 i sd = export_mamba wm2 i sd.
Proof. unfold export_mamba. repeat same_step. Qed.

Lemma export_attention_same nh nkv hd aht i sd :
  export_attention split_query_key_value_tensor_for_attention wm1 nh nkv hd aht i sd
  = export_attention split_query_key_value_tensor_for_attention wm2 nh nkv hd aht i sd.
Proof. unfold export_attention. repeat same_step. Qed.

Lemma export_shared_same i sd : export_shared wm1 i sd = export_shared wm2 i sd.
Proof. unfold export_shared. repeat same_step. Qed.

Lemma export_layer_same types nh nkv hd aht i sd :
  export_layer split_query_key_value_tensor_for_attention wm1 types nh nkv hd aht i sd
  = export_layer split_query_key_value_tensor_for_attention wm2 types nh nkv hd aht i sd.
Proof.
  unfold export_layer. do 7 same_step.
  rewrite export_mamba_same, export_attention_same. same_step. apply export_shared_same.
Qed.

Lemma for_each_same types nh nkv hd aht l sd :
  for_each l (export_layer split_query_key_value_tensor_for_attention wm1 types nh nkv hd aht) sd
  = for_each l (export_layer split_query_key_value_tensor_for_attention wm2 types nh nkv hd aht) sd.
Proof.
  revert sd. induction l as [|i l IH]; intros sd; cbn [for_each]; [done|].
  rewrite export_layer_same. same_step. apply IH.
Qed.

Lemma export_state_dict_same num_layers types nh nkv hd :
  _export_state_dict_to_huggingface get_attention_head_type
    split_query_key_value_tensor_for_attention wm1 num_layers types nh nkv hd
  = _export_state_dict_to_huggingface get_attention_head_type
      split_query_key_value_tensor_for_attention wm2 num_layers types nh nkv hd.
Proof.
  unfold _export_state_dict_to_huggingface. do 3 same_step.
  rewrite (same_has "lm_head.weight"). destruct (has_tensor wm2 "lm_head.weight").
  - rewrite (same_get "lm_head.weight").
    destruct (get_tensor wm2 "lm_head.weight"); cbn [mbind result_bind]; [|done].
    apply for_each_same.
  - cbn [mbind result_bind]. apply for_each_same.
Qed.

(** C6: the conversion is a function of what it reads.  Two runs on the
    same configuration and on checkpoints that answer [has_tensor] and
    [get_tensor] alike end alike: the same exception, or the same target
    configuration together with the same target state dict. *)
Theorem conversion_deterministic
    (check_equal_for_all_and_get_value : GPTDolomiteConfig.t → string → string → option pyval → result pyval)
    (check_equal_for_all_seq_mixer_and_get_value : GPTDolomiteConfig.t → string → string → string → result pyval)
    (validate : GraniteMoeHybridConfig.t → result unit)
    (py_floordiv : pyval → pyval → result pyval)
    (config : GPTDolomiteConfig.t) :
  export_to_huggingface_granitemoehybrid
    get_attention_head_type split_query_key_value_tensor_for_attention
    check_equal_for_all_and_get_value check_equal_for_all_seq_mixer_and_get_value
    py_floordiv validate config wm1
  = export_to_huggingface_granitemoehybrid
      get_attention_head_type split_query_key_value_tensor_for_attention
      check_equal_for_all_and_get_value check_equal_for_all_seq_mixer_and_get_value
      py_floordiv validate config wm2.
Proof.
  unfold export_to_huggingface_granitemoehybrid. do 3 same_step.
  by rewrite export_state_dict_same.
Qed.

End Determinism.

(** ** [_split_and_reorder_for_glu] applied twice *)

(** C10, as the code has it: along a dimension of size 1 the function
    raises; for any other size it returns a tensor of the shape of its
    argument; on a well-formed tensor of even size applying it twice gives the
    tensor back, and on one of odd size applying it twice gives the tensor
    with its slices rotated by one place, which is the original only when the
    original is unchanged by that rotation. *)
Theorem glu_shape_and_involution {A} (t : Tensor A) (dim n : nat) :
  shape t !! dim = Some n →
  (n = 1 → _split_and_reorder_for_glu t dim = Raise ValueError)
  ∧ (n ≠ 1 →
     ∃ t', _split_and_reorder_for_glu t dim = Ok t'
           ∧ shape t' = shape t
           ∧ (well_formed t →
                (Nat.Even n → _split_and_reorder_for_glu t' dim = Ok t)
                ∧ (Nat.Odd n → _split_and_reorder_for_glu t' dim = Ok (roll t dim 1)))).
Proof.
  intros Hn. split.
  - intros ->. by rewrite (glu_unfold _ _ _ Hn).
  - intros Hn1.
    assert (is_ok (_split_and_reorder_for_glu t dim) = true) as Hok
      by (apply glu_returns; eauto).
    destruct (_split_and_reorder_for_glu t dim) as [t'|] eqn:Ht; [|done].
    exists t'. split; [done|]. split; [by apply (glu_shape _ dim)|].
    intros Hwf. pose proof (glu_twice _ _ _ Hwf Hn Hn1) as Htwice.
    rewrite Ht in Htwice. cbn [mbind result_bind] in Htwice. rewrite Htwice. split.
    + intros [k ->]. replace ((2 * k) `mod` 2) with 0; [by rewrite (roll_0 _ _ _ Hwf Hn)|].
      symmetry. rewrite Nat.mul_comm. apply Nat.Div0.mod_mul.
    + intros [k ->]. replace ((2 * k + 1) `mod` 2) with 1; [done|].
      symmetry. rewrite Nat.add_comm, Nat.mul_comm, Nat.Div0.mod_add. done.
Qed.

(** ** The statements on the sample checkpoint *)


Lemma attention_layer_exported_witness :
  sample_run = Ok sample_state_dict
  ∧ (Z.of_nat 0 < 2)%Z
  ∧ [PyStr "attention"; PyStr "mamba"] !! 0 = Some (PyStr "attention")
  ∧ ∃ aht c_attn q k v c_proj,
      sample_get_attention_head_type (PyInt 1) (PyInt 1) = Ok aht
      ∧ get_tensor sample_manager (fstr "transformer.h." 0 ".sequence_mixer.c_attn.weight") = Ok c_attn
      ∧ sample_split c_attn (PyInt 1) (PyInt 1) (PyInt 2) aht = Ok (q, k, v)
      ∧ sample_state_dict !! fstr "model.layers." 0 ".self_attn.q_proj.weight" = Some q
      ∧ sample_state_dict !! fstr "model.layers." 0 ".self_attn.k_proj.weight" = Some k
      ∧ sample_state_dict !! fstr "model.layers." 0 ".self_attn.v_proj.weight" = Some v
      ∧ get_tensor sample_manager (fstr "transformer.h." 0 ".sequence_mixer.c_proj.weight") = Ok c_proj
      ∧ sample_state_dict !! fstr "model.layers." 0 ".self_attn.o_proj.weight" = Some c_proj.
Proof.
  assert (sample_run = Ok sample_state_dict) as Hrun
    by (vm_cast_no_check (eq_refl (Ok sample_state_dict))).
  assert ((Z.of_nat 0 < 2)%Z) as Hi by (vm_compute; reflexivity).
  assert ([PyStr "attention"; PyStr "mamba"] !! 0 = Some (PyStr "attention")) as Hty by reflexivity.
  split; [exact Hrun|]. split; [exact Hi|]. split; [exact Hty|].
  exact (attention_layer_exported _ _ _ _ _ _ _ _ _ Hrun 0 Hi Hty).
Defined.

Lemma glu_weights_exported_witness :
  sample_run = Ok sample_state_dict
  ∧ (Z.of_nat 0 < 2)%Z
  ∧ (∃ c_fc t,
        get_tensor sample_manager (fstr "transformer.h." 0 ".mlp_block.c_fc.weight") = Ok c_fc
        ∧ _split_and_reorder_for_glu c_fc 1 = Ok t
        ∧ (well_formed c_fc → t = roll c_fc 1 ((size c_fc 1 + 1) / 2))
        ∧ sample_state_dict !! fstr "model.layers." 0 ".block_sparse_moe.input_linear.weight" = Some t)
  ∧ (has_tensor sample_manager (fstr "transformer.h." 0 ".mlp_block.c_fc_shared.weight") = true →
     ∃ c_fc_shared t,
       get_tensor sample_manager (fstr "transformer.h." 0 ".mlp_block.c_fc_shared.weight")
       = Ok c_fc_shared
       ∧ _split_and_reorder_for_glu c_fc_shared 0 = Ok t
       ∧ (well_formed c_fc_shared → t = roll c_fc_shared 0 ((size c_fc_shared 0 + 1) / 2))
       ∧ sample_state_dict !! fstr "model.layers." 0 ".shared_mlp.input_linear.weight" = Some t).
Proof.
  assert (sample_run = Ok sample_state_dict) as Hrun
    by (vm_cast_no_check (eq_refl (Ok sample_state_dict))).
  assert ((Z.of_nat 0 < 2)%Z) as Hi by (vm_compute; reflexivity).
  split; [exact Hrun|]. split; [exact Hi|].
  exact (glu_weights_exported _ _ _ _ _ _ _ _ _ Hrun 0 Hi).
Defined.

Lemma exported_names_present_witness :
  sample_run = Ok sample_state_dict
  ∧ is_Some (sample_state_dict !! "model.embed_tokens.weight")
  ∧ is_Some (sample_state_dict !! "model.norm.weight")
  ∧ is_Some (sample_state_dict !! fstr "model.layers." 0 ".input_layernorm.weight")
  ∧ is_Some (sample_state_dict !! fstr "model.layers." 0 ".self_attn.q_proj.weight")
  ∧ is_Some (sample_state_dict !! fstr "model.layers." 1 ".block_sparse_moe.router.layer.weight")
  ∧ is_Some (sample_state_dict !! fstr "model.layers." 1 ".mamba.A_log").
Proof.
  assert (sample_run = Ok sample_state_dict) as Hrun
    by (vm_cast_no_check (eq_refl (Ok sample_state_dict))).
  split; [exact Hrun|].
  pose proof (exported_names_present _ _ _ _ _ _ _ _ _ Hrun) as (Hembed & Hnorm & Hlayers).
  assert ((Z.of_nat 0 < 2)%Z) as H0 by (vm_compute; reflexivity).
  assert ((Z.of_nat 1 < 2)%Z) as H1 by (vm_compute; reflexivity).
  destruct (Hlayers 0 H0) as ((Hln & _) & _ & Hattention).
  destruct (Hlayers 1 H1) as ((_ & _ & Hrouter & _) & Hmamba & _).
  destruct (Hattention eq_refl) as (Hq & _).
  destruct (Hmamba eq_refl) as (_ & _ & _ & _ & HA_log & _).
  exact (conj Hembed (conj Hnorm (conj Hln (conj Hq (conj Hrouter HA_log))))).
Defined.

Lemma get_sequence_mixer_block_types_correct_witness :
  GPTDolomiteConfig.sequence_mixer_blocks sample_config
  = [ BlockDict sample_attention_args;
      BlockObject (mkBlockArgs (PyStr "mamba2") sample_mamba_args) ]
  ∧ sample_attention_args !! "sequence_mixer_type" = Some (PyStr "softmax_attention")
  ∧ _get_sequence_mixer_block_types sample_config = Ok [PyStr "attention"; PyStr "mamba"].
Proof.
  split; [reflexivity|]. split; [vm_compute; reflexivity|].
  destruct (get_sequence_mixer_block_types_correct sample_config)
    as (types & Hrun & Hlen & Hobj & Hdict & _).
  pose proof (Hdict 0 sample_attention_args eq_refl) as H0.
  pose proof (Hobj 1 (mkBlockArgs (PyStr "mamba2") sample_mamba_args) eq_refl) as H1.
  vm_compute in H0. vm_compute in H1.
  destruct types as [|a [|b [|c types]]]; try discriminate Hlen.
  injection H0 as ->. injection H1 as ->. exact Hrun.
Defined.

Lemma export_config_scalar_fields_witness :
  _export_config_to_huggingface sample_check_equal sample_check_equal_seq_mixer
    sample_validate sample_config
  = Ok sample_original_config
  ∧ GraniteMoeHybridConfig.vocab_size sample_original_config = GPTDolomiteConfig.vocab_size sample_config
  ∧ GraniteMoeHybridConfig.num_hidden_layers sample_original_config
    = GPTDolomiteConfig.num_layers sample_config
  ∧ GraniteMoeHybridConfig.shared_intermediate_size sample_original_config = PyInt 0
  ∧ GraniteMoeHybridConfig.embedding_multiplier sample_original_config = PyInt 1.
Proof.
  assert (_export_config_to_huggingface sample_check_equal sample_check_equal_seq_mixer
    sample_validate sample_config
          = Ok sample_original_config) as Hrun by (vm_compute; reflexivity).
  split; [exact Hrun|].
  pose proof (export_config_scalar_fields _ _ _ _ _ Hrun)
    as (Hvocab & _ & _ & Hlayers & _ & _ & Hemb & _).
  split; [exact Hvocab|]. split; [exact Hlayers|]. split; [reflexivity|exact Hemb].
Defined.

Lemma export_config_asserts_rmsnorm_witness :
  GPTDolomiteConfig.normalization_function (sample_config_with (PyStr "layernorm") PyNone)
  ≠ PyStr "rmsnorm"
  ∧ _export_config_to_huggingface sample_check_equal sample_check_equal_seq_mixer
    sample_validate
      (sample_config_with (PyStr "layernorm") PyNone) = Raise AssertionError.
Proof.
  assert (GPTDolomiteConfig.normalization_function (sample_config_with (PyStr "layernorm") PyNone)
          ≠ PyStr "rmsnorm") as Hnorm by (simpl; discriminate).
  split; [exact Hnorm|].
  exact (export_config_asserts_rmsnorm sample_check_equal sample_check_equal_seq_mixer
           sample_validate _ Hnorm).
Defined.

Lemma name_remapping_injective_witness :
  sample_run = Ok sample_state_dict
  ∧ enabled sample_manager 2 [PyStr "attention"; PyStr "mamba"]
      (layer_mapping 0 (".sequence_mixer.c_attn.weight", ".self_attn.q_proj.weight", SplitQuery))
  ∧ enabled sample_manager 2 [PyStr "attention"; PyStr "mamba"]
      (layer_mapping 0 (".sequence_mixer.c_attn.weight", ".self_attn.k_proj.weight", SplitKey))
  ∧ enabled sample_manager 2 [PyStr "attention"; PyStr "mamba"]
      (layer_mapping 1 (".ln_1.weight", ".input_layernorm.weight", Rename))
  ∧ (∃ aht t,
        sample_get_attention_head_type (PyInt 1) (PyInt 1) = Ok aht
        ∧ sample_state_dict !! "model.layers.0.self_attn.q_proj.weight" = Some t
        ∧ produces sample_split sample_manager (PyInt 1) (PyInt 1) (PyInt 2) aht
            (layer_mapping 0 (".sequence_mixer.c_attn.weight", ".self_attn.q_proj.weight", SplitQuery)) t)
  ∧ "transformer.h.0.sequence_mixer.c_attn.weight" ≠ "transformer.h.1.ln_1.weight"
  ∧ "model.layers.0.self_attn.q_proj.weight" ≠ "model.layers.1.input_layernorm.weight"
  ∧ "model.layers.0.self_attn.q_proj.weight" ≠ "model.layers.0.self_attn.k_proj.weight"
  ∧ (∃ i : nat,
      "transformer.h.0.sequence_mixer.c_attn.weight"
      = fstr "transformer.h." i ".sequence_mixer.c_attn.weight"
      ∧ "model.layers.0.self_attn.q_proj.weight"
        ∈ [fstr "model.layers." i ".self_attn.q_proj.weight";
           fstr "model.layers." i ".self_attn.k_proj.weight";
           fstr "model.layers." i ".self_attn.v_proj.weight"]
      ∧ "model.layers.0.self_attn.k_proj.weight"
        ∈ [fstr "model.layers." i ".self_attn.q_proj.weight";
           fstr "model.layers." i ".self_attn.k_proj.weight";
           fstr "model.layers." i ".self_attn.v_proj.weight"])
  ∧ _export_config_to_huggingface sample_check_equal sample_check_equal_seq_mixer
      sample_validate (sample_config_with (PyStr "rmsnorm") PyNone) = Ok sample_original_config
  ∧ _export_config_to_huggingface sample_check_equal sample_check_equal_seq_mixer
      sample_validate (sample_config_with (PyStr "rmsnorm") (PyInt 1)) = Ok sample_original_config
  ∧ GPTDolomiteConfig.vocab_size (sample_config_with (PyStr "rmsnorm") PyNone)
    = GPTDolomiteConfig.vocab_size (sample_config_with (PyStr "rmsnorm") (PyInt 1))
  ∧ if_none (PyInt 1) PyNone = if_none (PyInt 1) (PyInt 1).
Proof.
  assert (sample_run = Ok sample_state_dict) as Hrun
    by (vm_cast_no_check (eq_refl (Ok sample_state_dict))).
  assert (enabled sample_manager 2 [PyStr "attention"; PyStr "mamba"]
            (layer_mapping 0 (".sequence_mixer.c_attn.weight", ".self_attn.q_proj.weight", SplitQuery))) as Hq
    by (right; right; eexists 0, (PyStr "attention"), _;
        split; [reflexivity|]; split; [reflexivity|]; split; [|reflexivity];
        apply (bool_decide_unpack _); vm_compute; exact I).
  assert (enabled sample_manager 2 [PyStr "attention"; PyStr "mamba"]
            (layer_mapping 0 (".sequence_mixer.c_attn.weight", ".self_attn.k_proj.weight", SplitKey))) as Hk
    by (right; right; eexists 0, (PyStr "attention"), _;
        split; [reflexivity|]; split; [reflexivity|]; split; [|reflexivity];
        apply (bool_decide_unpack _); vm_compute; exact I).
  assert (enabled sample_manager 2 [PyStr "attention"; PyStr "mamba"]
            (layer_mapping 1 (".ln_1.weight", ".input_layernorm.weight", Rename))) as Hln
    by (right; right; eexists 1, (PyStr "mamba"), _;
        split; [reflexivity|]; split; [reflexivity|]; split; [|reflexivity];
        apply (bool_decide_unpack _); vm_compute; exact I).
  assert ("transformer.h.0.sequence_mixer.c_attn.weight" ≠ "transformer.h.1.ln_1.weight")
    as Hsrc by discriminate.
  assert ("model.layers.0.self_attn.q_proj.weight" ≠ "model.layers.0.self_attn.k_proj.weight")
    as Htgt by discriminate.
  destruct (proj1 name_remapping_injective _ _ _ _ _ _ _ _ _ _ _ Hrun)
    as ((aht & Haht & Hen & _) & Hinj & Hqkv).
  destruct (Hen _ Hq) as (t & Ht & Hp).
  split; [exact Hrun|]. split; [exact Hq|]. split; [exact Hk|]. split; [exact Hln|].
  split; [exact (ex_intro _ aht (ex_intro _ t (conj Haht (conj Ht Hp))))|].
  assert (_export_config_to_huggingface sample_check_equal sample_check_equal_seq_mixer
            sample_validate (sample_config_with (PyStr "rmsnorm") PyNone)
          = Ok sample_original_config) as Hc by (vm_compute; reflexivity).
  assert (_export_config_to_huggingface sample_check_equal sample_check_equal_seq_mixer
            sample_validate (sample_config_with (PyStr "rmsnorm") (PyInt 1))
          = Ok sample_original_config) as Hc' by (vm_compute; reflexivity).
  pose proof (proj2 name_remapping_injective _ _ _ _ _ _ Hc Hc')
    as (Hvocab & _ & _ & _ & _ & _ & _ & _ & _ & _ & _ & _ & _ & _ & _ & _ & _ & Hemb & _).
  split; [exact Hsrc|]. split; [exact (Hinj _ _ Hq Hln Hsrc)|]. split; [exact Htgt|].
  split; [exact (Hqkv _ _ Hq Hk eq_refl Htgt)|].
  exact (conj Hc (conj Hc' (conj Hvocab Hemb))).
Defined.

Lemma conversion_deterministic_witness :
  (∀ name, has_tensor sample_manager name = has_tensor sample_manager_by_names name)
  ∧ (∀ name, get_tensor sample_manager name = get_tensor sample_manager_by_names name)
  ∧ export_to_huggingface_granitemoehybrid
      sample_get_attention_head_type sample_split sample_check_equal sample_check_equal_seq_mixer
      int_floordiv sample_validate sample_config sample_manager
    = export_to_huggingface_granitemoehybrid
        sample_get_attention_head_type sample_split sample_check_equal sample_check_equal_seq_mixer
        int_floordiv sample_validate sample_config sample_manager_by_names.
Proof.
  assert (∀ name, has_tensor sample_manager name = has_tensor sample_manager_by_names name) as Hhas
    by (intros name; apply bool_decide_ext; symmetry; apply elem_of_dom).
  assert (∀ name, get_tensor sample_manager name = get_tensor sample_manager_by_names name) as Hget
    by (intros name; reflexivity).
  split; [exact Hhas|]. split; [exact Hget|].
  exact (conversion_deterministic _ _ _ _ Hhas Hget _ _ _ _ _).
Defined.

Lemma glu_shape_and_involution_witness :
  shape (mkTensor [2; 4] [1; 2; 3; 4; 5; 6; 7; 8]%Z) !! 1 = Some 4
  ∧ ∃ t', _split_and_reorder_for_glu (mkTensor [2; 4] [1; 2; 3; 4; 5; 6; 7; 8]%Z) 1 = Ok t'
          ∧ shape t' = [2; 4]
          ∧ _split_and_reorder_for_glu t' 1 = Ok (mkTensor [2; 4] [1; 2; 3; 4; 5; 6; 7; 8]%Z).
Proof.
  assert (shape (mkTensor [2; 4] [1; 2; 3; 4; 5; 6; 7; 8]%Z) !! 1 = Some 4) as Hn by reflexivity.
  split; [exact Hn|].
  destruct (proj2 (glu_shape_and_involution _ _ _ Hn)) as (t' & Ht' & Hshape & Htwice);
    [lia|].
  exists t'. split; [exact Ht'|]. split; [exact Hshape|].
  apply Htwice; [reflexivity|]. exists 2. reflexivity.
Defined.

(** ** Where the stated claims fail *)

(** C5 as stated fails on the configuration: the source values [None] and
    [1] of [m_emb] differ, yet both configurations are exported to the same
    target configuration, whose [embedding_multiplier] is 1. *)
Lemma config_remapping_not_injective :
  GPTDolomiteConfig.m_emb (sample_config_with (PyStr "rmsnorm") PyNone)
  ≠ GPTDolomiteConfig.m_emb (sample_config_with (PyStr "rmsnorm") (PyInt 1))
  ∧ _export_config_to_huggingface sample_check_equal sample_check_equal_seq_mixer
    sample_validate
      (sample_config_with (PyStr "rmsnorm") PyNone) = Ok sample_original_config
  ∧ _export_config_to_huggingface sample_check_equal sample_check_equal_seq_mixer
    sample_validate
      (sample_config_with (PyStr "rmsnorm") (PyInt 1)) = Ok sample_original_config.
Proof.
  split; [simpl; discriminate|]. split; vm_compute; reflexivity.
Qed.

(** C10 as stated fails twice: along a dimension of size 1 no tensor is
    returned, and an odd-sized tensor whose slices are all equal is restored
    by applying the function twice. *)
Lemma glu_odd_size_counterexample :
  _split_and_reorder_for_glu (mkTensor [1] [7]%Z) 0 = Raise ValueError
  ∧ Nat.Odd 3
  ∧ (_split_and_reorder_for_glu (mkTensor [3] [5; 5; 5]%Z) 0
     ≫= λ t', _split_and_reorder_for_glu t' 0) = Ok (mkTensor [3] [5; 5; 5]%Z).
Proof.
  split; [reflexivity|]. split; [by exists 1|reflexivity].
Qed.

(** * Further properties of the conversion *)

(** ** [_split_and_reorder_for_glu] loses nothing *)

Section GluLossless.
Context {A : Type}.
Implicit Types t : Tensor A.

Lemma rotl_Permutation k (l : list A) : rotl k l ≡ₚ l.
Proof. unfold rotl. rewrite Permutation_app_comm. by rewrite take_drop. Qed.

Lemma rotl_back k (l : list A) : k ≤ length l → rotl (length l - k) (rotl k l) = l.
Proof.
  intros Hk. unfold rotl.
  assert (length (drop k l) = length l - k) as Hlen by apply length_drop.
  rewrite drop_app_length', take_app_length' by done. apply take_drop.
Qed.

Lemma concat_map_Permutation (f g : nat → list A) (l : list nat) :
  (∀ o, f o ≡ₚ g o) → concat (map f l) ≡ₚ concat (map g l).
Proof.
  intros Hfg. induction l as [|o l IH]; cbn [map concat]; [done|]. by rewrite Hfg, IH.
Qed.

Lemma roll_data_Permutation t dim n k :
  well_formed t → shape t !! dim = Some n → data (roll t dim k) ≡ₚ data t.
Proof.
  intros Hwf Hn. cbn [roll data]. unfold size. rewrite Hn. cbn [default from_option id].
  rewrite (concat_map_Permutation _ (λ o, block_at (n * inner_size (shape t) dim) o (data t)))
    by (intros; apply rotl_Permutation).
  rewrite concat_block_at; [done|]. by rewrite Hwf, (numel_split _ _ _ Hn).
Qed.

(** Rolling back by the remaining places gives the tensor back. *)
Lemma roll_back t dim n k :
  well_formed t → shape t !! dim = Some n → k ≤ n →
  roll (roll t dim k) dim (n - k) = t.
Proof.
  intros Hwf Hn Hk. rewrite <- (roll_0 t dim n Hwf Hn) at 2.
  unfold roll at 1 3. cbn [shape]. f_equal.
  assert (size (roll t dim k) dim = n) as -> by (unfold size; cbn [roll shape]; by rewrite Hn).
  assert (size t dim = n) as Hsz by (unfold size; by rewrite Hn). rewrite Hsz.
  change (shape (roll t dim k)) with (shape t). f_equal.
  apply map_ext_in. intros o [_ Ho]%in_seq. simpl in Ho.
  pose proof (length_block_data _ _ _ _ Hwf Hn Ho) as Hlen.
  cbn [roll data]. rewrite Hsz, block_at_concat; [| |done].
  - rewrite rotl_0. rewrite <- (rotl_back (k * inner_size (shape t) dim)) by (rewrite Hlen; nia).
    f_equal. rewrite Hlen. nia.
  - intros i Hi. rewrite length_rotl. apply (length_block_data _ _ _ _ Hwf Hn Hi).
Qed.

Lemma glu_keeps_elements_aux t dim t' :
  well_formed t → _split_and_reorder_for_glu t dim = Ok t' →
  well_formed t' ∧ data t' ≡ₚ data t.
Proof.
  intros Hwf Ht'.
  assert (is_ok (_split_and_reorder_for_glu t dim) = true) as (n & Hn & Hn1)%glu_returns
    by (by rewrite Ht').
  rewrite (glu_roll _ _ _ Hwf Hn Hn1) in Ht'. injection Ht' as <-.
  split; [by eapply well_formed_roll|by eapply roll_data_Permutation].
Qed.

(** X1: on a well-formed tensor the result of [_split_and_reorder_for_glu]
    is well-formed and holds the elements of its argument, each as often as
    the argument does: the swap moves values, it neither drops nor repeats
    any. *)
Theorem glu_keeps_elements t dim t' :
  well_formed t → _split_and_reorder_for_glu t dim = Ok t' →
  well_formed t' ∧ data t' ≡ₚ data t.
Proof. apply glu_keeps_elements_aux. Qed.

(** X2: [_split_and_reorder_for_glu] is injective on well-formed tensors:
    two weights with the same result along the same dimension are the same
    weight, so the source weight can be recovered from the exported one. *)
Theorem glu_injective t1 t2 dim t' :
  well_formed t1 → well_formed t2 →
  _split_and_reorder_for_glu t1 dim = Ok t' → _split_and_reorder_for_glu t2 dim = Ok t' →
  t1 = t2.
Proof.
  intros Hwf1 Hwf2 H1 H2.
  pose proof (glu_shape _ _ _ H1) as Hs1. pose proof (glu_shape _ _ _ H2) as Hs2.
  assert (is_ok (_split_and_reorder_for_glu t1 dim) = true) as (n & Hn1 & Hne)%glu_returns
    by (by rewrite H1).
  assert (shape t2 !! dim = Some n) as Hn2 by (by rewrite <- Hs2, Hs1).
  rewrite (glu_roll _ _ _ Hwf1 Hn1 Hne) in H1. rewrite (glu_roll _ _ _ Hwf2 Hn2 Hne) in H2.
  pose proof (Nat.div_mod_eq (n + 1) 2) as Hdiv.
  pose proof (Nat.mod_upper_bound (n + 1) 2) as Hmod.
  generalize dependent ((n + 1) / 2). intros s H1 H2 Hdiv.
  assert (roll t1 dim s = roll t2 dim s) as Heq by congruence.
  assert (s ≤ n) as Hle by lia.
  rewrite <- (roll_back t1 dim n s Hwf1 Hn1 Hle), <- (roll_back t2 dim n s Hwf2 Hn2 Hle).
  by rewrite Heq.
Qed.

End GluLossless.

(** ** What the exported state dict does not hold *)

Section StateDictBounds.
Context {A AttentionHeadType : Type}.
Variable get_attention_head_type : pyval → pyval → result AttentionHeadType.
Variable split_query_key_value_tensor_for_attention :
  Tensor A → pyval → pyval → pyval → AttentionHeadType → result (Tensor A * Tensor A * Tensor A).
Variable wm : SafeTensorsWeightsManager A.
Variable num_layers : Z.
Variable seq_mixer_block_types : list pyval.
Variables num_heads num_key_value_heads head_dim : pyval.
Variable state_dict : gmap string (Tensor A).

Hypothesis exported :
  _export_state_dict_to_huggingface
    get_attention_head_type split_query_key_value_tensor_for_attention
    wm num_layers seq_mixer_block_types num_heads num_key_value_heads head_dim = Ok state_dict.

Lemma exported_entry_enabled k t :
  state_dict !! k = Some t →
  ∃ aht m, enabled wm num_layers seq_mixer_block_types m
           ∧ target_name m = k
           ∧ produces split_query_key_value_tensor_for_attention wm
                      num_heads num_key_value_heads head_dim aht m t.
Proof.
  intros Hk.
  destruct (export_state_dict_spec _ _ _ _ _ _ _ _ _ exported) as (aht & _ & _ & Hinv & _).
  destruct (Hinv _ _ Hk) as (m & ? & ? & ?). by exists aht, m.
Qed.

(** A row that the iteration of a layer does not run leaves no entry. *)
Lemma layer_row_absent (i : nat) block_type r :
  seq_mixer_block_types !! i = Some block_type →
  r ∈ layer_table →
  r ∉ rows_for block_type (has_tensor wm (fstr "transformer.h." i ".mlp_block.c_fc_shared.weight")) →
  state_dict !! fstr "model.layers." i r.1.2 = None.
Proof.
  intros Hty Hr Hnot. apply eq_None_not_Some. intros [t Ht].
  destruct (exported_entry_enabled _ _ Ht) as (aht & m & Hen & Htarget & _).
  destruct Hen as [Hm|[[_ Hm]|(j & bt & r' & _ & Hty' & Hr' & ->)]].
  - by eapply layer_target_not_global; [eapply (subseteq_take 2), Hm|].
  - by eapply layer_target_not_global; [eapply (subseteq_drop 2), Hm|].
  - cbn [layer_mapping target_name] in Htarget.
    destruct (layer_target_inj _ _ _ _ (rows_for_sub _ _ _ Hr') Hr Htarget) as [-> ->].
    rewrite Hty in Hty'. injection Hty' as <-. done.
Qed.

(** X4: no entry is written for a layer index that [range(num_layers)] does
    not reach: a name [model.layers.{i}.<suffix>] with [i >= num_layers] is
    absent from the exported state dict. *)
Theorem no_entry_beyond_num_layers (i : nat) (suffix : string) :
  (num_layers ≤ Z.of_nat i)%Z → starts_with_dot suffix →
  state_dict !! fstr "model.layers." i suffix = None.
Proof.
  intros Hi Hdot. apply eq_None_not_Some. intros [t Ht].
  destruct (exported_entry_enabled _ _ Ht) as (aht & m & Hen & Htarget & _).
  destruct Hen as [Hm|[[_ Hm]|(j & bt & r' & Hj & _ & Hr' & ->)]].
  - by eapply layer_target_not_global; [eapply (subseteq_take 2), Hm|].
  - by eapply layer_target_not_global; [eapply (subseteq_drop 2), Hm|].
  - cbn [layer_mapping target_name] in Htarget.
    pose proof (proj1 (Forall_forall _ _) layer_table_dotted _ (rows_for_sub _ _ _ Hr')) as [_ Hdot'].
    destruct (fstr_inj _ _ _ _ _ Hdot' Hdot Htarget) as [-> _]. lia.
Qed.

(** X6: [lm_head.weight] is exported exactly when the checkpoint has it, and
    then unchanged; otherwise the exported state dict has no such entry. *)
Theorem lm_head_exported_iff :
  if has_tensor wm "lm_head.weight"
  then ∃ t, get_tensor wm "lm_head.weight" = Ok t ∧ state_dict !! "lm_head.weight" = Some t
  else state_dict !! "lm_head.weight" = None.
Proof.
  destruct (has_tensor wm "lm_head.weight") eqn:Hlm.
  - destruct (export_state_dict_spec _ _ _ _ _ _ _ _ _ exported) as (? & _ & Hen & _ & _).
    destruct (Hen (mkMapping "lm_head.weight" "lm_head.weight" Rename))
      as (t & Ht & w & Hw & ->); [right; left; split; [done|in_table]|].
    by exists w.
  - apply eq_None_not_Some. intros [t Ht].
    destruct (exported_entry_enabled _ _ Ht) as (aht & m & Hen & Htarget & _).
    destruct Hen as [Hm|[[Hlm' Hm]|(j & bt & r' & _ & _ & _ & ->)]].
    + cbn in Hm. rewrite !elem_of_cons, elem_of_nil in Hm. by destruct Hm as [->|[->|[]]].
    + congruence.
    + by apply (layer_target_not_global j r'.1.2
                  (mkMapping "lm_head.weight" "lm_head.weight" Rename)); [in_table|].
Qed.

(** X7: the shared-MLP entries of a layer follow [has_tensor] of
    [mlp_block.c_fc_shared.weight]: when that tensor exists both entries are
    exported, the output weight unchanged; when it does not, neither entry
    exists. *)
Theorem shared_mlp_exported_iff (i : nat) :
  (Z.of_nat i < num_layers)%Z →
  if has_tensor wm (fstr "transformer.h." i ".mlp_block.c_fc_shared.weight")
  then is_Some (state_dict !! fstr "model.layers." i ".shared_mlp.input_linear.weight")
       ∧ ∃ t, get_tensor wm (fstr "transformer.h." i ".mlp_block.c_proj_shared.weight") = Ok t
              ∧ state_dict !! fstr "model.layers." i ".shared_mlp.output_linear.weight" = Some t
  else state_dict !! fstr "model.layers." i ".shared_mlp.input_linear.weight" = None
       ∧ state_dict !! fstr "model.layers." i ".shared_mlp.output_linear.weight" = None.
Proof.
  intros Hi.
  destruct (export_state_dict_spec _ _ _ _ _ _ _ _ _ exported) as (? & _ & _ & _ & Htys).
  destruct (Htys i Hi) as [bt Hty].
  destruct (has_tensor wm _) eqn:Hshared.
  - split.
    + destruct (layer_row_exported _ _ _ _ _ _ _ _ _ exported i bt
                  (".mlp_block.c_fc_shared.weight", ".shared_mlp.input_linear.weight", GluSwap 0)
                  Hi Hty) as (? & ? & t & _ & _ & _ & Ht);
        [rewrite Hshared; apply shared_rows_in; in_table|by exists t].
    + destruct (layer_row_exported _ _ _ _ _ _ _ _ _ exported i bt
                  (".mlp_block.c_proj_shared.weight", ".shared_mlp.output_linear.weight", Rename)
                  Hi Hty) as (? & w & t & _ & Hw & -> & Ht);
        [rewrite Hshared; apply shared_rows_in; in_table|by exists w].
  - split.
    + apply (layer_row_absent i bt
               (".mlp_block.c_fc_shared.weight", ".shared_mlp.input_linear.weight", GluSwap 0) Hty);
        [in_table|].
      rewrite Hshared. unfold rows_for.
      destruct (py_eq_str bt "mamba"), (py_eq_str bt "attention"); in_table.
    + apply (layer_row_absent i bt
               (".mlp_block.c_proj_shared.weight", ".shared_mlp.output_linear.weight", Rename) Hty);
        [in_table|].
      rewrite Hshared. unfold rows_for.
      destruct (py_eq_str bt "mamba"), (py_eq_str bt "attention"); in_table.
Qed.

Lemma mamba_row_absent (i : nat) block_type r :
  seq_mixer_block_types !! i = Some block_type → block_type ≠ PyStr "mamba" →
  r ∈ take 8 (drop 5 layer_table) →
  state_dict !! fstr "model.layers." i r.1.2 = None.
Proof.
  intros Hty Hne%py_eq_str_false Hr.
  apply (layer_row_absent i block_type r Hty); [by eapply (subseteq_drop 5), (subseteq_take 8)|].
  unfold rows_for. rewrite Hne. revert Hr. cbn [layer_table firstn skipn].
  rewrite !elem_of_cons, elem_of_nil.
  intros [->|[->|[->|[->|[->|[->|[->|[->|[]]]]]]]]];
    destruct (py_eq_str block_type "attention"), (has_tensor wm _); in_table.
Qed.

Lemma attention_row_absent (i : nat) block_type r :
  seq_mixer_block_types !! i = Some block_type → block_type ≠ PyStr "attention" →
  r ∈ take 4 (drop 13 layer_table) →
  state_dict !! fstr "model.layers." i r.1.2 = None.
Proof.
  intros Hty Hne%py_eq_str_false Hr.
  apply (layer_row_absent i block_type r Hty); [by eapply (subseteq_drop 13), (subseteq_take 4)|].
  unfold rows_for. rewrite Hne. revert Hr. cbn [layer_table firstn skipn].
  rewrite !elem_of_cons, elem_of_nil.
  intros [->|[->|[->|[->|[]]]]];
    destruct (py_eq_str block_type "mamba"), (has_tensor wm _); in_table.
Qed.

(** X8: the tensors of the two sequence-mixer kinds exclude each other: a
    layer whose block type is not "mamba" has none of the eight mamba
    entries, and a layer whose block type is not "attention" has none of the
    four self_attn entries (a layer of any other type has neither). *)
Theorem mixer_entries_follow_block_type (i : nat) (block_type : pyval) :
  seq_mixer_block_types !! i = Some block_type →
  (block_type ≠ PyStr "mamba" →
   state_dict !! fstr "model.layers." i ".mamba.conv1d.weight" = None
   ∧ state_dict !! fstr "model.layers." i ".mamba.conv1d.bias" = None
   ∧ state_dict !! fstr "model.layers." i ".mamba.in_proj.weight" = None
   ∧ state_dict !! fstr "model.layers." i ".mamba.dt_bias" = None
   ∧ state_dict !! fstr "model.layers." i ".mamba.A_log" = None
   ∧ state_dict !! fstr "model.layers." i ".mamba.D" = None
   ∧ state_dict !! fstr "model.layers." i ".mamba.out_proj.weight" = None
   ∧ state_dict !! fstr "model.layers." i ".mamba.norm.weight" = None)
  ∧ (block_type ≠ PyStr "attention" →
     state_dict !! fstr "model.layers." i ".self_attn.q_proj.weight" = None
     ∧ state_dict !! fstr "model.layers." i ".self_attn.k_proj.weight" = None
     ∧ state_dict !! fstr "model.layers." i ".self_attn.v_proj.weight" = None
     ∧ state_dict !! fstr "model.layers." i ".self_attn.o_proj.weight" = None).
Proof.
  intros Hty. split; intros Hne.
  - split_and!.
    + by apply (mamba_row_absent i block_type
                  (".sequence_mixer.conv1d.weight", ".mamba.conv1d.weight", Rename)); [..|in_table].
    + by apply (mamba_row_absent i block_type
                  (".sequence_mixer.conv1d.bias", ".mamba.conv1d.bias", Rename)); [..|in_table].
    + by apply (mamba_row_absent i block_type
                  (".sequence_mixer.in_proj.weight", ".mamba.in_proj.weight", Rename)); [..|in_table].
    + by apply (mamba_row_absent i block_type
                  (".sequence_mixer.dt_bias", ".mamba.dt_bias", Rename)); [..|in_table].
    + by apply (mamba_row_absent i block_type
                  (".sequence_mixer.A_log", ".mamba.A_log", Rename)); [..|in_table].
    + by apply (mamba_row_absent i block_type
                  (".sequence_mixer.D", ".mamba.D", Rename)); [..|in_table].
    + by apply (mamba_row_absent i block_type
                  (".sequence_mixer.out_proj.weight", ".mamba.out_proj.weight", Rename)); [..|in_table].
    + by apply (mamba_row_absent i block_type
                  (".sequence_mixer.norm.weight", ".mamba.norm.weight", Rename)); [..|in_table].
  - split_and!.
    + by apply (attention_row_absent i block_type
                  (".sequence_mixer.c_attn.weight", ".self_attn.q_proj.weight", SplitQuery)); [..|in_table].
    + by apply (attention_row_absent i block_type
                  (".sequence_mixer.c_attn.weight", ".self_attn.k_proj.weight", SplitKey)); [..|in_table].
    + by apply (attention_row_absent i block_type
                  (".sequence_mixer.c_attn.weight", ".self_attn.v_proj.weight", SplitValue)); [..|in_table].
    + by apply (attention_row_absent i block_type
                  (".sequence_mixer.c_proj.weight", ".self_attn.o_proj.weight", Rename)); [..|in_table].
Qed.

(** X9: every exported tensor other than the pieces of a QKV split has the
    shape of its source tensor, and when the source tensor is well-formed
    the exported one is well-formed and holds the same elements, each as
    often. *)
Theorem exported_tensor_keeps_shape (k : string) (t : Tensor A) (m : mapping) :
  state_dict !! k = Some t → is_mapping m → target_name m = k →
  category_of (how m) ≠ QKVSplit →
  ∃ w, get_tensor wm (source_name m) = Ok w
       ∧ shape t = shape w
       ∧ (well_formed w → well_formed t ∧ data t ≡ₚ data w).
Proof.
  intros Hk Hm Htarget Hcat.
  destruct (exported_entry_enabled _ _ Hk) as (aht & m' & Hen%enabled_is_mapping & Htarget' & Hprod).
  assert (m' = m) as -> by (apply mapping_target_inj; congruence).
  destruct Hprod as (w & Hw & Htr). exists w. split; [done|].
  destruct (how m); cbn in Htr, Hcat; try done.
  - by subst.
  - split; [by eapply glu_shape|]. intros Hwf. by eapply glu_keeps_elements_aux.
Qed.

End StateDictBounds.

(** X3: a returned state dict means that every layer index below
    [num_layers] has a block type: the list of block types is at least
    [num_layers] long (a shorter list ends the export with an exception). *)
Theorem exported_layers_have_types {A AttentionHeadType : Type}
    (get_attention_head_type : pyval → pyval → result AttentionHeadType)
    (split_query_key_value_tensor_for_attention :
       Tensor A → pyval → pyval → pyval → AttentionHeadType → result (Tensor A * Tensor A * Tensor A))
    (wm : SafeTensorsWeightsManager A) (num_layers : Z) (seq_mixer_block_types : list pyval)
    (num_heads num_key_value_heads head_dim : pyval) (state_dict : gmap string (Tensor A)) :
  _export_state_dict_to_huggingface
    get_attention_head_type split_query_key_value_tensor_for_attention
    wm num_layers seq_mixer_block_types num_heads num_key_value_heads head_dim = Ok state_dict →
  Z.to_nat num_layers ≤ length seq_mixer_block_types.
Proof.
  intros exported.
  destruct (export_state_dict_spec _ _ _ _ _ _ _ _ _ exported) as (? & _ & _ & _ & Htys).
  destruct (decide (Z.to_nat num_layers ≤ length seq_mixer_block_types)) as [|Hlt]; [done|].
  destruct (Htys (length seq_mixer_block_types)) as [bt Hbt]; [lia|].
  apply lookup_lt_Some in Hbt. lia.
Qed.

(** X5: with [num_layers <= 0] the loop is not entered: the exported state
    dict holds the embedding, the final norm and, when the checkpoint has it,
    [lm_head.weight], and no other name. *)
Theorem only_global_entries_without_layers {A AttentionHeadType : Type}
    (get_attention_head_type : pyval → pyval → result AttentionHeadType)
    (split_query_key_value_tensor_for_attention :
       Tensor A → pyval → pyval → pyval → AttentionHeadType → result (Tensor A * Tensor A * Tensor A))
    (wm : SafeTensorsWeightsManager A) (num_layers : Z) (seq_mixer_block_types : list pyval)
    (num_heads num_key_value_heads head_dim : pyval) (state_dict : gmap string (Tensor A))
    (k : string) :
  _export_state_dict_to_huggingface
    get_attention_head_type split_query_key_value_tensor_for_attention
    wm num_layers seq_mixer_block_types num_heads num_key_value_heads head_dim = Ok state_dict →
  (num_layers ≤ 0)%Z → is_Some (state_dict !! k) →
  k = "model.embed_tokens.weight" ∨ k = "model.norm.weight"
  ∨ (k = "lm_head.weight" ∧ has_tensor wm "lm_head.weight" = true).
Proof.
  intros exported Hn [t Ht].
  destruct (exported_entry_enabled _ _ _ _ _ _ _ _ _ exported _ _ Ht) as (aht & m & Hen & <- & _).
  destruct Hen as [Hm|[[Hlm Hm]|(j & bt & r' & Hj & _)]]; [| |lia].
  - cbn in Hm. rewrite !elem_of_cons, elem_of_nil in Hm. destruct Hm as [->|[->|[]]]; auto.
  - cbn in Hm. rewrite !elem_of_cons, elem_of_nil in Hm. destruct Hm as [->|[]]; auto.
Qed.

(** ** When the export of the state dict returns *)

Section StateDictReturns.
Context {A AttentionHeadType : Type}.
Variable get_attention_head_type : pyval → pyval → result AttentionHeadType.
Variable split_query_key_value_tensor_for_attention :
  Tensor A → pyval → pyval → pyval → AttentionHeadType → result (Tensor A * Tensor A * Tensor A).
Variable wm : SafeTensorsWeightsManager A.
Variable seq_mixer_block_types : list pyval.
Variables num_heads num_key_value_heads head_dim : pyval.

Ltac run_row Hall row mem :=
  let t := fresh "t" in
  let w := fresh "w" in
  let Hw := fresh "Hw" in
  let Htr := fresh "Htr" in
  destruct (Hall row) as (t & w & Hw & Htr); [mem; in_table|];
  cbn [layer_mapping source_name how transforms fst snd] in Hw, Htr;
  rewrite Hw; cbn [mbind result_bind];
  try (destruct Htr as (? & ? & Htr));
  try (rewrite Htr; cbn [mbind result_bind]).

(** One iteration returns when each row it runs has its source tensor and
    its transformation returns. *)
Lemma export_layer_complete attention_head_type i block_type sd :
  seq_mixer_block_types !! i = Some block_type →
  (∀ r, r ∈ rows_for block_type
              (has_tensor wm (fstr "transformer.h." i ".mlp_block.c_fc_shared.weight")) →
        ∃ t, produces split_query_key_value_tensor_for_attention wm
                      num_heads num_key_value_heads head_dim attention_head_type
                      (layer_mapping i r) t) →
  is_ok (export_layer split_query_key_value_tensor_for_attention wm seq_mixer_block_types
                      num_heads num_key_value_heads head_dim attention_head_type i sd) = true.
Proof.
  intros Hty Hall. unfold export_layer, list_index.
  run_row Hall (".ln_1.weight", ".input_layernorm.weight", Rename) ltac:(apply base_rows_in).
  run_row Hall (".ln_2.weight", ".post_attention_layernorm.weight", Rename) ltac:(apply base_rows_in).
  run_row Hall (".mlp_block.gate.weight", ".block_sparse_moe.router.layer.weight", Rename)
          ltac:(apply base_rows_in).
  run_row Hall (".mlp_block.c_fc.weight", ".block_sparse_moe.input_linear.weight", GluSwap 1)
          ltac:(apply base_rows_in).
  run_row Hall (".mlp_block.c_proj.weight", ".block_sparse_moe.output_linear.weight", Rename)
          ltac:(apply base_rows_in).
  rewrite Hty. cbn [mbind result_bind].
  assert (∀ sd', is_ok (export_shared wm i sd') = true) as Hshared.
  { intros sd'. unfold export_shared. destruct (has_tensor wm _) eqn:Hs; [|done].
    run_row Hall (".mlp_block.c_fc_shared.weight", ".shared_mlp.input_linear.weight", GluSwap 0)
            ltac:(apply shared_rows_in).
    run_row Hall (".mlp_block.c_proj_shared.weight", ".shared_mlp.output_linear.weight", Rename)
            ltac:(apply shared_rows_in).
    done. }
  destruct (py_eq_str block_type "mamba") eqn:Hm;
    [|destruct (py_eq_str block_type "attention") eqn:Ha].
  - apply py_eq_str_true in Hm. subst block_type. unfold export_mamba.
    run_row Hall (".sequence_mixer.conv1d.weight", ".mamba.conv1d.weight", Rename)
            ltac:(apply mamba_rows_in).
    run_row Hall (".sequence_mixer.conv1d.bias", ".mamba.conv1d.bias", Rename)
            ltac:(apply mamba_rows_in).
    run_row Hall (".sequence_mixer.in_proj.weight", ".mamba.in_proj.weight", Rename)
            ltac:(apply mamba_rows_in).
    run_row Hall (".sequence_mixer.dt_bias", ".mamba.dt_bias", Rename) ltac:(apply mamba_rows_in).
    run_row Hall (".sequence_mixer.A_log", ".mamba.A_log", Rename) ltac:(apply mamba_rows_in).
    run_row Hall (".sequence_mixer.D", ".mamba.D", Rename) ltac:(apply mamba_rows_in).
    run_row Hall (".sequence_mixer.out_proj.weight", ".mamba.out_proj.weight", Rename)
            ltac:(apply mamba_rows_in).
    run_row Hall (".sequence_mixer.norm.weight", ".mamba.norm.weight", Rename)
            ltac:(apply mamba_rows_in).
    apply Hshared.
  - apply py_eq_str_true in Ha. subst block_type. unfold export_attention.
    run_row Hall (".sequence_mixer.c_attn.weight", ".self_attn.q_proj.weight", SplitQuery)
            ltac:(apply attention_rows_in).
    run_row Hall (".sequence_mixer.c_proj.weight", ".self_attn.o_proj.weight", Rename)
            ltac:(apply attention_rows_in).
    apply Hshared.
  - cbn [mbind result_bind]. apply Hshared.
Qed.

Lemma for_each_complete {S} (body : nat → S → result S) (l : list nat) (s : S) :
  (∀ i s', i ∈ l → is_ok (body i s') = true) → is_ok (for_each l body s) = true.
Proof.
  revert s. induction l as [|i l IH]; intros s Hbody; cbn [for_each]; [done|].
  pose proof (Hbody i s (list_elem_of_here _ _)) as Hi.
  destruct (body i s); [|done]. cbn [mbind result_bind].
  apply IH. intros j s' Hj. apply Hbody. by right.
Qed.

(** X10: the export of the state dict returns exactly when the embedding
    and the final norm can be read, [lm_head.weight] can be read if the
    checkpoint has it, the attention head type is determined, and every
    layer index below [num_layers] has a block type all of whose rows find
    their source tensor and have their transformation return.  Any missing
    tensor, short list of block types or failing split or swap ends the
    export with an exception. *)
Theorem export_state_dict_returns_iff (num_layers : Z) :
  is_ok (_export_state_dict_to_huggingface
           get_attention_head_type split_query_key_value_tensor_for_attention
           wm num_layers seq_mixer_block_types num_heads num_key_value_heads head_dim) = true
  ↔ is_ok (get_tensor wm "transformer.wte.weight") = true
    ∧ is_ok (get_tensor wm "transformer.ln_f.weight") = true
    ∧ (has_tensor wm "lm_head.weight" = true → is_ok (get_tensor wm "lm_head.weight") = true)
    ∧ ∃ attention_head_type,
        get_attention_head_type num_heads num_key_value_heads = Ok attention_head_type
        ∧ ∀ i : nat, (Z.of_nat i < num_layers)%Z →
            ∃ block_type,
              seq_mixer_block_types !! i = Some block_type
              ∧ ∀ r, r ∈ rows_for block_type
                           (has_tensor wm (fstr "transformer.h." i ".mlp_block.c_fc_shared.weight")) →
                     ∃ t, produces split_query_key_value_tensor_for_attention wm
                                   num_heads num_key_value_heads head_dim attention_head_type
                                   (layer_mapping i r) t.
Proof.
  split.
  - destruct (_export_state_dict_to_huggingface _ _ _ _ _ _ _ _) as [sd|] eqn:Hexp; [|done].
    intros _.
    destruct (export_state_dict_spec _ _ _ _ _ _ _ _ _ Hexp) as (aht & Haht & Hen & _ & Htys).
    split_and!.
    + destruct (Hen (mkMapping "transformer.wte.weight" "model.embed_tokens.weight" Rename))
        as (t & _ & w & Hw & _); [left; in_table|]. cbn in Hw. by rewrite Hw.
    + destruct (Hen (mkMapping "transformer.ln_f.weight" "model.norm.weight" Rename))
        as (t & _ & w & Hw & _); [left; in_table|]. cbn in Hw. by rewrite Hw.
    + intros Hlm.
      destruct (Hen (mkMapping "lm_head.weight" "lm_head.weight" Rename))
        as (t & _ & w & Hw & _); [right; left; split; [done|in_table]|]. cbn in Hw. by rewrite Hw.
    + exists aht. split; [done|]. intros i Hi. destruct (Htys i Hi) as [bt Hbt].
      exists bt. split; [done|]. intros r Hr.
      destruct (Hen (layer_mapping i r)) as (t & _ & Hprod); [|by exists t].
      right; right. by exists i, bt, r.
  - intros (Hwte & Hln_f & Hlm & aht & Haht & Hlayers).
    unfold _export_state_dict_to_huggingface.
    destruct (get_tensor wm "transformer.wte.weight"); [|done].
    destruct (get_tensor wm "transformer.ln_f.weight"); [|done].
    cbn [mbind result_bind]. rewrite Haht. cbn [mbind result_bind].
    assert (∀ sd, is_ok (for_each (range num_layers)
                           (export_layer split_query_key_value_tensor_for_attention wm
                              seq_mixer_block_types num_heads num_key_value_heads head_dim aht) sd)
                  = true) as Hloop.
    { intros sd. apply for_each_complete. intros i sd' [_ Hi]%elem_of_seq.
      destruct (Hlayers i) as (bt & Hbt & Hrows); [lia|].
      by apply (export_layer_complete aht i bt). }
    destruct (has_tensor wm "lm_head.weight").
    + specialize (Hlm eq_refl). destruct (get_tensor wm "lm_head.weight"); [|done].
      cbn [mbind result_bind]. apply Hloop.
    + cbn [mbind result_bind]. apply Hloop.
Qed.

End StateDictReturns.

(** ** More on the exported configuration *)

(** X11: the block types that [_get_sequence_mixer_block_types] returns never
    contain the source names "mamba2" and "softmax_attention": both are
    always replaced, so the state-dict export, which compares with "mamba"
    and "attention", never meets them. *)
Theorem block_types_hold_no_source_name (config : GPTDolomiteConfig.t) (types : list pyval) :
  _get_sequence_mixer_block_types config = Ok types →
  (PyStr "mamba2" ∉ types) ∧ (PyStr "softmax_attention" ∉ types).
Proof.
  rewrite get_sequence_mixer_block_types_spec. intros [= <-].
  assert (∀ v, rename_block_type v ≠ PyStr "mamba2"
               ∧ rename_block_type v ≠ PyStr "softmax_attention") as Hrename.
  { intros v. unfold rename_block_type.
    destruct (py_eq_str v "mamba2") eqn:Hm; [done|].
    destruct (py_eq_str v "softmax_attention") eqn:Ha; [done|].
    by apply py_eq_str_false in Hm, Ha. }
  split; intros (b & Hb & _)%list_elem_of_fmap; symmetry in Hb; by apply Hrename in Hb.
Qed.

Section ConfigMore.
Variable check_equal_for_all_and_get_value :
  GPTDolomiteConfig.t → string → string → option pyval → result pyval.
Variable check_equal_for_all_seq_mixer_and_get_value :
  GPTDolomiteConfig.t → string → string → string → result pyval.
Variable validate : GraniteMoeHybridConfig.t → result unit.

(** X12: the export of the configuration returns only when the
    normalization is "rmsnorm" and each of the eight checks over all blocks
    and the twelve checks over the blocks of one sequence-mixer type
    returns; when they all hold, every keyword argument is computed and the
    export ends as the constructor of the target class ends on them: with
    the object built, or with what the constructor raises. *)
Theorem export_config_return_conditions (config : GPTDolomiteConfig.t) :
  let checks :=
    GPTDolomiteConfig.normalization_function config = PyStr "rmsnorm"
    ∧ Forall (λ c : string * string * option pyval,
                is_ok (check_equal_for_all_and_get_value config c.1.1 c.1.2 c.2) = true)
             [ ("sequence_mixer_blocks", "add_bias", Some (PyBool false));
               ("mlp_blocks", "add_bias", Some (PyBool false));
               ("mlp_blocks", "activation_function", Some (PyStr "swiglu"));
               ("mlp_blocks", "mlp_type", Some (PyStr "MoE"));
               ("mlp_blocks", "shared_intermediate_size", None);
               ("mlp_blocks", "intermediate_size", None);
               ("mlp_blocks", "num_experts", None);
               ("mlp_blocks", "num_experts_per_tok", None) ]
    ∧ Forall (λ c : string * string,
                is_ok (check_equal_for_all_seq_mixer_and_get_value
                         config "sequence_mixer_blocks" c.1 c.2) = true)
             [ ("softmax_attention", "num_attention_heads");
               ("softmax_attention", "num_key_value_heads");
               ("softmax_attention", "add_bias");
               ("softmax_attention", "dropout");
               ("softmax_attention", "attention_multiplier");
               ("mamba2", "num_groups");
               ("mamba2", "num_heads");
               ("mamba2", "state_size");
               ("mamba2", "conv_kernel_size");
               ("mamba2", "chunk_size");
               ("mamba2", "use_conv_bias");
               ("mamba2", "add_bias") ] in
  (is_ok (_export_config_to_huggingface check_equal_for_all_and_get_value
            check_equal_for_all_seq_mixer_and_get_value validate config) = true → checks)
  ∧ (checks →
     ∃ kwargs,
       _export_config_to_huggingface check_equal_for_all_and_get_value
         check_equal_for_all_seq_mixer_and_get_value validate config
       = GraniteMoeHybridConfig_init validate kwargs
       ∧ _get_sequence_mixer_block_types config = Ok (GraniteMoeHybridConfig.layer_types kwargs)).
Proof.
  cbv zeta. unfold _export_config_to_huggingface. split.
  - destruct (py_eq_str _ "rmsnorm") eqn:Hnorm; [|done]. apply py_eq_str_true in Hnorm.
    cbn [negb]. intros H.
    repeat match type of H with
           | is_ok (mbind _ ?m) = true =>
             let E := fresh "E" in
             destruct m eqn:E; cbn [mbind result_bind] in H; [|discriminate H]
           end.
    split; [done|].
    split; repeat (apply List.Forall_cons; [cbn [fst snd]|]); try apply List.Forall_nil;
      match goal with E : ?m = Ok _ |- is_ok ?m = true => by rewrite E end.
  - intros (Hnorm%py_eq_str_true & Hall & Hseq). rewrite Hnorm. cbn [negb].
    rewrite !Forall_cons in Hall. rewrite !Forall_cons in Hseq.
    cbn [fst snd] in Hall, Hseq. destruct_and!.
    repeat match goal with
           | H : is_ok ?m = true |- context [mbind _ ?m] =>
             revert H; destruct m; intros H; [clear H; cbn [mbind result_bind]|discriminate H]
           end.
    rewrite get_sequence_mixer_block_types_spec. cbn [mbind result_bind].
    eexists. split; reflexivity.
Qed.

(** X13: each field of a returned target configuration that is derived
    from the blocks holds what the corresponding check returned, but for
    [num_key_value_heads], which holds [num_attention_heads] when its check
    returned [None]: the
    attention fields are read from the "softmax_attention" blocks, the mamba
    fields from the "mamba2" blocks ([mamba_d_state] from [state_size],
    [mamba_d_conv] from [conv_kernel_size], [mamba_proj_bias] from
    [add_bias], ...), the MoE sizes from the MLP blocks. *)
Theorem export_config_block_fields (config : GPTDolomiteConfig.t)
    (original_config : GraniteMoeHybridConfig.t) :
  _export_config_to_huggingface check_equal_for_all_and_get_value
    check_equal_for_all_seq_mixer_and_get_value validate config = Ok original_config →
  let attn key_block := check_equal_for_all_seq_mixer_and_get_value
                          config "sequence_mixer_blocks" "softmax_attention" key_block in
  let mamba key_block := check_equal_for_all_seq_mixer_and_get_value
                           config "sequence_mixer_blocks" "mamba2" key_block in
  let mlp key_block := check_equal_for_all_and_get_value config "mlp_blocks" key_block None in
  attn "num_attention_heads" = Ok (GraniteMoeHybridConfig.num_attention_heads original_config)
  ∧ (∃ num_key_value_heads,
       attn "num_key_value_heads" = Ok num_key_value_heads
       ∧ GraniteMoeHybridConfig.num_key_value_heads original_config
         = if_none (GraniteMoeHybridConfig.num_attention_heads original_config)
                   num_key_value_heads)
  ∧ attn "add_bias" = Ok (GraniteMoeHybridConfig.attention_bias original_config)
  ∧ attn "dropout" = Ok (GraniteMoeHybridConfig.attention_dropout original_config)
  ∧ attn "attention_multiplier" = Ok (GraniteMoeHybridConfig.attention_multiplier original_config)
  ∧ mamba "num_groups" = Ok (GraniteMoeHybridConfig.mamba_n_groups original_config)
  ∧ mamba "num_heads" = Ok (GraniteMoeHybridConfig.mamba_n_heads original_config)
  ∧ mamba "state_size" = Ok (GraniteMoeHybridConfig.mamba_d_state original_config)
  ∧ mamba "conv_kernel_size" = Ok (GraniteMoeHybridConfig.mamba_d_conv original_config)
  ∧ mamba "chunk_size" = Ok (GraniteMoeHybridConfig.mamba_chunk_size original_config)
  ∧ mamba "use_conv_bias" = Ok (GraniteMoeHybridConfig.mamba_conv_bias original_config)
  ∧ mamba "add_bias" = Ok (GraniteMoeHybridConfig.mamba_proj_bias original_config)
  ∧ mlp "intermediate_size" = Ok (GraniteMoeHybridConfig.intermediate_size original_config)
  ∧ mlp "num_experts" = Ok (GraniteMoeHybridConfig.num_local_experts original_config)
  ∧ mlp "num_experts_per_tok" = Ok (GraniteMoeHybridConfig.num_experts_per_tok original_config).
Proof.
  unfold _export_config_to_huggingface. intros H.
  destruct (py_eq_str _ "rmsnorm"); [|discriminate H]. cbn [negb] in H.
  repeat bind_inv H. unfold GraniteMoeHybridConfig_init in H.
  bind_inv H. injection H as <-. cbn. split_and!; try done. by eexists.
Qed.

(** The list of block types of a returned target configuration. *)
Lemma export_config_layer_types_eq (config : GPTDolomiteConfig.t)
    (original_config : GraniteMoeHybridConfig.t) :
  _export_config_to_huggingface check_equal_for_all_and_get_value
    check_equal_for_all_seq_mixer_and_get_value validate config = Ok original_config →
  _get_sequence_mixer_block_types config = Ok (GraniteMoeHybridConfig.layer_types original_config).
Proof.
  unfold _export_config_to_huggingface. intros H.
  destruct (py_eq_str _ "rmsnorm"); [|discriminate H]. cbn [negb] in H.
  repeat bind_inv H. unfold GraniteMoeHybridConfig_init in H.
  bind_inv H. by injection H as <-.
Qed.

(** The head counts of a returned target configuration: the number of
    key-value heads is the one the check returned, or the number of attention
    heads when the check returned [None]. *)
Lemma export_config_head_counts (config : GPTDolomiteConfig.t)
    (original_config : GraniteMoeHybridConfig.t) :
  _export_config_to_huggingface check_equal_for_all_and_get_value
    check_equal_for_all_seq_mixer_and_get_value validate config = Ok original_config →
  ∃ num_key_value_heads,
    check_equal_for_all_seq_mixer_and_get_value
      config "sequence_mixer_blocks" "softmax_attention" "num_attention_heads"
    = Ok (GraniteMoeHybridConfig.num_attention_heads original_config)
    ∧ check_equal_for_all_seq_mixer_and_get_value
        config "sequence_mixer_blocks" "softmax_attention" "num_key_value_heads"
      = Ok num_key_value_heads
    ∧ GraniteMoeHybridConfig.num_key_value_heads original_config
      = if_none (GraniteMoeHybridConfig.num_attention_heads original_config) num_key_value_heads.
Proof.
  unfold _export_config_to_huggingface. intros H.
  destruct (py_eq_str _ "rmsnorm"); [|discriminate H]. cbn [negb] in H.
  repeat bind_inv H. unfold GraniteMoeHybridConfig_init in H.
  bind_inv H. injection H as <-. cbn. by eexists.
Qed.

(** X14: the [layer_types] of a returned target configuration has one entry
    per sequence-mixer block, in order, the renamed type of that block; the
    activation is always "silu" and the architecture is always
    [GraniteMoeHybridForCausalLM], whatever the source says. *)
Theorem export_config_layer_types (config : GPTDolomiteConfig.t)
    (original_config : GraniteMoeHybridConfig.t) :
  _export_config_to_huggingface check_equal_for_all_and_get_value
    check_equal_for_all_seq_mixer_and_get_value validate config = Ok original_config →
  length (GraniteMoeHybridConfig.layer_types original_config)
  = length (GPTDolomiteConfig.sequence_mixer_blocks config)
  ∧ (∀ i b, GPTDolomiteConfig.sequence_mixer_blocks config !! i = Some b →
            ∃ v, _get b "sequence_mixer_type" = Ok v
                 ∧ GraniteMoeHybridConfig.layer_types original_config !! i
                   = Some (rename_block_type v))
  ∧ GraniteMoeHybridConfig.hidden_act original_config = PyStr "silu"
  ∧ GraniteMoeHybridConfig.architectures original_config = ["GraniteMoeHybridForCausalLM"].
Proof.
  intros H. pose proof (export_config_layer_types_eq _ _ H) as Htypes.
  rewrite get_sequence_mixer_block_types_spec in Htypes. injection Htypes as Htypes.
  split_and!.
  - by rewrite <- Htypes, length_map.
  - intros i b Hb. exists (block_type_of b). split; [apply get_sequence_mixer_type|].
    by rewrite <- Htypes, list_lookup_fmap, Hb.
  - revert H. unfold _export_config_to_huggingface.
    destruct (py_eq_str _ "rmsnorm"); [|done]. cbn [negb]. intros H.
    repeat bind_inv H. unfold GraniteMoeHybridConfig_init in H.
  bind_inv H. by injection H as <-.
  - revert H. unfold _export_config_to_huggingface.
    destruct (py_eq_str _ "rmsnorm"); [|done]. cbn [negb]. intros H.
    repeat bind_inv H. unfold GraniteMoeHybridConfig_init in H.
  bind_inv H. by injection H as <-.
Qed.

End ConfigMore.

(** X18: a block given as a plain dict without the key
    "sequence_mixer_type" does not stop [_get_sequence_mixer_block_types]:
    [dict.get] yields [None], which is kept as the type of that block. *)
Theorem block_type_of_dict_without_key (config : GPTDolomiteConfig.t) (i : nat)
    (d : gmap string pyval) :
  GPTDolomiteConfig.sequence_mixer_blocks config !! i = Some (BlockDict d) →
  d !! "sequence_mixer_type" = None →
  ∃ types, _get_sequence_mixer_block_types config = Ok types ∧ types !! i = Some PyNone.
Proof.
  intros Hb Hd. eexists. split; [apply get_sequence_mixer_block_types_spec|].
  rewrite list_lookup_fmap, Hb. cbn [fmap option_fmap option_map block_type_of]. by rewrite Hd.
Qed.

(** ** The entry point *)

Section EntryPoint.
Context {A AttentionHeadType : Type}.
Variable get_attention_head_type : pyval → pyval → result AttentionHeadType.
Variable split_query_key_value_tensor_for_attention :
  Tensor A → pyval → pyval → pyval → AttentionHeadType → result (Tensor A * Tensor A * Tensor A).
Variable check_equal_for_all_and_get_value :
  GPTDolomiteConfig.t → string → string → option pyval → result pyval.
Variable check_equal_for_all_seq_mixer_and_get_value :
  GPTDolomiteConfig.t → string → string → string → result pyval.
Variable validate : GraniteMoeHybridConfig.t → result unit.
Variable py_floordiv : pyval → pyval → result pyval.
Variable config : GPTDolomiteConfig.t.
Variable wm : SafeTensorsWeightsManager A.

(** What a returning run of the entry point has computed on the way. *)
Lemma entry_point_inv original_config state_dict :
  export_to_huggingface_granitemoehybrid
    get_attention_head_type split_query_key_value_tensor_for_attention
    check_equal_for_all_and_get_value check_equal_for_all_seq_mixer_and_get_value py_floordiv
    validate
    config wm = Ok (original_config, state_dict) →
  _export_config_to_huggingface check_equal_for_all_and_get_value
    check_equal_for_all_seq_mixer_and_get_value validate config = Ok original_config
  ∧ ∃ head_dim,
      py_floordiv (GraniteMoeHybridConfig.hidden_size original_config)
                  (GraniteMoeHybridConfig.num_attention_heads original_config) = Ok head_dim
      ∧ _export_state_dict_to_huggingface
          get_attention_head_type split_query_key_value_tensor_for_attention wm
          (GPTDolomiteConfig.num_layers config)
          (GraniteMoeHybridConfig.layer_types original_config)
          (GraniteMoeHybridConfig.num_attention_heads original_config)
          (GraniteMoeHybridConfig.num_key_value_heads original_config)
          head_dim = Ok state_dict.
Proof.
  unfold export_to_huggingface_granitemoehybrid. intros H.
  bind_inv H. rename a into oc, E into Hoc.
  pose proof (export_config_layer_types_eq _ _ _ _ _ Hoc) as Htypes.
  rewrite Htypes in H. cbn [mbind result_bind] in H.
  do 2 bind_inv H. injection H as <- <-. split; [done|]. by eexists.
Qed.

(** X15: the configuration and the state dict that the entry point returns
    agree layer by layer: for every layer index below [num_layers] the
    configuration has a layer type, the four self_attn tensors are in the
    state dict exactly when that type is "attention", and the eight mamba
    tensors exactly when it is "mamba". *)
Theorem entry_point_layer_types_match_tensors original_config state_dict (i : nat) :
  export_to_huggingface_granitemoehybrid
    get_attention_head_type split_query_key_value_tensor_for_attention
    check_equal_for_all_and_get_value check_equal_for_all_seq_mixer_and_get_value py_floordiv
    validate
    config wm = Ok (original_config, state_dict) →
  (Z.of_nat i < GPTDolomiteConfig.num_layers config)%Z →
  ∃ block_type,
    GraniteMoeHybridConfig.layer_types original_config !! i = Some block_type
      ∧ (is_Some (state_dict !! fstr "model.layers." i ".self_attn.q_proj.weight") ↔ block_type = PyStr "attention")
      ∧ (is_Some (state_dict !! fstr "model.layers." i ".self_attn.k_proj.weight") ↔ block_type = PyStr "attention")
      ∧ (is_Some (state_dict !! fstr "model.layers." i ".self_attn.v_proj.weight") ↔ block_type = PyStr "attention")
      ∧ (is_Some (state_dict !! fstr "model.layers." i ".self_attn.o_proj.weight") ↔ block_type = PyStr "attention")
      ∧ (is_Some (state_dict !! fstr "model.layers." i ".mamba.conv1d.weight") ↔ block_type = PyStr "mamba")
      ∧ (is_Some (state_dict !! fstr "model.layers." i ".mamba.conv1d.bias") ↔ block_type = PyStr "mamba")
      ∧ (is_Some (state_dict !! fstr "model.layers." i ".mamba.in_proj.weight") ↔ block_type = PyStr "mamba")
      ∧ (is_Some (state_dict !! fstr "model.layers." i ".mamba.dt_bias") ↔ block_type = PyStr "mamba")
      ∧ (is_Some (state_dict !! fstr "model.layers." i ".mamba.A_log") ↔ block_type = PyStr "mamba")
      ∧ (is_Some (state_dict !! fstr "model.layers." i ".mamba.D") ↔ block_type = PyStr "mamba")
      ∧ (is_Some (state_dict !! fstr "model.layers." i ".mamba.out_proj.weight") ↔ block_type = PyStr "mamba")
      ∧ (is_Some (state_dict !! fstr "model.layers." i ".mamba.norm.weight") ↔ block_type = PyStr "mamba").
Proof.
  intros (Hoc & head_dim & _ & Hsd)%entry_point_inv Hi.
  destruct (export_state_dict_spec _ _ _ _ _ _ _ _ _ Hsd) as (? & _ & _ & _ & Htys).
  destruct (Htys i Hi) as [block_type Hty]. exists block_type. split; [done|].
  assert (∀ r s,
            (block_type = PyStr s →
             r ∈ rows_for block_type
                   (has_tensor wm (fstr "transformer.h." i ".mlp_block.c_fc_shared.weight"))) →
            (block_type ≠ PyStr s → state_dict !! fstr "model.layers." i r.1.2 = None) →
            is_Some (state_dict !! fstr "model.layers." i r.1.2) ↔ block_type = PyStr s) as Hiff.
  { intros r s Hin Hout. destruct (py_eq_str block_type s) eqn:Heq.
    - apply py_eq_str_true in Heq. split; [done|]. intros _.
      by apply (layer_name_exported _ _ _ _ _ _ _ _ _ Hsd i block_type r Hi Hty), Hin.
    - apply py_eq_str_false in Heq. split; [|done]. intros [t Ht]. by rewrite Hout in Ht. }
  split_and!.
  - apply (Hiff (".sequence_mixer.c_attn.weight", ".self_attn.q_proj.weight", SplitQuery) "attention").
    + intros ->. apply attention_rows_in. in_table.
    + intros Hne. by apply (attention_row_absent _ _ _ _ _ _ _ _ _ Hsd i block_type); [..|in_table].
  - apply (Hiff (".sequence_mixer.c_attn.weight", ".self_attn.k_proj.weight", SplitKey) "attention").
    + intros ->. apply attention_rows_in. in_table.
    + intros Hne. by apply (attention_row_absent _ _ _ _ _ _ _ _ _ Hsd i block_type); [..|in_table].
  - apply (Hiff (".sequence_mixer.c_attn.weight", ".self_attn.v_proj.weight", SplitValue) "attention").
    + intros ->. apply attention_rows_in. in_table.
    + intros Hne. by apply (attention_row_absent _ _ _ _ _ _ _ _ _ Hsd i block_type); [..|in_table].
  - apply (Hiff (".sequence_mixer.c_proj.weight", ".self_attn.o_proj.weight", Rename) "attention").
    + intros ->. apply attention_rows_in. in_table.
    + intros Hne. by apply (attention_row_absent _ _ _ _ _ _ _ _ _ Hsd i block_type); [..|in_table].
  - apply (Hiff (".sequence_mixer.conv1d.weight", ".mamba.conv1d.weight", Rename) "mamba").
    + intros ->. apply mamba_rows_in. in_table.
    + intros Hne. by apply (mamba_row_absent _ _ _ _ _ _ _ _ _ Hsd i block_type); [..|in_table].
  - apply (Hiff (".sequence_mixer.conv1d.bias", ".mamba.conv1d.bias", Rename) "mamba").
    + intros ->. apply mamba_rows_in. in_table.
    + intros Hne. by apply (mamba_row_absent _ _ _ _ _ _ _ _ _ Hsd i block_type); [..|in_table].
  - apply (Hiff (".sequence_mixer.in_proj.weight", ".mamba.in_proj.weight", Rename) "mamba").
    + intros ->. apply mamba_rows_in. in_table.
    + intros Hne. by apply (mamba_row_absent _ _ _ _ _ _ _ _ _ Hsd i block_type); [..|in_table].
  - apply (Hiff (".sequence_mixer.dt_bias", ".mamba.dt_bias", Rename) "mamba").
    + intros ->. apply mamba_rows_in. in_table.
    + intros Hne. by apply (mamba_row_absent _ _ _ _ _ _ _ _ _ Hsd i block_type); [..|in_table].
  - apply (Hiff (".sequence_mixer.A_log", ".mamba.A_log", Rename) "mamba").
    + intros ->. apply mamba_rows_in. in_table.
    + intros Hne. by apply (mamba_row_absent _ _ _ _ _ _ _ _ _ Hsd i block_type); [..|in_table].
  - apply (Hiff (".sequence_mixer.D", ".mamba.D", Rename) "mamba").
    + intros ->. apply mamba_rows_in. in_table.
    + intros Hne. by apply (mamba_row_absent _ _ _ _ _ _ _ _ _ Hsd i block_type); [..|in_table].
  - apply (Hiff (".sequence_mixer.out_proj.weight", ".mamba.out_proj.weight", Rename) "mamba").
    + intros ->. apply mamba_rows_in. in_table.
    + intros Hne. by apply (mamba_row_absent _ _ _ _ _ _ _ _ _ Hsd i block_type); [..|in_table].
  - apply (Hiff (".sequence_mixer.norm.weight", ".mamba.norm.weight", Rename) "mamba").
    + intros ->. apply mamba_rows_in. in_table.
    + intros Hne. by apply (mamba_row_absent _ _ _ _ _ _ _ _ _ Hsd i block_type); [..|in_table].
Qed.

(** X16: in a run of the entry point the fused QKV tensor of every attention
    layer is split with the head counts of the exported configuration and
    with [head_dim = hidden_size // num_attention_heads], the hidden size
    being the one of the source configuration, and the three pieces are what
    the state dict holds as [q_proj], [k_proj] and [v_proj].  The head counts
    are those of the constructed configuration object: the number of
    attention heads that the check over the "softmax_attention" blocks
    returned, and the number of key-value heads that its check returned, or
    the number of attention heads when that check returned [None]. *)
Theorem entry_point_splits_with_config_heads original_config state_dict (i : nat) :
  export_to_huggingface_granitemoehybrid
    get_attention_head_type split_query_key_value_tensor_for_attention
    check_equal_for_all_and_get_value check_equal_for_all_seq_mixer_and_get_value py_floordiv
    validate
    config wm = Ok (original_config, state_dict) →
  (Z.of_nat i < GPTDolomiteConfig.num_layers config)%Z →
  GraniteMoeHybridConfig.layer_types original_config !! i = Some (PyStr "attention") →
  ∃ aht head_dim c_attn q k v,
    get_attention_head_type (GraniteMoeHybridConfig.num_attention_heads original_config)
                            (GraniteMoeHybridConfig.num_key_value_heads original_config) = Ok aht
    ∧ py_floordiv (GPTDolomiteConfig.hidden_size config)
                  (GraniteMoeHybridConfig.num_attention_heads original_config) = Ok head_dim
    ∧ get_tensor wm (fstr "transformer.h." i ".sequence_mixer.c_attn.weight") = Ok c_attn
    ∧ split_query_key_value_tensor_for_attention c_attn
        (GraniteMoeHybridConfig.num_attention_heads original_config)
        (GraniteMoeHybridConfig.num_key_value_heads original_config) head_dim aht = Ok (q, k, v)
    ∧ state_dict !! fstr "model.layers." i ".self_attn.q_proj.weight" = Some q
    ∧ state_dict !! fstr "model.layers." i ".self_attn.k_proj.weight" = Some k
    ∧ state_dict !! fstr "model.layers." i ".self_attn.v_proj.weight" = Some v
    ∧ ∃ num_key_value_heads,
        check_equal_for_all_seq_mixer_and_get_value
          config "sequence_mixer_blocks" "softmax_attention" "num_attention_heads"
        = Ok (GraniteMoeHybridConfig.num_attention_heads original_config)
        ∧ check_equal_for_all_seq_mixer_and_get_value
            config "sequence_mixer_blocks" "softmax_attention" "num_key_value_heads"
          = Ok num_key_value_heads
        ∧ GraniteMoeHybridConfig.num_key_value_heads original_config
          = if_none (GraniteMoeHybridConfig.num_attention_heads original_config)
                    num_key_value_heads.
Proof.
  intros (Hoc & head_dim & Hdiv & Hsd)%entry_point_inv Hi Hty.
  pose proof (export_config_head_counts _ _ _ _ _ Hoc) as Hheads.
  pose proof (export_config_fields _ _ _ _ _ Hoc) as (_ & _ & _ & Hhidden & _).
  rewrite Hhidden in Hdiv.
  destruct (layer_row_exported _ _ _ _ _ _ _ _ _ Hsd i _
              (".sequence_mixer.c_attn.weight", ".self_attn.q_proj.weight", SplitQuery) Hi Hty)
    as (aht & w & q & Haht & Hw & (k & v & Hsplit) & Hq); [apply attention_rows_in; in_table|].
  destruct (layer_row_exported _ _ _ _ _ _ _ _ _ Hsd i _
              (".sequence_mixer.c_attn.weight", ".self_attn.k_proj.weight", SplitKey) Hi Hty)
    as (? & ? & k' & ? & ? & (? & ? & Hsplit_k) & Hk); [apply attention_rows_in; in_table|].
  destruct (layer_row_exported _ _ _ _ _ _ _ _ _ Hsd i _
              (".sequence_mixer.c_attn.weight", ".self_attn.v_proj.weight", SplitValue) Hi Hty)
    as (? & ? & v' & ? & ? & (? & ? & Hsplit_v) & Hv); [apply attention_rows_in; in_table|].
  cbn [fst snd transforms] in *. same_results.
  do 6 eexists. split_and!; eassumption.
Qed.

(** X17: the entry point exports the configuration before it reads any
    tensor: when the export of the configuration raises, the entry point
    raises the same exception on every checkpoint. *)
Theorem entry_point_checks_config_first (e : exn) :
  _export_config_to_huggingface check_equal_for_all_and_get_value
    check_equal_for_all_seq_mixer_and_get_value validate config = Raise e →
  ∀ wm' : SafeTensorsWeightsManager A,
    export_to_huggingface_granitemoehybrid
      get_attention_head_type split_query_key_value_tensor_for_attention
      check_equal_for_all_and_get_value check_equal_for_all_seq_mixer_and_get_value py_floordiv
    validate
      config wm' = Raise e.
Proof.
  intros H wm'. unfold export_to_huggingface_granitemoehybrid. by rewrite H.
Qed.

(** X19: the entry point returns only for a configuration whose
    [num_layers] does not exceed the number of its sequence-mixer blocks: the
    loop reads one block type per layer, and a missing one ends the run with
    an exception. *)
Theorem entry_point_needs_a_block_per_layer original_config state_dict :
  export_to_huggingface_granitemoehybrid
    get_attention_head_type split_query_key_value_tensor_for_attention
    check_equal_for_all_and_get_value check_equal_for_all_seq_mixer_and_get_value py_floordiv
    validate
    config wm = Ok (original_config, state_dict) →
  Z.to_nat (GPTDolomiteConfig.num_layers config)
  ≤ length (GPTDolomiteConfig.sequence_mixer_blocks config).
Proof.
  intros (Hoc & head_dim & _ & Hsd)%entry_point_inv.
  destruct (export_state_dict_spec _ _ _ _ _ _ _ _ _ Hsd) as (? & _ & _ & _ & Htys).
  pose proof (export_config_layer_types_eq _ _ _ _ _ Hoc) as Htypes.
  rewrite get_sequence_mixer_block_types_spec in Htypes. injection Htypes as Htypes.
  rewrite <- (length_map (λ b, rename_block_type (block_type_of b))), Htypes.
  destruct (decide (Z.to_nat (GPTDolomiteConfig.num_layers config)
                    ≤ length (GraniteMoeHybridConfig.layer_types original_config)))
    as [|Hlt]; [done|].
  destruct (Htys (length (GraniteMoeHybridConfig.layer_types original_config))) as [bt Hbt];
    [lia|].
  apply lookup_lt_Some in Hbt. lia.
Qed.

End EntryPoint.

(** ** The further properties on the sample checkpoint *)

Lemma glu_keeps_elements_witness :
  well_formed (mkTensor [2; 3] [1; 2; 3; 4; 5; 6]%Z)
  ∧ _split_and_reorder_for_glu (mkTensor [2; 3] [1; 2; 3; 4; 5; 6]%Z) 1
    = Ok (mkTensor [2; 3] [3; 1; 2; 6; 4; 5]%Z)
  ∧ well_formed (mkTensor [2; 3] [3; 1; 2; 6; 4; 5]%Z)
  ∧ [3; 1; 2; 6; 4; 5]%Z ≡ₚ [1; 2; 3; 4; 5; 6]%Z.
Proof.
  assert (well_formed (mkTensor [2; 3] [1; 2; 3; 4; 5; 6]%Z)) as Hwf by reflexivity.
  assert (_split_and_reorder_for_glu (mkTensor [2; 3] [1; 2; 3; 4; 5; 6]%Z) 1
          = Ok (mkTensor [2; 3] [3; 1; 2; 6; 4; 5]%Z)) as Hglu by reflexivity.
  split; [exact Hwf|]. split; [exact Hglu|].
  exact (glu_keeps_elements _ _ _ Hwf Hglu).
Defined.

Lemma glu_injective_witness :
  well_formed (mkTensor [4] [1; 2; 3; 4]%Z)
  ∧ _split_and_reorder_for_glu (mkTensor [4] [1; 2; 3; 4]%Z) 0 = Ok (mkTensor [4] [3; 4; 1; 2]%Z)
  ∧ mkTensor [4] [1; 2; 3; 4]%Z = mkTensor [4] [1; 2; 3; 4]%Z.
Proof.
  assert (well_formed (mkTensor [4] [1; 2; 3; 4]%Z)) as Hwf by reflexivity.
  assert (_split_and_reorder_for_glu (mkTensor [4] [1; 2; 3; 4]%Z) 0
          = Ok (mkTensor [4] [3; 4; 1; 2]%Z)) as Hglu by reflexivity.
  split; [exact Hwf|]. split; [exact Hglu|].
  exact (glu_injective _ _ _ _ Hwf Hwf Hglu Hglu).
Defined.

Lemma exported_layers_have_types_witness :
  sample_run = Ok sample_state_dict
  ∧ Z.to_nat 2 ≤ length [PyStr "attention"; PyStr "mamba"].
Proof.
  assert (sample_run = Ok sample_state_dict) as Hrun
    by (vm_cast_no_check (eq_refl (Ok sample_state_dict))).
  split; [exact Hrun|].
  exact (exported_layers_have_types _ _ _ _ _ _ _ _ _ Hrun).
Defined.

Lemma no_entry_beyond_num_layers_witness :
  sample_run = Ok sample_state_dict
  ∧ (2 ≤ Z.of_nat 2)%Z
  ∧ starts_with_dot ".input_layernorm.weight"
  ∧ sample_state_dict !! fstr "model.layers." 2 ".input_layernorm.weight" = None.
Proof.
  assert (sample_run = Ok sample_state_dict) as Hrun
    by (vm_cast_no_check (eq_refl (Ok sample_state_dict))).
  assert ((2 ≤ Z.of_nat 2)%Z) as Hi by (vm_compute; discriminate).
  assert (starts_with_dot ".input_layernorm.weight") as Hdot by reflexivity.
  split; [exact Hrun|]. split; [exact Hi|]. split; [exact Hdot|].
  exact (no_entry_beyond_num_layers _ _ _ _ _ _ _ _ _ Hrun 2 _ Hi Hdot).
Defined.

Lemma only_global_entries_without_layers_witness :
  _export_state_dict_to_huggingface sample_get_attention_head_type sample_split sample_manager 0
    [] (PyInt 1) (PyInt 1) (PyInt 2) = Ok sample_state_dict_without_layers
  ∧ (0 ≤ 0)%Z
  ∧ is_Some (sample_state_dict_without_layers !! "model.norm.weight")
  ∧ ("model.norm.weight" = "model.embed_tokens.weight" ∨ "model.norm.weight" = "model.norm.weight"
     ∨ ("model.norm.weight" = "lm_head.weight" ∧ has_tensor sample_manager "lm_head.weight" = true)).
Proof.
  assert (_export_state_dict_to_huggingface sample_get_attention_head_type sample_split
            sample_manager 0 [] (PyInt 1) (PyInt 1) (PyInt 2)
          = Ok sample_state_dict_without_layers) as Hrun
    by (vm_cast_no_check (eq_refl (Ok sample_state_dict_without_layers))).
  assert ((0 ≤ 0)%Z) as Hn by reflexivity.
  assert (is_Some (sample_state_dict_without_layers !! "model.norm.weight")) as Hk
    by (exists (mkTensor [2] [5; 6]%Z); vm_compute; reflexivity).
  split; [exact Hrun|]. split; [exact Hn|]. split; [exact Hk|].
  exact (only_global_entries_without_layers _ _ _ _ _ _ _ _ _ _ Hrun Hn Hk).
Defined.

Lemma lm_head_exported_iff_witness :
  sample_run = Ok sample_state_dict
  ∧ has_tensor sample_manager "lm_head.weight" = false
  ∧ sample_state_dict !! "lm_head.weight" = None.
Proof.
  assert (sample_run = Ok sample_state_dict) as Hrun
    by (vm_cast_no_check (eq_refl (Ok sample_state_dict))).
  assert (has_tensor sample_manager "lm_head.weight" = false) as Hlm by (vm_compute; reflexivity).
  split; [exact Hrun|]. split; [exact Hlm|].
  pose proof (lm_head_exported_iff _ _ _ _ _ _ _ _ _ Hrun) as H.
  rewrite Hlm in H. exact H.
Defined.

Lemma shared_mlp_exported_iff_witness :
  sample_run = Ok sample_state_dict
  ∧ (Z.of_nat 1 < 2)%Z
  ∧ has_tensor sample_manager (fstr "transformer.h." 1 ".mlp_block.c_fc_shared.weight") = false
  ∧ sample_state_dict !! fstr "model.layers." 1 ".shared_mlp.input_linear.weight" = None
  ∧ sample_state_dict !! fstr "model.layers." 1 ".shared_mlp.output_linear.weight" = None.
Proof.
  assert (sample_run = Ok sample_state_dict) as Hrun
    by (vm_cast_no_check (eq_refl (Ok sample_state_dict))).
  assert ((Z.of_nat 1 < 2)%Z) as Hi by (vm_compute; reflexivity).
  assert (has_tensor sample_manager (fstr "transformer.h." 1 ".mlp_block.c_fc_shared.weight")
          = false) as Hshared by (vm_compute; reflexivity).
  split; [exact Hrun|]. split; [exact Hi|]. split; [exact Hshared|].
  pose proof (shared_mlp_exported_iff _ _ _ _ _ _ _ _ _ Hrun 1 Hi) as H.
  rewrite Hshared in H. exact H.
Defined.

Lemma mixer_entries_follow_block_type_witness :
  sample_run = Ok sample_state_dict
  ∧ [PyStr "attention"; PyStr "mamba"] !! 0 = Some (PyStr "attention")
  ∧ PyStr "attention" ≠ PyStr "mamba"
  ∧ sample_state_dict !! fstr "model.layers." 0 ".mamba.conv1d.weight" = None
  ∧ sample_state_dict !! fstr "model.layers." 0 ".mamba.norm.weight" = None.
Proof.
  assert (sample_run = Ok sample_state_dict) as Hrun
    by (vm_cast_no_check (eq_refl (Ok sample_state_dict))).
  assert ([PyStr "attention"; PyStr "mamba"] !! 0 = Some (PyStr "attention")) as Hty by reflexivity.
  assert (PyStr "attention" ≠ PyStr "mamba") as Hne by discriminate.
  split; [exact Hrun|]. split; [exact Hty|]. split; [exact Hne|].
  pose proof (proj1 (mixer_entries_follow_block_type _ _ _ _ _ _ _ _ _ Hrun 0 _ Hty) Hne)
    as (Hfirst & _ & _ & _ & _ & _ & _ & Hlast).
  exact (conj Hfirst Hlast).
Defined.

Lemma exported_tensor_keeps_shape_witness :
  sample_run = Ok sample_state_dict
  ∧ sample_state_dict !! "model.layers.0.block_sparse_moe.input_linear.weight"
    = Some (mkTensor [1; 4; 2] [5; 6; 7; 8; 1; 2; 3; 4]%Z)
  ∧ ∃ w, get_tensor sample_manager "transformer.h.0.mlp_block.c_fc.weight" = Ok w
         ∧ [1; 4; 2] = shape w
         ∧ (well_formed w →
            well_formed (mkTensor [1; 4; 2] [5; 6; 7; 8; 1; 2; 3; 4]%Z)
            ∧ [5; 6; 7; 8; 1; 2; 3; 4]%Z ≡ₚ data w).
Proof.
  assert (sample_run = Ok sample_state_dict) as Hrun
    by (vm_cast_no_check (eq_refl (Ok sample_state_dict))).
  assert (sample_state_dict !! "model.layers.0.block_sparse_moe.input_linear.weight"
          = Some (mkTensor [1; 4; 2] [5; 6; 7; 8; 1; 2; 3; 4]%Z)) as Hk by (vm_compute; reflexivity).
  assert (is_mapping (layer_mapping 0 (".mlp_block.c_fc.weight",
                                       ".block_sparse_moe.input_linear.weight", GluSwap 1))) as Hm
    by (right; exists 0; apply list_elem_of_fmap; eexists; split;
        [reflexivity|apply (bool_decide_unpack _); vm_compute; exact I]).
  split; [exact Hrun|]. split; [exact Hk|].
  exact (exported_tensor_keeps_shape _ _ _ _ _ _ _ _ _ Hrun _ _ _ Hk Hm eq_refl
           ltac:(discriminate)).
Defined.

Lemma block_types_hold_no_source_name_witness :
  _get_sequence_mixer_block_types sample_config = Ok [PyStr "attention"; PyStr "mamba"]
  ∧ (PyStr "mamba2" ∉ [PyStr "attention"; PyStr "mamba"])
  ∧ (PyStr "softmax_attention" ∉ [PyStr "attention"; PyStr "mamba"]).
Proof.
  assert (_get_sequence_mixer_block_types sample_config = Ok [PyStr "attention"; PyStr "mamba"])
    as Htypes by (vm_compute; reflexivity).
  split; [exact Htypes|].
  exact (block_types_hold_no_source_name _ _ Htypes).
Defined.

Lemma export_config_return_conditions_witness :
  is_ok (_export_config_to_huggingface sample_check_equal sample_check_equal_seq_mixer
           sample_validate sample_config) = true
  ∧ GPTDolomiteConfig.normalization_function sample_config = PyStr "rmsnorm"
  ∧ GPTDolomiteConfig.normalization_function sample_config_with_untyped_block = PyStr "rmsnorm"
  ∧ _export_config_to_huggingface sample_check_equal sample_check_equal_seq_mixer
      sample_validate sample_config_with_untyped_block = Raise ValueError
  ∧ ∃ kwargs,
      _export_config_to_huggingface sample_check_equal sample_check_equal_seq_mixer
        sample_validate sample_config_with_untyped_block
      = GraniteMoeHybridConfig_init sample_validate kwargs
      ∧ _get_sequence_mixer_block_types sample_config_with_untyped_block
        = Ok (GraniteMoeHybridConfig.layer_types kwargs).
Proof.
  assert (is_ok (_export_config_to_huggingface sample_check_equal sample_check_equal_seq_mixer
                   sample_validate sample_config) = true) as Hok by (vm_compute; reflexivity).
  assert (GPTDolomiteConfig.normalization_function sample_config_with_untyped_block = PyStr "rmsnorm")
    as Hnorm by reflexivity.
  assert (_export_config_to_huggingface sample_check_equal sample_check_equal_seq_mixer
            sample_validate sample_config_with_untyped_block = Raise ValueError) as Hraise
    by (vm_compute; reflexivity).
  split; [exact Hok|].
  split; [exact (proj1 (proj1 (export_config_return_conditions
                                 sample_check_equal sample_check_equal_seq_mixer
                                 sample_validate sample_config) Hok))|].
  split; [exact Hnorm|]. split; [exact Hraise|].
  apply (proj2 (export_config_return_conditions
                  sample_check_equal sample_check_equal_seq_mixer
                  sample_validate sample_config_with_untyped_block)).
  split; [exact Hnorm|].
  split; repeat (apply List.Forall_cons; [vm_compute; reflexivity|]); apply List.Forall_nil.
Defined.

Lemma export_config_block_fields_witness :
  _export_config_to_huggingface sample_check_equal sample_check_equal_seq_mixer
    sample_validate sample_config_without_key_value_heads
  = Ok sample_original_config
  ∧ sample_check_equal_seq_mixer sample_config_without_key_value_heads
      "sequence_mixer_blocks" "softmax_attention" "num_key_value_heads" = Ok PyNone
  ∧ GraniteMoeHybridConfig.num_attention_heads sample_original_config = PyInt 1
  ∧ GraniteMoeHybridConfig.num_key_value_heads sample_original_config = PyInt 1
  ∧ (∃ num_key_value_heads,
       sample_check_equal_seq_mixer sample_config_without_key_value_heads
         "sequence_mixer_blocks" "softmax_attention" "num_key_value_heads" = Ok num_key_value_heads
       ∧ GraniteMoeHybridConfig.num_key_value_heads sample_original_config
         = if_none (GraniteMoeHybridConfig.num_attention_heads sample_original_config)
                   num_key_value_heads)
  ∧ sample_check_equal_seq_mixer sample_config_without_key_value_heads
      "sequence_mixer_blocks" "mamba2" "state_size"
    = Ok (GraniteMoeHybridConfig.mamba_d_state sample_original_config)
  ∧ sample_check_equal sample_config_without_key_value_heads "mlp_blocks" "num_experts" None
    = Ok (GraniteMoeHybridConfig.num_local_experts sample_original_config).
Proof.
  assert (_export_config_to_huggingface sample_check_equal sample_check_equal_seq_mixer
            sample_validate sample_config_without_key_value_heads
          = Ok sample_original_config) as Hrun by (vm_compute; reflexivity).
  split; [exact Hrun|]. split; [vm_compute; reflexivity|].
  split; [reflexivity|]. split; [reflexivity|].
  pose proof (export_config_block_fields _ _ _ _ _ Hrun)
    as (_ & Hkv & _ & _ & _ & _ & _ & Hstate & _ & _ & _ & _ & _ & Hexperts & _).
  exact (conj Hkv (conj Hstate Hexperts)).
Defined.

Lemma export_config_layer_types_witness :
  _export_config_to_huggingface sample_check_equal sample_check_equal_seq_mixer
    sample_validate sample_config
  = Ok sample_original_config
  ∧ length (GraniteMoeHybridConfig.layer_types sample_original_config)
    = length (GPTDolomiteConfig.sequence_mixer_blocks sample_config)
  ∧ GraniteMoeHybridConfig.hidden_act sample_original_config = PyStr "silu".
Proof.
  assert (_export_config_to_huggingface sample_check_equal sample_check_equal_seq_mixer
    sample_validate sample_config
          = Ok sample_original_config) as Hrun by (vm_compute; reflexivity).
  split; [exact Hrun|].
  pose proof (export_config_layer_types _ _ _ _ _ Hrun) as (Hlen & _ & Hact & _).
  exact (conj Hlen Hact).
Defined.

Lemma entry_point_layer_types_match_tensors_witness :
  export_to_huggingface_granitemoehybrid
    sample_get_attention_head_type sample_split sample_check_equal sample_check_equal_seq_mixer
    int_floordiv sample_validate sample_config sample_manager = Ok (sample_original_config, sample_state_dict)
  ∧ (Z.of_nat 1 < GPTDolomiteConfig.num_layers sample_config)%Z
  ∧ ∃ block_type,
      GraniteMoeHybridConfig.layer_types sample_original_config !! 1 = Some block_type
      ∧ (is_Some (sample_state_dict !! fstr "model.layers." 1 ".self_attn.q_proj.weight")
         ↔ block_type = PyStr "attention")
      ∧ (is_Some (sample_state_dict !! fstr "model.layers." 1 ".mamba.A_log")
         ↔ block_type = PyStr "mamba").
Proof.
  assert (export_to_huggingface_granitemoehybrid
            sample_get_attention_head_type sample_split sample_check_equal
            sample_check_equal_seq_mixer int_floordiv sample_validate sample_config sample_manager
          = Ok (sample_original_config, sample_state_dict)) as Hrun
    by (vm_cast_no_check (eq_refl (Ok (sample_original_config, sample_state_dict)))).
  assert ((Z.of_nat 1 < GPTDolomiteConfig.num_layers sample_config)%Z) as Hi
    by (vm_compute; reflexivity).
  split; [exact Hrun|]. split; [exact Hi|].
  destruct (entry_point_layer_types_match_tensors _ _ _ _ _ _ _ _ _ _ 1 Hrun Hi)
    as (bt & Hbt & Hq & _ & _ & _ & _ & _ & _ & _ & HA_log & _).
  exists bt. exact (conj Hbt (conj Hq HA_log)).
Defined.

Lemma entry_point_splits_with_config_heads_witness :
  export_to_huggingface_granitemoehybrid
    sample_get_attention_head_type sample_split sample_check_equal sample_check_equal_seq_mixer
    int_floordiv sample_validate sample_config_without_key_value_heads sample_manager
  = Ok (sample_original_config, sample_state_dict)
  ∧ (Z.of_nat 0 < GPTDolomiteConfig.num_layers sample_config_without_key_value_heads)%Z
  ∧ GraniteMoeHybridConfig.layer_types sample_original_config !! 0 = Some (PyStr "attention")
  ∧ sample_check_equal_seq_mixer sample_config_without_key_value_heads
      "sequence_mixer_blocks" "softmax_attention" "num_key_value_heads" = Ok PyNone
  ∧ GraniteMoeHybridConfig.num_key_value_heads sample_original_config = PyInt 1
  ∧ ∃ aht head_dim c_attn q k v,
      sample_get_attention_head_type
        (GraniteMoeHybridConfig.num_attention_heads sample_original_config)
        (GraniteMoeHybridConfig.num_key_value_heads sample_original_config) = Ok aht
      ∧ int_floordiv (GPTDolomiteConfig.hidden_size sample_config_without_key_value_heads)
                     (GraniteMoeHybridConfig.num_attention_heads sample_original_config)
        = Ok head_dim
      ∧ get_tensor sample_manager (fstr "transformer.h." 0 ".sequence_mixer.c_attn.weight")
        = Ok c_attn
      ∧ sample_split c_attn
          (GraniteMoeHybridConfig.num_attention_heads sample_original_config)
          (GraniteMoeHybridConfig.num_key_value_heads sample_original_config) head_dim aht
        = Ok (q, k, v)
      ∧ sample_state_dict !! fstr "model.layers." 0 ".self_attn.q_proj.weight" = Some q
      ∧ sample_state_dict !! fstr "model.layers." 0 ".self_attn.k_proj.weight" = Some k
      ∧ sample_state_dict !! fstr "model.layers." 0 ".self_attn.v_proj.weight" = Some v
      ∧ ∃ num_key_value_heads,
          sample_check_equal_seq_mixer sample_config_without_key_value_heads
            "sequence_mixer_blocks" "softmax_attention" "num_attention_heads"
          = Ok (GraniteMoeHybridConfig.num_attention_heads sample_original_config)
          ∧ sample_check_equal_seq_mixer sample_config_without_key_value_heads
              "sequence_mixer_blocks" "softmax_attention" "num_key_value_heads"
            = Ok num_key_value_heads
          ∧ GraniteMoeHybridConfig.num_key_value_heads sample_original_config
            = if_none (GraniteMoeHybridConfig.num_attention_heads sample_original_config)
                      num_key_value_heads.
Proof.
  assert (export_to_huggingface_granitemoehybrid
            sample_get_attention_head_type sample_split sample_check_equal
            sample_check_equal_seq_mixer int_floordiv sample_validate
            sample_config_without_key_value_heads sample_manager
          = Ok (sample_original_config, sample_state_dict)) as Hrun
    by (vm_cast_no_check (eq_refl (Ok (sample_original_config, sample_state_dict)))).
  assert ((Z.of_nat 0 < GPTDolomiteConfig.num_layers sample_config_without_key_value_heads)%Z) as Hi
    by (vm_compute; reflexivity).
  assert (GraniteMoeHybridConfig.layer_types sample_original_config !! 0
          = Some (PyStr "attention")) as Hty by reflexivity.
  split; [exact Hrun|]. split; [exact Hi|]. split; [exact Hty|].
  split; [vm_compute; reflexivity|]. split; [reflexivity|].
  exact (entry_point_splits_with_config_heads _ _ _ _ _ _ _ _ _ _ 0 Hrun Hi Hty).
Defined.

Lemma entry_point_checks_config_first_witness :
  _export_config_to_huggingface sample_check_equal sample_check_equal_seq_mixer
    sample_validate
    (sample_config_with (PyStr "layernorm") PyNone) = Raise AssertionError
  ∧ export_to_huggingface_granitemoehybrid
      sample_get_attention_head_type sample_split sample_check_equal sample_check_equal_seq_mixer
      int_floordiv sample_validate (sample_config_with (PyStr "layernorm") PyNone) sample_manager
    = Raise AssertionError.
Proof.
  assert (_export_config_to_huggingface sample_check_equal sample_check_equal_seq_mixer
    sample_validate
            (sample_config_with (PyStr "layernorm") PyNone) = Raise AssertionError) as Hraise
    by reflexivity.
  split; [exact Hraise|].
  exact (entry_point_checks_config_first sample_get_attention_head_type sample_split
           _ _ _ int_floordiv _ _ Hraise sample_manager).
Defined.

Lemma block_type_of_dict_without_key_witness :
  [BlockDict (∅ : gmap string pyval)] !! 0 = Some (BlockDict ∅)
  ∧ (∅ : gmap string pyval) !! "sequence_mixer_type" = None
  ∧ ∃ types,
      _get_sequence_mixer_block_types
        (GPTDolomiteConfig.mk PyNone PyNone PyNone 1 PyNone PyNone PyNone PyNone PyNone PyNone PyNone
           PyNone PyNone PyNone PyNone PyNone PyNone PyNone PyNone PyNone [BlockDict ∅] [])
      = Ok types
      ∧ types !! 0 = Some PyNone.
Proof.
  assert ([BlockDict (∅ : gmap string pyval)] !! 0 = Some (BlockDict ∅)) as Hb by reflexivity.
  assert ((∅ : gmap string pyval) !! "sequence_mixer_type" = None) as Hd by reflexivity.
  split; [exact Hb|]. split; [exact Hd|].
  exact (block_type_of_dict_without_key
           (GPTDolomiteConfig.mk PyNone PyNone PyNone 1 PyNone PyNone PyNone PyNone PyNone PyNone
              PyNone PyNone PyNone PyNone PyNone PyNone PyNone PyNone PyNone PyNone
              [BlockDict ∅] [])
           0 ∅ Hb Hd).
Defined.

Lemma entry_point_needs_a_block_per_layer_witness :
  export_to_huggingface_granitemoehybrid
    sample_get_attention_head_type sample_split sample_check_equal sample_check_equal_seq_mixer
    int_floordiv sample_validate sample_config sample_manager = Ok (sample_original_config, sample_state_dict)
  ∧ Z.to_nat (GPTDolomiteConfig.num_layers sample_config)
    ≤ length (GPTDolomiteConfig.sequence_mixer_blocks sample_config).
Proof.
  assert (export_to_huggingface_granitemoehybrid
            sample_get_attention_head_type sample_split sample_check_equal
            sample_check_equal_seq_mixer int_floordiv sample_validate sample_config sample_manager
          = Ok (sample_original_config, sample_state_dict)) as Hrun
    by (vm_cast_no_check (eq_refl (Ok (sample_original_config, sample_state_dict)))).
  split; [exact Hrun|].
  exact (entry_point_needs_a_block_per_layer _ _ _ _ _ _ _ _ _ _ Hrun).
Defined.
